(** * PropertyRent backend: chatbot flow engine, feedback store, property
      matcher and property deletion

    A shallow embedding of the parts of the backend that carry logic:
    - [controller/chatbot/chatbotEngine.py] (the FLOWS table and its lookups),
    - [controller/chatbot/mainChatbotController.py] ([handle_chat_response]),
    - [controller/chatbot/propertySearchController.py] ([handle_response]),
    - [controller/chatbot/chatbotFeedbackController.py] (the pipe-delimited
      store kept in [guest_email]),
    - [controller/propertyRecommendationController.py] (the match score),
    - [controller/propertyController.py] (delete and get by id).

    Conventions.  A Python [int] is a [Z]; a [Decimal] or a JSON number is a
    [Q]; a [str] is a [string] of bytes; a nullable column is an [option];
    a [dict] used as a table is a [gmap]; database tables are maps keyed by
    their unique column, or lists of rows; a function that writes to the
    database takes the database and returns the new one. *)

From Stdlib Require Import ZArith QArith Qround Lia List Ascii String Bool.
From stdpp Require Import gmap strings list fin_maps pretty sorting.

Open Scope string_scope.
Open Scope Z_scope.

(** ** Python values *)

Module Py.

(** What a call does: it returns a value or raises. *)
Inductive exn := IndexError | KeyError | TypeError | ValueError.

Inductive result (A : Type) :=
| Returns (a : A)
| Raises (e : exn).
Arguments Returns {A} a.
Arguments Raises {A} e.

Definition bind {A B} (r : result A) (k : A -> result B) : result B :=
  match r with
  | Returns a => k a
  | Raises e => Raises e
  end.

(** [l[i]]: a negative index counts from the end, and an index outside
    [-len(l) .. len(l)-1] raises IndexError. *)
Definition index {A} (l : list A) (i : Z) : result A :=
  let n := Z.of_nat (length l) in
  let j := if i <? 0 then n + i else i in
  if (j <? 0) || (n <=? j) then Raises IndexError
  else match l !! Z.to_nat j with
       | Some x => Returns x
       | None => Raises IndexError
       end.

(** [l[:n]]: a negative [n] leaves out the last [-n] entries. *)
Definition take {A} (l : list A) (n : Z) : list A :=
  if n <? 0 then firstn (length l - Z.to_nat (- n)) l
  else firstn (Z.to_nat n) l.

(** [str.lower()], on the ASCII range: bytes 65..90 gain 32, every other
    byte (so every byte of a non-ASCII character) is kept. *)
Definition lower_ascii (c : ascii) : ascii :=
  let n := nat_of_ascii c in
  if ((65 <=? n) && (n <=? 90))%nat then ascii_of_nat (n + 32) else c.

Fixpoint lower (s : string) : string :=
  match s with
  | EmptyString => EmptyString
  | String c s' => String (lower_ascii c) (lower s')
  end.

(** [s.startswith(p)] *)
Definition startswith (s p : string) : bool := String.prefix p s.

(** [sub in s] *)
Fixpoint contains (sub s : string) : bool :=
  String.prefix sub s ||
  match s with
  | EmptyString => false
  | String _ s' => contains sub s'
  end.

(** A string without the byte [x]: [x not in s]. *)
Definition lacks (x : ascii) (s : string) : Prop :=
  contains (String x EmptyString) s = false.

Fixpoint rev_append (acc s : string) : string :=
  match acc with
  | EmptyString => s
  | String c acc' => rev_append acc' (String c s)
  end.

(** [s.split(sep)] for a non-empty [sep]: a left-to-right scan; [skip]
    counts the bytes of a matched separator still to pass over, and [cur]
    is the current piece, reversed. *)
Fixpoint split_scan (sep : string) (skip : nat) (cur : string) (s : string)
  : list string :=
  match s with
  | EmptyString => [rev_append cur EmptyString]
  | String c s' =>
      match skip with
      | S k => split_scan sep k cur s'
      | O =>
          if String.prefix sep s
          then rev_append cur EmptyString
               :: split_scan sep (String.length sep - 1) EmptyString s'
          else split_scan sep O (String c cur) s'
      end
  end.

Definition split (s sep : string) : list string := split_scan sep O EmptyString s.

(** [s.replace(old, new)] for a non-empty [old]: every occurrence, found
    left to right without overlap, is replaced. *)
Fixpoint replace_scan (old new : string) (skip : nat) (s : string) : string :=
  match s with
  | EmptyString => EmptyString
  | String c s' =>
      match skip with
      | S k => replace_scan old new k s'
      | O =>
          if String.prefix old s
          then new ++ replace_scan old new (String.length old - 1) s'
          else String c (replace_scan old new O s')
      end
  end.

Definition replace (s old new : string) : string := replace_scan old new O s.

(** Truth values of the objects the code tests with [if x] / [x and ...]. *)
Definition truthy_str (s : option string) : bool :=
  match s with
  | Some (String _ _) => true
  | _ => false
  end.

Definition truthy_int (n : option Z) : bool :=
  match n with
  | Some n => negb (n =? 0)
  | None => false
  end.

Definition truthy_num (q : option Q) : bool :=
  match q with
  | Some q => negb (Qeq_bool q 0)
  | None => false
  end.

End Py.

(** ** model/chatbotModel.py *)

Inductive ChatbotFlowType :=
| PROPERTY_SEARCH | RENT_INQUIRY | SCHEDULE_VISIT | GENERAL_SUPPORT | BUG_REPORT | FEEDBACK.

(** A member of the [str] enum compares and hashes as its value. *)
Definition flow_value (f : ChatbotFlowType) : string :=
  match f with
  | PROPERTY_SEARCH => "property_search"
  | RENT_INQUIRY => "rent_inquiry"
  | SCHEDULE_VISIT => "schedule_visit"
  | GENERAL_SUPPORT => "general_support"
  | BUG_REPORT => "bug_report"
  | FEEDBACK => "feedback"
  end.

Inductive ConversationStatus := ACTIVE | COMPLETED | ESCALATED | ABANDONED.

#[global] Instance ChatbotFlowType_eq_dec : EqDecision ChatbotFlowType.
Proof. solve_decision. Defined.

#[global] Instance ConversationStatus_eq_dec : EqDecision ConversationStatus.
Proof. solve_decision. Defined.

(** ** controller/chatbot/chatbotEngine.py *)

Module ChatbotFlowEngine.

(** One entry of a flow: the keys a question dict may hold. *)
Record QuestionData := {
  question : string;
  options : option (list string);
  input_type : string;
  next_flow : option (list (string * string));
  is_final : option bool
}.

Definition ask (q : string) (opts : option (list string)) (ty : string) : QuestionData :=
  {| question := q; options := opts; input_type := ty;
     next_flow := None; is_final := None |}.

Definition initial_flow : list QuestionData :=
  [ {| question := "Hi! I'm your property assistant. How can I help you today?";
       options := Some [ "Find a property to rent";
                         "Ask about a specific property";
                         "Schedule a property visit";
                         "Report an issue";
                         "Give feedback" ];
       input_type := "choice";
       next_flow := Some [ ("Find a property to rent", "property_search");
                           ("Ask about a specific property", "rent_inquiry");
                           ("Schedule a property visit", "schedule_visit");
                           ("Report an issue", "bug_report");
                           ("Give feedback", "feedback") ];
       is_final := None |} ].

Definition email_question : string :=
  "Please provide your email address so our team can contact you with suitable property options:".

Definition property_search_flow : list QuestionData :=
  [ ask "What type of property are you looking for?"
        (Some ["Apartment"; "House"; "Studio"; "Villa"; "Any"]) "choice";
    ask "Which city are you interested in?" None "text";
    ask "What's your budget range per month?"
        (Some ["Under ₹10,000"; "₹10,000-₹25,000"; "₹25,000-₹50,000";
               "₹50,000-₹1,00,000"; "Above ₹1,00,000"]) "choice";
    ask "How many bedrooms do you need?"
        (Some ["Studio/0"; "1 BHK"; "2 BHK"; "3 BHK"; "4+ BHK"]) "choice";
    ask "Do you have pets?" (Some ["Yes"; "No"]) "choice";
    ask "When do you want to move in?"
        (Some ["Immediately"; "Within 1 month"; "1-3 months"; "3+ months"]) "choice";
    ask "Any specific amenities you need?"
        (Some ["Parking"; "Gym"; "Swimming Pool"; "Security"; "None specific"]) "choice";
    {| question := email_question; options := None; input_type := "email";
       next_flow := None; is_final := Some false |} ].

Definition rent_inquiry_flow : list QuestionData :=
  [ ask "Do you have a specific property in mind?" (Some ["Yes"; "No"]) "choice" ].

Definition schedule_visit_flow : list QuestionData :=
  [ ask "Which property would you like to visit?" None "text" ].

Definition bug_report_flow : list QuestionData :=
  [ ask "What type of issue would you like to report?"
        (Some ["Website bug"; "Property not found error"; "Search not working";
               "Other technical issue"]) "choice" ].

Definition feedback_flow : list QuestionData :=
  [ ask "What aspect would you like to give feedback about?"
        (Some ["Property search experience"; "Website usability";
               "Property listings quality"; "Customer support";
               "Property visit experience"; "Overall service"]) "choice" ].

Definition FLOWS : gmap string (list QuestionData) :=
  <["initial" := initial_flow]>
  (<["property_search" := property_search_flow]>
  (<["rent_inquiry" := rent_inquiry_flow]>
  (<["schedule_visit" := schedule_visit_flow]>
  (<["bug_report" := bug_report_flow]>
  (<["feedback" := feedback_flow]> ∅))))).

(** The dict a lookup hands back. *)
Record Question := {
  q_question : string;
  q_options : option (list string);
  q_input_type : string;
  q_step_number : Z;
  q_is_final : bool
}.

Definition get_initial_question : Py.result Question :=
  match FLOWS !! "initial" with
  | None => Py.Raises Py.KeyError
  | Some flow =>
      Py.bind (Py.index flow 0) (fun initial_flow =>
      Py.Returns {| q_question := question initial_flow;
                    q_options := options initial_flow;
                    q_input_type := input_type initial_flow;
                    q_step_number := 0;
                    q_is_final := false |})
  end.

Definition get_next_question (flow_type : string) (step : Z)
  : Py.result (option Question) :=
  match FLOWS !! flow_type with
  | None => Py.Returns None
  | Some flow =>
      if Z.of_nat (length flow) <=? step then Py.Returns None
      else
        Py.bind (Py.index flow step) (fun question_data =>
        Py.Returns (Some
          {| q_question := question question_data;
             q_options := options question_data;
             q_input_type := input_type question_data;
             q_step_number := step + 1;
             q_is_final :=
               match is_final question_data with
               | Some b => b
               | None => step =? Z.of_nat (length flow) - 1
               end |}))
  end.

Definition flow_mapping : gmap string ChatbotFlowType :=
  <["find a property to rent" := PROPERTY_SEARCH]>
  (<["ask about a specific property" := RENT_INQUIRY]>
  (<["schedule a property visit" := SCHEDULE_VISIT]>
  (<["report an issue" := BUG_REPORT]>
  (<["give feedback" := FEEDBACK]> ∅)))).

Definition determine_flow_from_response (response : string) : ChatbotFlowType :=
  let response_lower := Py.lower response in
  match flow_mapping !! response_lower with
  | Some f => f
  | None => BUG_REPORT
  end.

End ChatbotFlowEngine.

(** ** The chatbot tables *)

(** A row of [chatbot_conversations].  Timestamps are microseconds; the
    length limit of the text columns (255 for [guest_email]) is not part
    of the model. *)
Record ChatbotConversation := {
  conv_id : N;
  session_id : string;
  flow_type : option ChatbotFlowType;
  guest_email : option string;
  guest_name : option string;
  current_step : Z;
  status : ConversationStatus;
  is_satisfied : option bool;
  user_ip : option string;
  user_agent : option string;
  conv_created_at : Z;
  updated_at : Z;
  completed_at : option Z
}.

(** A row of [chatbot_messages]; [conversation] is the foreign key. *)
Record ChatbotMessage := {
  msg_id : N;
  conversation : N;
  step_number : Z;
  question_text : string;
  user_response : option string;
  response_time_seconds : option Z;
  created_at : Z;
  responded_at : option Z
}.

(** [session_id] is unique, so the conversations are a map from it. *)
Record ChatDB := {
  conversations : gmap string ChatbotConversation;
  messages : list ChatbotMessage
}.

(** What a request draws from outside: the clock, and the uuid4 of the row
    it may create. *)
Record Env := { now : Z; fresh_id : N }.

Module Orm.

(** [ChatbotConversation.get_or_none(session_id=...)] *)
Definition get_conversation (db : ChatDB) (sid : string) : option ChatbotConversation :=
  conversations db !! sid.

(** [conversation.save()]: the row is written back, [updated_at] is
    [auto_now]. *)
Definition touch (env : Env) (c : ChatbotConversation) : ChatbotConversation :=
  {| conv_id := conv_id c; session_id := session_id c; flow_type := flow_type c;
     guest_email := guest_email c; guest_name := guest_name c;
     current_step := current_step c; status := status c;
     is_satisfied := is_satisfied c; user_ip := user_ip c;
     user_agent := user_agent c; conv_created_at := conv_created_at c;
     updated_at := now env; completed_at := completed_at c |}.

Definition save_conversation (env : Env) (c : ChatbotConversation) (db : ChatDB)
  : ChatbotConversation * ChatDB :=
  let c' := touch env c in
  (c', {| conversations := <[session_id c := c']> (conversations db);
          messages := messages db |}).

(** [ChatbotMessage.filter(conversation=c).order_by('-step_number').first()]:
    the row of the conversation with the greatest step number (the
    earliest such row when several share it). *)
Definition later (best : option ChatbotMessage) (m : ChatbotMessage) : option ChatbotMessage :=
  match best with
  | None => Some m
  | Some b => if step_number b <? step_number m then Some m else Some b
  end.

Definition last_message (db : ChatDB) (c : ChatbotConversation) : option ChatbotMessage :=
  fold_left (fun best m => if (conversation m =? conv_id c)%N then later best m else best)
            (messages db) None.

(** [message.save()] *)
Definition save_message (m : ChatbotMessage) (db : ChatDB) : ChatDB :=
  {| conversations := conversations db;
     messages := map (fun r => if (msg_id r =? msg_id m)%N then m else r) (messages db) |}.

(** [ChatbotMessage.create(conversation=c, step_number=n, question_text=q)] *)
Definition create_message (env : Env) (c : ChatbotConversation) (n : Z) (q : string)
                          (db : ChatDB) : ChatDB :=
  {| conversations := conversations db;
     messages := messages db ++
       [ {| msg_id := fresh_id env; conversation := conv_id c; step_number := n;
            question_text := q; user_response := None;
            response_time_seconds := None; created_at := now env;
            responded_at := None |} ] |}.

End Orm.

Definition set_flow_type (f : option ChatbotFlowType) (c : ChatbotConversation) : ChatbotConversation :=
  {| conv_id := conv_id c; session_id := session_id c; flow_type := f;
     guest_email := guest_email c; guest_name := guest_name c;
     current_step := current_step c; status := status c;
     is_satisfied := is_satisfied c; user_ip := user_ip c;
     user_agent := user_agent c; conv_created_at := conv_created_at c;
     updated_at := updated_at c; completed_at := completed_at c |}.

Definition set_current_step (n : Z) (c : ChatbotConversation) : ChatbotConversation :=
  {| conv_id := conv_id c; session_id := session_id c; flow_type := flow_type c;
     guest_email := guest_email c; guest_name := guest_name c;
     current_step := n; status := status c;
     is_satisfied := is_satisfied c; user_ip := user_ip c;
     user_agent := user_agent c; conv_created_at := conv_created_at c;
     updated_at := updated_at c; completed_at := completed_at c |}.

Definition set_guest_email (e : option string) (c : ChatbotConversation) : ChatbotConversation :=
  {| conv_id := conv_id c; session_id := session_id c; flow_type := flow_type c;
     guest_email := e; guest_name := guest_name c;
     current_step := current_step c; status := status c;
     is_satisfied := is_satisfied c; user_ip := user_ip c;
     user_agent := user_agent c; conv_created_at := conv_created_at c;
     updated_at := updated_at c; completed_at := completed_at c |}.

(** [message.user_response = r; message.responded_at = now] *)
Definition answer (env : Env) (r : string) (m : ChatbotMessage) : ChatbotMessage :=
  {| msg_id := msg_id m; conversation := conversation m; step_number := step_number m;
     question_text := question_text m; user_response := Some r;
     response_time_seconds := response_time_seconds m; created_at := created_at m;
     responded_at := Some (now env) |}.

(** [message.response_time_seconds = int((responded_at - created_at).total_seconds())] *)
Definition time_response (env : Env) (m : ChatbotMessage) : ChatbotMessage :=
  {| msg_id := msg_id m; conversation := conversation m; step_number := step_number m;
     question_text := question_text m; user_response := user_response m;
     response_time_seconds := Some (Z.quot (now env - created_at m) 1000000);
     created_at := created_at m; responded_at := responded_at m |}.

(** The flow name a controller passes to the engine: the enum value, or
    Python's None, which is no key of FLOWS. *)
Definition next_question_of (f : option ChatbotFlowType) (step : Z)
  : Py.result (option ChatbotFlowEngine.Question) :=
  match f with
  | Some f => ChatbotFlowEngine.get_next_question (flow_value f) step
  | None => Py.Returns None
  end.

(** ** controller/chatbot/mainChatbotController.py *)

Module MainChatbotController.

(** The flow controller a response is handed to. *)
Inductive Route :=
| PropertySearch | RentInquiry | ScheduleVisit | BugReport | Feedback | StandardFlow.

(** [handle_chat_response] raises an HTTPException, or hands the
    conversation, the message it answered and the response to one of the
    flow controllers (whose own work is not part of this function). *)
Inductive Outcome :=
| HTTPException (status_code : Z) (detail : string)
| Handled (r : Route) (c : ChatbotConversation) (m : option ChatbotMessage).

Definition HTTP_400_BAD_REQUEST : Z := 400.
Definition HTTP_404_NOT_FOUND : Z := 404.

Definition route_of (f : option ChatbotFlowType) : Route :=
  match f with
  | Some PROPERTY_SEARCH => PropertySearch
  | Some RENT_INQUIRY => RentInquiry
  | Some SCHEDULE_VISIT => ScheduleVisit
  | Some BUG_REPORT => BugReport
  | Some FEEDBACK => Feedback
  | _ => StandardFlow
  end.

Definition handle_chat_response (env : Env) (sid : string) (response : string)
                                (db : ChatDB) : Outcome * ChatDB :=
  match Orm.get_conversation db sid with
  | None => (HTTPException HTTP_404_NOT_FOUND "Conversation not found", db)
  | Some conversation =>
      if negb (bool_decide (status conversation = ACTIVE))
      then (HTTPException HTTP_400_BAD_REQUEST "Conversation is not active", db)
      else
        match Orm.last_message db conversation with
        | Some current_message =>
            if negb (Py.truthy_str (user_response current_message))
            then
              let current_message := answer env response current_message in
              let db := Orm.save_message current_message db in
              let current_message := time_response env current_message in
              let db := Orm.save_message current_message db in
              let '(conversation, db) :=
                if (current_step conversation =? 0)
                   && negb (bool_decide (is_Some (flow_type conversation)))
                then
                  let flow := ChatbotFlowEngine.determine_flow_from_response response in
                  Orm.save_conversation env (set_flow_type (Some flow) conversation) db
                else (conversation, db) in
              (Handled (route_of (flow_type conversation)) conversation (Some current_message), db)
            else (Handled StandardFlow conversation (Some current_message), db)
        | None => (Handled StandardFlow conversation None, db)
        end
  end.

End MainChatbotController.

(** ** controller/chatbot/propertySearchController.py *)

Module PropertySearchController.

(** [handle_response] ends by calling [_show_completion_message], by
    returning the next question, or, when anything raised, by calling
    [ConversationController.handle_satisfaction_question]. *)
Inductive Outcome :=
| ShowCompletionMessage (c : ChatbotConversation)
| NextQuestion (c : ChatbotConversation) (q : ChatbotFlowEngine.Question)
| SatisfactionQuestion (c : ChatbotConversation).

Definition email_prompt : string :=
  "please provide your email address so our team can contact you with suitable property options".

(** The test guarding the second call of [_show_completion_message]. *)
Definition answered_email_question (q : ChatbotFlowEngine.Question) (response : string)
                                   (current_question : string) : bool :=
  ChatbotFlowEngine.q_is_final q
  && Py.truthy_str (Some response)
  && bool_decide (current_question = email_prompt).

Definition handle_response (env : Env) (conversation : ChatbotConversation)
                           (current_message : ChatbotMessage) (response : string)
                           (db : ChatDB) : Outcome * ChatDB :=
  let current_message := answer env response current_message in
  let db := Orm.save_message current_message db in
  let current_question := Py.lower (question_text current_message) in
  let question_step := current_step conversation in
  match next_question_of (flow_type conversation) question_step with
  | Py.Raises _ => (SatisfactionQuestion conversation, db)
  | Py.Returns None => (ShowCompletionMessage conversation, db)
  | Py.Returns (Some next_question_data) =>
      if answered_email_question next_question_data response current_question
      then (ShowCompletionMessage conversation, db)
      else
        let next_step_number := current_step conversation + 1 in
        let db := Orm.create_message env conversation next_step_number
                    (ChatbotFlowEngine.q_question next_question_data) db in
        let '(conversation, db) :=
          Orm.save_conversation env
            (set_current_step (current_step conversation + 1) conversation) db in
        (NextQuestion conversation next_question_data, db)
  end.

End PropertySearchController.

(** ** controller/chatbot/chatbotFeedbackController.py *)

Definition set_completed (env : Env) (name : option string) (c : ChatbotConversation)
  : ChatbotConversation :=
  {| conv_id := conv_id c; session_id := session_id c; flow_type := flow_type c;
     guest_email := guest_email c; guest_name := name;
     current_step := current_step c; status := COMPLETED;
     is_satisfied := is_satisfied c; user_ip := user_ip c;
     user_agent := user_agent c; conv_created_at := conv_created_at c;
     updated_at := updated_at c; completed_at := Some (now env) |}.

Module ChatbotFeedbackController.

(** [conversation.guest_email or ""] *)
Definition stored_data (c : ChatbotConversation) : string :=
  match guest_email c with
  | Some s => s
  | None => ""
  end.

(** The five fields [_complete_feedback] extracts. *)
Record Parsed := {
  category : string;
  rating : string;
  details : string;
  suggestions : string;
  followup : string
}.

Record FeedbackData := {
  fd_category : string;
  fd_rating : string;
  fd_details : string;
  fd_suggestions : string;
  fd_followup_requested : bool;
  fd_user_email : string;
  fd_session_id : string
}.

(** A handler asks the next question, submits the feedback, or falls back
    to the satisfaction question. *)
Inductive Outcome :=
| Asked (c : ChatbotConversation) (question : string)
| Submitted (c : ChatbotConversation) (data : FeedbackData)
| SatisfactionQuestion (c : ChatbotConversation).

(** The shared tail of the asking handlers: create the message, advance
    the step, save. *)
Definition ask_next (env : Env) (c : ChatbotConversation) (q : string) (db : ChatDB)
  : Outcome * ChatDB :=
  let next_step := current_step c + 1 in
  let db := Orm.create_message env c next_step q db in
  let '(c, db) := Orm.save_conversation env (set_current_step next_step c) db in
  (Asked c q, db).

Definition _start_feedback_flow (env : Env) (c : ChatbotConversation) (db : ChatDB)
  : Outcome * ChatDB :=
  ask_next env c "What area would you like to give feedback about?" db.

Definition _handle_feedback_category_selection
    (env : Env) (c : ChatbotConversation) (response : string) (db : ChatDB)
  : Outcome * ChatDB :=
  let c := set_guest_email (Some ("CATEGORY:" ++ response)) c in
  let rating_question :=
    "Please rate your experience with " ++ Py.lower response ++ ":" in
  ask_next env c rating_question db.

(** The digit read off a rating text, 3 when none of the marks is there. *)
Definition rating_value (text : string) : Z :=
  if Py.contains "(5/5)" text then 5
  else if Py.contains "(4/5)" text then 4
  else if Py.contains "(3/5)" text then 3
  else if Py.contains "(2/5)" text then 2
  else if Py.contains "(1/5)" text then 1
  else 3.

Definition _handle_rating_selection
    (env : Env) (c : ChatbotConversation) (response : string) (db : ChatDB)
  : Outcome * ChatDB :=
  let stored := stored_data c in
  let c := set_guest_email (Some (stored ++ "|RATING:" ++ response)) c in
  let category :=
    if Py.contains "CATEGORY:" stored
    then hd "" (Py.split (Py.replace stored "CATEGORY:" "") "|")
    else "" in
  let details_question :=
    if 4 <=? rating_value response
    then "Great! What specifically did you like about our " ++ Py.lower category ++ "?"
    else "What would you like us to improve about our " ++ Py.lower category ++ "?" in
  ask_next env c details_question db.

Definition _ask_followup_preference (env : Env) (c : ChatbotConversation) (db : ChatDB)
  : Outcome * ChatDB :=
  ask_next env c "Would you like us to follow up with you about your feedback?" db.

(** [stored_data.split("|RATING:")[1].split("|")[0]], taken only when
    ["|RATING:"] occurs, so that the first split has a second piece. *)
Definition stored_rating_value (stored : string) : Z :=
  if Py.contains "|RATING:" stored
  then rating_value (hd "" (Py.split (nth 1 (Py.split stored "|RATING:") "") "|"))
  else 3.

Definition _handle_detailed_feedback
    (env : Env) (c : ChatbotConversation) (response : string) (db : ChatDB)
  : Outcome * ChatDB :=
  let stored := stored_data c in
  let c := set_guest_email (Some (stored ++ "|DETAILS:" ++ response)) c in
  if 4 <=? stored_rating_value stored
  then ask_next env c
         "Any suggestions for improvement or new features you'd like to see?" db
  else _ask_followup_preference env c db.

Definition _handle_improvement_suggestions
    (env : Env) (c : ChatbotConversation) (response : string) (db : ChatDB)
  : Outcome * ChatDB :=
  let stored := stored_data c in
  let c := set_guest_email (Some (stored ++ "|SUGGESTIONS:" ++ response)) c in
  _ask_followup_preference env c db.

(** One turn of the loop over [stored_data.split("|")]. *)
Definition parse_part (p : Parsed) (part : string) : Parsed :=
  if Py.startswith part "CATEGORY:" then
    {| category := Py.replace part "CATEGORY:" ""; rating := rating p;
       details := details p; suggestions := suggestions p; followup := followup p |}
  else if Py.startswith part "RATING:" then
    {| category := category p; rating := Py.replace part "RATING:" "";
       details := details p; suggestions := suggestions p; followup := followup p |}
  else if Py.startswith part "DETAILS:" then
    {| category := category p; rating := rating p;
       details := Py.replace part "DETAILS:" ""; suggestions := suggestions p;
       followup := followup p |}
  else if Py.startswith part "SUGGESTIONS:" then
    {| category := category p; rating := rating p; details := details p;
       suggestions := Py.replace part "SUGGESTIONS:" ""; followup := followup p |}
  else if Py.startswith part "FOLLOWUP:" then
    {| category := category p; rating := rating p; details := details p;
       suggestions := suggestions p; followup := Py.replace part "FOLLOWUP:" "" |}
  else p.

Definition parse_stored (stored : string) : Parsed :=
  fold_left parse_part (Py.split stored "|")
    {| category := ""; rating := ""; details := ""; suggestions := ""; followup := "" |}.

Definition _complete_feedback
    (env : Env) (c : ChatbotConversation) (user_email : option string) (db : ChatDB)
  : Outcome * ChatDB :=
  let p := parse_stored (stored_data c) in
  let name := if Py.truthy_str user_email then user_email else guest_name c in
  let '(c, db) := Orm.save_conversation env (set_completed env name c) db in
  let data :=
    {| fd_category := category p;
       fd_rating := rating p;
       fd_details := details p;
       fd_suggestions :=
         if Py.truthy_str (Some (suggestions p)) then suggestions p
         else "No suggestions provided";
       fd_followup_requested := bool_decide (followup p = "Yes, please contact me");
       fd_user_email :=
         match user_email with
         | Some (String a e) => String a e
         | _ => "No contact requested"
         end;
       fd_session_id := session_id c |} in
  (Submitted c data, db).

Definition _handle_followup_preference
    (env : Env) (c : ChatbotConversation) (response : string) (db : ChatDB)
  : Outcome * ChatDB :=
  let stored := stored_data c in
  let c := set_guest_email (Some (stored ++ "|FOLLOWUP:" ++ response)) c in
  if bool_decide (Py.lower response = "yes, please contact me")
  then ask_next env c
         "Please provide your email address so we can follow up with you:" db
  else _complete_feedback env c None db.

Definition _handle_contact_info
    (env : Env) (c : ChatbotConversation) (response : string) (db : ChatDB)
  : Outcome * ChatDB :=
  _complete_feedback env c (Some response) db.

Definition _handle_default_flow (c : ChatbotConversation) (db : ChatDB)
  : Outcome * ChatDB :=
  (SatisfactionQuestion c, db).

(** The dispatch on the text of the question just answered. *)
Definition handle_response (env : Env) (c : ChatbotConversation)
                           (current_message : ChatbotMessage) (response : string)
                           (db : ChatDB) : Outcome * ChatDB :=
  let q := Py.lower (question_text current_message) in
  if Py.contains "hi! i'm your property assistant" q || (current_step c =? 0)
  then _start_feedback_flow env c db
  else if Py.contains "what area would you like to give feedback about" q
  then _handle_feedback_category_selection env c response db
  else if Py.contains "please rate your experience" q
          || Py.contains "how would you rate" q
  then _handle_rating_selection env c response db
  else if Py.contains "please share your detailed feedback" q
          || Py.contains "what specifically" q
          || Py.contains "what aspects" q
          || Py.contains "what did you like" q
          || Py.contains "how can we improve" q
          || Py.contains "what improvements would you like" q
  then _handle_detailed_feedback env c response db
  else if Py.contains "any suggestions for improvement" q
          || (Py.contains "suggestions" q && Py.contains "improvement" q)
  then _handle_improvement_suggestions env c response db
  else if Py.contains "would you like us to follow up" q
  then _handle_followup_preference env c response db
  else if Py.contains "please provide your email" q
  then _handle_contact_info env c response db
  else _handle_default_flow c db.

Definition conversation_of (o : Outcome) : ChatbotConversation :=
  match o with
  | Asked c _ => c
  | Submitted c _ => c
  | SatisfactionQuestion c => c
  end.

(** The format of the stored text, as the specification writes it:
    the category, rating, details, suggestions (when asked for) and
    follow-up answers, each behind its label, joined by bars. *)
Definition serialize (c r d : string) (s : option string) (f : string) : string :=
  "CATEGORY:" ++ c ++ "|RATING:" ++ r ++ "|DETAILS:" ++ d
  ++ match s with
     | Some s => "|SUGGESTIONS:" ++ s
     | None => ""
     end
  ++ "|FOLLOWUP:" ++ f.

End ChatbotFeedbackController.

(** ** model/propertyModel.py, model/propertyMediaModel.py *)

(** A row of [properties]: the primary key and the columns the matcher and
    the recommendation entries read. *)
Record Property := {
  id : N;
  title : string;
  description : option string;
  property_type : string;
  prop_status : string;
  bedrooms : option Z;
  bathrooms : option Z;
  price : Q;
  city : option string;
  state : option string
}.

Inductive MediaType := IMAGE | VIDEO.

(** A row of [property_media]; [property] is the foreign key, declared
    [on_delete=CASCADE]. *)
Record PropertyMedia := {
  media_id : N;
  property : N;
  media_type : MediaType;
  url : string;
  is_cover : bool
}.

(** ** Python floats

    A [float] is an IEEE 754 binary64 number: 53 significant bits, the
    exponents from -1074 to 971 for the last of them.  A finite float is
    held by its exact value.  [round] is the conversion Python applies to
    the exact result of a float operation, to an [int] operand of one and
    to a literal: the nearest float, the one with an even significand
    when two are equally near. *)

Module PyFloat.

Inductive float := Finite (value : Q) | Infinity (negative : bool).

(** [a / b] to the nearest integer, half to even, for [0 <= a], [0 < b]. *)
Definition half_even (a b : Z) : Z :=
  let k := a / b in
  let r := a mod b in
  if 2 * r <? b then k
  else if b <? 2 * r then k + 1
  else if Z.even k then k else k + 1.

(** [n / d < 2 ^ e]. *)
Definition below_power (n d e : Z) : bool :=
  if 0 <=? e then n <? d * 2 ^ e else n * 2 ^ (- e) <? d.

(** The [e] with [2 ^ e <= n / d < 2 ^ (e + 1)], for [0 < n], [0 < d]. *)
Definition exponent (n d : Z) : Z :=
  let e := Z.log2 n - Z.log2 d in
  if below_power n d e then e - 1 else e.

(** The exponent of the last significant bit; -1074 for the subnormals. *)
Definition quantum (n d : Z) : Z := Z.max (exponent n d - 52) (- 1074).

Definition significand (n d : Z) : Z :=
  let q := quantum n d in
  if 0 <=? q then half_even n (d * 2 ^ q) else half_even (n * 2 ^ (- q)) d.

(** [m * 2 ^ q]. *)
Definition scaled (m q : Z) : Q :=
  if 0 <=? q then inject_Z (m * 2 ^ q) else Qred (m # Z.to_pos (2 ^ (- q))).

Definition overflows (m q : Z) : bool := 2 ^ 1024 <=? m * 2 ^ Z.max q 0.

Definition round (x : Q) : float :=
  let n := Z.abs (Qnum x) in
  let d := Z.pos (Qden x) in
  if n =? 0 then Finite 0
  else
    let m := significand n d in
    let q := quantum n d in
    if overflows m q then Infinity (Qnum x <? 0)
    else Finite (scaled (Z.sgn (Qnum x) * m) q).

(** A number Python can turn into a float: every float is one, and every
    [int] up to the largest float; [float(n)] of a larger [int], and with
    it [n * 1.1], raises [OverflowError]. *)
Definition in_range (x : Q) : bool :=
  match round x with
  | Finite _ => true
  | Infinity _ => false
  end.

(** The value of a literal of the float range, such as [1.1]. *)
Definition literal (x : Q) : Q :=
  match round x with
  | Finite v => v
  | Infinity _ => x
  end.

(** [a * b] for a float [a] and a finite float [0 < b]. *)
Definition times (a : float) (b : Q) : float :=
  match a with
  | Finite v => round (v * b)
  | Infinity negative => Infinity negative
  end.

(** [d <= f] for a [Decimal] [d]: Python compares the exact values. *)
Definition decimal_le (d : Q) (f : float) : bool :=
  match f with
  | Finite v => Qle_bool d v
  | Infinity negative => negb negative
  end.

End PyFloat.

(** ** controller/propertyRecommendationController.py *)

Module PropertyMatchingService.

(** The keys of [user_criteria] the matcher reads; a missing key and a
    [None] value both read as [None] through [dict.get]. *)
Record Criteria := {
  budget_min : option Q;
  budget_max : option Q;
  preferred_location : option string;
  bedrooms_required : option Z;
  bathrooms_required : option Z;
  property_type_preference : option string
}.

(** The three accumulators of the scoring function.  [score] and
    [max_score] only ever hold sums of the integer weights. *)
Record Acc := { score : Z; max_score : Z; match_reasons : list string }.

Definition earn (w : Z) (reason : string) (a : Acc) : Acc :=
  {| score := score a + w; max_score := max_score a;
     match_reasons := match_reasons a ++ [reason] |}.

Definition weigh (w : Z) (a : Acc) : Acc :=
  {| score := score a; max_score := max_score a + w;
     match_reasons := match_reasons a |}.

(** [x * 1.1]: the float nearest to the product of [x], as a float, and
    of the float [1.1]. *)
Definition with_tolerance (x : Q) : PyFloat.float :=
  PyFloat.times (PyFloat.round x) (PyFloat.literal (11 # 10)).

(** The upper bound of the budget, if any, is a number that
    [budget_max * 1.1] can turn into a float. *)
Definition float_budget (c : Criteria) : bool :=
  match budget_max c with
  | Some hi => PyFloat.in_range hi
  | None => true
  end.

Definition budget (p : Property) (c : Criteria) (a : Acc) : Acc :=
  match budget_min c, budget_max c with
  | Some lo, Some hi =>
      if Py.truthy_num (Some lo) && Py.truthy_num (Some hi) then
        let a := weigh 30 a in
        if Qle_bool lo (price p) && Qle_bool (price p) hi
        then earn 30 "Price within budget" a
        else if PyFloat.decimal_le (price p) (with_tolerance hi)
        then earn 20 "Price close to budget" a
        else a
      else a
  | _, _ => a
  end.

(** [attr and needle.lower() in attr.lower()] *)
Definition mentions (attr : option string) (needle : string) : bool :=
  match attr with
  | Some s => Py.truthy_str attr && Py.contains (Py.lower needle) (Py.lower s)
  | None => false
  end.

Definition location (p : Property) (c : Criteria) (a : Acc) : Acc :=
  match preferred_location c with
  | Some loc =>
      if Py.truthy_str (Some loc) then
        let a := weigh 25 a in
        if mentions (city p) loc then earn 25 "Location match" a
        else if mentions (state p) loc then earn 15 "State match" a
        else a
      else a
  | None => a
  end.

(** [attr and attr >= need] and [attr and attr == need - 1] *)
Definition at_least (attr : option Z) (need : Z) : bool :=
  match attr with
  | Some n => Py.truthy_int attr && (need <=? n)
  | None => false
  end.

Definition one_short (attr : option Z) (need : Z) : bool :=
  match attr with
  | Some n => Py.truthy_int attr && (n =? need - 1)
  | None => false
  end.

Definition shown (attr : option Z) : string :=
  match attr with
  | Some n => pretty n
  | None => "None"
  end.

Definition bedrooms_step (p : Property) (c : Criteria) (a : Acc) : Acc :=
  match bedrooms_required c with
  | Some need =>
      if Py.truthy_int (Some need) then
        let a := weigh 20 a in
        if at_least (bedrooms p) need
        then earn 20 (shown (bedrooms p) ++ " bedrooms available") a
        else if one_short (bedrooms p) need
        then earn 10 "Close to bedroom requirement" a
        else a
      else a
  | None => a
  end.

Definition bathrooms_step (p : Property) (c : Criteria) (a : Acc) : Acc :=
  match bathrooms_required c with
  | Some need =>
      if Py.truthy_int (Some need) then
        let a := weigh 15 a in
        if at_least (bathrooms p) need
        then earn 15 (shown (bathrooms p) ++ " bathrooms available") a
        else a
      else a
  | None => a
  end.

Definition type_step (p : Property) (c : Criteria) (a : Acc) : Acc :=
  match property_type_preference c with
  | Some pref =>
      if Py.truthy_str (Some pref) then
        let a := weigh 10 a in
        if mentions (Some (property_type p)) pref
        then earn 10 "Property type match" a
        else a
      else a
  | None => a
  end.

Definition tally (p : Property) (c : Criteria) : Acc :=
  type_step p c
    (bathrooms_step p c
      (bedrooms_step p c
        (location p c
          (budget p c {| score := 0; max_score := 0; match_reasons := [] |})))).

(** [(score / max_score) * 100] *)
Definition percentage (a : Acc) : Q :=
  if 0 <? max_score a
  then (inject_Z (score a) / inject_Z (max_score a)) * 100
  else 0.

(** The same as Python computes it: [score] and [max_score] are floats
    that hold whole numbers, the quotient is rounded to a float and so is
    its product by 100.  The score is held by its exact value
    [percentage] in what follows; the two pass the threshold of 30
    together. *)
Definition float_percentage (a : Acc) : PyFloat.float :=
  if 0 <? max_score a
  then PyFloat.times (PyFloat.round (inject_Z (score a) / inject_Z (max_score a))) 100
  else PyFloat.Finite 0.

Definition calculate_property_match_score (p : Property) (c : Criteria)
  : Q * list string :=
  let a := tally p c in
  (percentage a, match_reasons a).

(** [round(x, 1)]: to the nearest tenth, a tie going to the even one. *)
Definition round_half_even (x : Q) : Z :=
  let f := Qfloor x in
  match Qcompare (x - inject_Z f) (1 # 2) with
  | Lt => f
  | Gt => f + 1
  | Eq => if Z.even f then f else f + 1
  end.

Definition round1 (x : Q) : Q := inject_Z (round_half_even (x * 10)) / 10.

(** The query the function builds before it awaits it. *)
Record Query := {
  status_is : string;
  price_between : option (Q * PyFloat.float);
  city_or_state_icontains : option string;
  prefetch : string;
  row_limit : Z
}.

Definition build_query (c : Criteria) (limit : Z) : Query :=
  {| status_is := "available";
     price_between :=
       match budget_min c, budget_max c with
       | Some lo, Some hi =>
           if Py.truthy_num (Some lo) && Py.truthy_num (Some hi)
           then Some (lo, with_tolerance hi) else None
       | _, _ => None
       end;
     city_or_state_icontains :=
       if Py.truthy_str (preferred_location c) then preferred_location c else None;
     prefetch := "media";
     row_limit := limit * 2 |}.

(** One entry of the returned list. *)
Record Match := {
  m_property_id : N;
  m_title : string;
  m_property_type : string;
  m_price : Q;
  m_location : string;
  m_bedrooms : option Z;
  m_bathrooms : option Z;
  match_score : Q;
  m_match_reasons : list string;
  cover_image : option string;
  m_description : option string
}.

Definition cover_of (media : list PropertyMedia) : option string :=
  url <$> List.find is_cover media.

Definition location_of (p : Property) : string :=
  if Py.truthy_str (city p) && Py.truthy_str (state p)
  then default "" (city p) ++ ", " ++ default "" (state p)
  else if Py.truthy_str (city p) then default "" (city p)
  else if Py.truthy_str (state p) then default "" (state p)
  else "Location TBD".

Definition blurb (d : option string) : option string :=
  match d with
  | Some s =>
      if Py.truthy_str d && (200 <? String.length s)%nat
      then Some (String.substring 0 200 s ++ "...")
      else d
  | None => None
  end.

Definition entry (p : Property) (media : list PropertyMedia) (c : Criteria)
  : option Match :=
  let '(score, reasons) := calculate_property_match_score p c in
  if Qle_bool 30 score
  then Some {| m_property_id := id p; m_title := title p;
               m_property_type := property_type p; m_price := price p;
               m_location := location_of p; m_bedrooms := bedrooms p;
               m_bathrooms := bathrooms p; match_score := round1 score;
               m_match_reasons := reasons; cover_image := cover_of media;
               m_description := blurb (description p) |}
  else None.

(** [list.sort(key=..., reverse=True)]: highest key first, entries with
    equal keys in their original order. *)
Fixpoint insert_desc (x : Match) (l : list Match) : list Match :=
  match l with
  | [] => [x]
  | y :: r =>
      if Qle_bool (match_score y) (match_score x)
      then x :: y :: r
      else y :: insert_desc x r
  end.

Definition sort_desc (l : list Match) : list Match := foldr insert_desc [] l.

Section Fetch.

(** What awaiting the query gives: the rows with their media, or an
    exception.  The ORM and the database are not part of the source. *)
Variable fetch : Query -> Py.result (list (Property * list PropertyMedia)).

Definition find_matching_properties (c : Criteria) (limit : Z) : list Match :=
  match fetch (build_query c limit) with
  | Py.Raises _ => []
  | Py.Returns properties =>
      let property_matches :=
        omap (fun pm => entry (fst pm) (snd pm) c) properties in
      Py.take (sort_desc property_matches) limit
  end.

End Fetch.

Definition default_limit : Z := 10.

End PropertyMatchingService.

(** ** controller/propertyController.py *)

Record PropertyDB := {
  properties : gmap N Property;
  media : list PropertyMedia
}.

Module PropertyController.

Inductive Response :=
| HTTPException (status_code : Z) (detail : string)
| Deleted
| Fetched (p : Property) (media : list PropertyMedia).

Definition media_of (db : PropertyDB) (k : N) : list PropertyMedia :=
  filter (fun m => property m = k) (media db).

Section Uuid.

(** [uuid.UUID(s)]: the key, or [None] where it raises ValueError. *)
Variable UUID : string -> option N.

Definition delete_property (property_id : string) (db : PropertyDB)
  : Response * PropertyDB :=
  match UUID property_id with
  | None => (HTTPException 400 "Invalid property ID format", db)
  | Some property_uuid =>
      match properties db !! property_uuid with
      | None => (HTTPException 404 "Property not found", db)
      | Some property_obj =>
          (Deleted,
           {| properties := delete property_uuid (properties db);
              media := filter (fun m => property m ≠ property_uuid) (media db) |})
      end
  end.

Definition get_property_by_id (property_id : string) (db : PropertyDB) : Response :=
  match UUID property_id with
  | None => HTTPException 400 "Invalid property ID format"
  | Some property_uuid =>
      match properties db !! property_uuid with
      | None => HTTPException 404 "Property not found"
      | Some property_obj => Fetched property_obj (media_of db property_uuid)
      end
  end.

End Uuid.

End PropertyController.

(** ** A feedback conversation, turn by turn *)

Module FeedbackSession.

Import MainChatbotController.

(** One request: [handle_chat_response], followed, when it routes to the
    feedback flow, by [ChatbotFeedbackController.handle_response] on the
    conversation and message it hands over.  [None] stands for every
    other end of the request. *)
Definition respond (env : Env) (sid response : string) (db : ChatDB)
  : option (ChatbotFeedbackController.Outcome * ChatDB) :=
  match handle_chat_response env sid response db with
  | (Handled Feedback c (Some m), db) =>
      Some (ChatbotFeedbackController.handle_response env c m response db)
  | _ => None
  end.

(** The requests of one session in turn, each with its own clock reading
    and row id; the outcome of the last one that reached the feedback
    controller, and the database after it. *)
Fixpoint converse (turns : list (Env * string)) (sid : string)
                  (last : option ChatbotFeedbackController.Outcome) (db : ChatDB)
  : option ChatbotFeedbackController.Outcome * ChatDB :=
  match turns with
  | [] => (last, db)
  | (env, response) :: rest =>
      match respond env sid response db with
      | Some (o, db) => converse rest sid (Some o) db
      | None => (last, db)
      end
  end.

End FeedbackSession.

(** ** Statements under test, and sample rows *)

Module Stated.

Import ChatbotFlowEngine.

(** The options of the opening question, read off the table. *)
Definition initial_options : list string :=
  match initial_flow with
  | q :: _ => default [] (options q)
  | [] => []
  end.

(** The menu as the specification lists it: option, flow. *)
Definition menu_flows : list (string * ChatbotFlowType) :=
  [ ("Find a property to rent", PROPERTY_SEARCH);
    ("Ask about a specific property", RENT_INQUIRY);
    ("Schedule a property visit", SCHEDULE_VISIT);
    ("Report an issue", BUG_REPORT);
    ("Give feedback", FEEDBACK) ].

(** The stored row of the conversation went from no flow to the flow the
    response names. *)
Definition flow_assigned (env : Env) (sid response : string) (db : ChatDB) : Prop :=
  exists c c',
    conversations db !! sid = Some c /\
    conversations (MainChatbotController.handle_chat_response env sid response db).2 !! sid
      = Some c' /\
    flow_type c = None /\
    flow_type c' = Some (determine_flow_from_response response).

(** The flow is assigned exactly when the conversation is at step 0 with
    no flow yet set. *)
Definition assigned_iff_fresh : Prop :=
  forall env sid response db c,
    conversations db !! sid = Some c ->
    flow_assigned env sid response db <-> (current_step c = 0 /\ flow_type c = None).

(** The property-search controller shows the completion message. *)
Definition completes (env : Env) (c : ChatbotConversation) (m : ChatbotMessage)
                     (response : string) (db : ChatDB) : Prop :=
  exists c', (PropertySearchController.handle_response env c m response db).1
             = PropertySearchController.ShowCompletionMessage c'.

(** Completion happens only when the question just answered is the email
    prompt the controller compares with. *)
Definition completes_only_on_email_match : Prop :=
  forall env c m response db,
    flow_type c = Some PROPERTY_SEARCH ->
    completes env c m response db ->
    Py.lower (question_text m) = PropertySearchController.email_prompt.

End Stated.

Module Sample.

Definition env : Env := {| now := 1700000000000000; fresh_id := 77 |}.

Definition fresh_conversation : ChatbotConversation :=
  {| conv_id := 1; session_id := "s-1"; flow_type := None; guest_email := None;
     guest_name := None; current_step := 0; status := ACTIVE; is_satisfied := None;
     user_ip := None; user_agent := None; conv_created_at := 1699999990000000;
     updated_at := 1699999990000000; completed_at := None |}.

(** The same conversation closed through the satisfaction endpoint right
    after the start: still at step 0, still without a flow. *)
Definition closed_conversation : ChatbotConversation :=
  {| conv_id := 1; session_id := "s-1"; flow_type := None; guest_email := None;
     guest_name := None; current_step := 0; status := COMPLETED;
     is_satisfied := Some true;
     user_ip := None; user_agent := None; conv_created_at := 1699999990000000;
     updated_at := 1699999995000000; completed_at := Some 1699999995000000 |}.

Definition opening_message : ChatbotMessage :=
  {| msg_id := 10; conversation := 1; step_number := 0;
     question_text := "Hi! I'm your property assistant. How can I help you today?";
     user_response := None; response_time_seconds := None;
     created_at := 1699999990000000; responded_at := None |}.

Definition fresh_db : ChatDB :=
  {| conversations := {[ "s-1" := fresh_conversation ]};
     messages := [opening_message] |}.

Definition closed_db : ChatDB :=
  {| conversations := {[ "s-1" := closed_conversation ]};
     messages := [opening_message] |}.

(** A property search that has asked all eight questions. *)
Definition searching : ChatbotConversation :=
  {| conv_id := 2; session_id := "s-2"; flow_type := Some PROPERTY_SEARCH;
     guest_email := None; guest_name := None; current_step := 8; status := ACTIVE;
     is_satisfied := None; user_ip := None; user_agent := None;
     conv_created_at := 1699999990000000; updated_at := 1699999999000000;
     completed_at := None |}.

Definition email_message : ChatbotMessage :=
  {| msg_id := 20; conversation := 2; step_number := 8;
     question_text := ChatbotFlowEngine.email_question;
     user_response := None; response_time_seconds := None;
     created_at := 1699999999000000; responded_at := None |}.

Definition search_db : ChatDB :=
  {| conversations := {[ "s-2" := searching ]}; messages := [email_message] |}.

Definition at_tick (n : Z) : Env :=
  {| now := 1700000000000000 + n * 5000000; fresh_id := Z.to_N (100 + n) |}.

(** A user who rates five stars and begins the detailed answer with the
    word DETAILS and a colon. *)
Definition pleased : list (Env * string) :=
  [ (at_tick 1, "Give feedback");
    (at_tick 2, "Website usability");
    (at_tick 3, "⭐⭐⭐⭐⭐ Excellent (5/5)");
    (at_tick 4, "DETAILS: the map view is great");
    (at_tick 5, "Add a dark mode");
    (at_tick 6, "No, thank you") ].

(** A user who rates three stars. *)
Definition lukewarm : list (Env * string) :=
  [ (at_tick 1, "Give feedback");
    (at_tick 2, "Website usability");
    (at_tick 3, "⭐⭐⭐ Average (3/5)");
    (at_tick 4, "Search is slow") ].

End Sample.

(** ** The match score as the specification words it *)

Module ScoreAsStated.

Import PropertyMatchingService.

(** A criterion is present when its value is truthy; the budget needs
    both of its bounds. *)
Definition budget_present (c : Criteria) : bool :=
  Py.truthy_num (budget_min c) && Py.truthy_num (budget_max c).
Definition location_present (c : Criteria) : bool := Py.truthy_str (preferred_location c).
Definition bedrooms_present (c : Criteria) : bool := Py.truthy_int (bedrooms_required c).
Definition bathrooms_present (c : Criteria) : bool := Py.truthy_int (bathrooms_required c).
Definition type_present (c : Criteria) : bool := Py.truthy_str (property_type_preference c).

Definition when (present : bool) (w : Z) : Z := if present then w else 0.

(** The sum of the weights of the criteria present. *)
Definition possible (c : Criteria) : Z :=
  when (budget_present c) 30 + when (location_present c) 25
  + when (bedrooms_present c) 20 + when (bathrooms_present c) 15
  + when (type_present c) 10.

(** 30 within the budget, else 20 up to a tenth above its upper bound:
    the rule as the specification gives it. *)
Definition budget_points_stated (p : Property) (c : Criteria) : Z :=
  match budget_min c, budget_max c with
  | Some lo, Some hi =>
      if Qle_bool lo (price p) && Qle_bool (price p) hi then 30
      else if Qle_bool (price p) (hi * (11 # 10)) then 20
      else 0
  | _, _ => 0
  end.

(** The same rule with the float product [budget_max * 1.1] for the
    tenth above. *)
Definition budget_points (p : Property) (c : Criteria) : Z :=
  match budget_min c, budget_max c with
  | Some lo, Some hi =>
      if Qle_bool lo (price p) && Qle_bool (price p) hi then 30
      else if PyFloat.decimal_le (price p)
                (PyFloat.times (PyFloat.round hi) (PyFloat.literal (11 # 10)))
      then 20
      else 0
  | _, _ => 0
  end.

(** Case-insensitive substring match against a nullable column. *)
Definition within (needle : string) (attr : option string) : bool :=
  match attr with
  | Some s => Py.contains (Py.lower needle) (Py.lower s)
  | None => false
  end.

(** 25 for a city match, else 15 for a state match. *)
Definition location_points (p : Property) (c : Criteria) : Z :=
  match preferred_location c with
  | Some loc =>
      if within loc (city p) then 25
      else if within loc (state p) then 15
      else 0
  | None => 0
  end.

(** 20 with at least the required bedrooms, else 10 with exactly one
    fewer: the rule as the specification gives it. *)
Definition bedroom_points_stated (p : Property) (c : Criteria) : Z :=
  match bedrooms_required c, bedrooms p with
  | Some need, Some n =>
      if need <=? n then 20 else if n =? need - 1 then 10 else 0
  | _, _ => 0
  end.

(** The same rule for a property whose bedroom count is known and not
    zero; a property without bedrooms earns nothing. *)
Definition bedroom_points (p : Property) (c : Criteria) : Z :=
  match bedrooms_required c, bedrooms p with
  | Some need, Some n =>
      if n =? 0 then 0
      else if need <=? n then 20 else if n =? need - 1 then 10 else 0
  | _, _ => 0
  end.

(** 15 with a known, non-zero bathroom count of at least the required. *)
Definition bathroom_points (p : Property) (c : Criteria) : Z :=
  match bathrooms_required c, bathrooms p with
  | Some need, Some n => if negb (n =? 0) && (need <=? n) then 15 else 0
  | _, _ => 0
  end.

(** 10 for a case-insensitive substring match of the preferred type. *)
Definition type_points (p : Property) (c : Criteria) : Z :=
  match property_type_preference c with
  | Some pref => if within pref (Some (property_type p)) then 10 else 0
  | None => 0
  end.

Definition earned_with (budget_rule bedroom_rule : Property -> Criteria -> Z)
                       (p : Property) (c : Criteria) : Z :=
  when (budget_present c) (budget_rule p c)
  + when (location_present c) (location_points p c)
  + when (bedrooms_present c) (bedroom_rule p c)
  + when (bathrooms_present c) (bathroom_points p c)
  + when (type_present c) (type_points p c).

(** (earned / possible) * 100, and 0 when nothing is present. *)
Definition final (earned possible : Z) : Q :=
  if 0 <? possible then (inject_Z earned / inject_Z possible) * 100 else 0.

Definition score_as_stated (p : Property) (c : Criteria) : Q :=
  final (earned_with budget_points_stated bedroom_points_stated p c) (possible c).

Definition score (p : Property) (c : Criteria) : Q :=
  final (earned_with budget_points bedroom_points p c) (possible c).

(** The criteria with one criterion taken out. *)
Definition without_budget (c : Criteria) : Criteria :=
  {| budget_min := None; budget_max := None;
     preferred_location := preferred_location c;
     bedrooms_required := bedrooms_required c;
     bathrooms_required := bathrooms_required c;
     property_type_preference := property_type_preference c |}.

Definition without_bedrooms (c : Criteria) : Criteria :=
  {| budget_min := budget_min c; budget_max := budget_max c;
     preferred_location := preferred_location c;
     bedrooms_required := None;
     bathrooms_required := bathrooms_required c;
     property_type_preference := property_type_preference c |}.

(** The score is the stated one, for every property and criteria. *)
Definition scores_as_stated : Prop :=
  forall p c, (calculate_property_match_score p c).1 == score_as_stated p c.

(** The order of the returned list: highest score first. *)
Definition above (a b : Match) : Prop := (match_score b <= match_score a)%Q.

(** A match worth returning. *)
Definition decent (m : Match) : Prop := (30 <= match_score m)%Q.

End ScoreAsStated.

Module SampleListings.

Import PropertyMatchingService.

Definition studio : Property :=
  {| id := 501; title := "Sunny studio"; description := Some "Close to the park";
     property_type := "Studio"; prop_status := "available";
     bedrooms := Some 0; bathrooms := Some 1; price := 900;
     city := Some "Pune"; state := Some "Maharashtra" |}.

Definition flat : Property :=
  {| id := 502; title := "Two bedroom flat"; description := None;
     property_type := "Apartment"; prop_status := "available";
     bedrooms := Some 2; bathrooms := Some 2; price := 1500;
     city := Some "Pune"; state := Some "Maharashtra" |}.

Definition villa : Property :=
  {| id := 503; title := "Garden villa"; description := None;
     property_type := "Villa"; prop_status := "available";
     bedrooms := Some 4; bathrooms := Some 3; price := 4000;
     city := Some "Mumbai"; state := Some "Maharashtra" |}.

Definition nothing_asked : Criteria :=
  {| budget_min := None; budget_max := None; preferred_location := None;
     bedrooms_required := None; bathrooms_required := None;
     property_type_preference := None |}.

(** One bedroom wanted, nothing else. *)
Definition one_bedroom : Criteria :=
  {| budget_min := None; budget_max := None; preferred_location := None;
     bedrooms_required := Some 1; bathrooms_required := None;
     property_type_preference := None |}.

(** A budget from 0 to 2000 and a studio (0 bedrooms) in Pune. *)
Definition from_zero : Criteria :=
  {| budget_min := Some 0%Q; budget_max := Some 2000%Q;
     preferred_location := Some "pune";
     bedrooms_required := Some 0; bathrooms_required := None;
     property_type_preference := None |}.

Definition in_pune : Criteria :=
  {| budget_min := Some 1000%Q; budget_max := Some 2000%Q;
     preferred_location := Some "pune";
     bedrooms_required := Some 2; bathrooms_required := None;
     property_type_preference := None |}.

(** The flat at another price. *)
Definition priced (x : Q) : Property :=
  {| id := 502; title := "Two bedroom flat"; description := None;
     property_type := "Apartment"; prop_status := "available";
     bedrooms := Some 2; bathrooms := Some 2; price := x;
     city := Some "Pune"; state := Some "Maharashtra" |}.

(** A budget from 900 to the float [hi], nothing else. *)
Definition up_to (hi : Q) : Criteria :=
  {| budget_min := Some 900%Q; budget_max := Some (PyFloat.literal hi);
     preferred_location := None;
     bedrooms_required := None; bathrooms_required := None;
     property_type_preference := None |}.

Definition cover : PropertyMedia :=
  {| media_id := 900; property := 502; media_type := IMAGE;
     url := "flat-front.jpg"; is_cover := true |}.

(** A database answer: the three listings, one with a cover image. *)
Definition all_rows (q : Query) : Py.result (list (Property * list PropertyMedia)) :=
  Py.Returns [ (studio, []); (flat, [cover]); (villa, []) ].

Definition villa_photo : PropertyMedia :=
  {| media_id := 901; property := 503; media_type := IMAGE;
     url := "villa-garden.jpg"; is_cover := true |}.

Definition listings : PropertyDB :=
  {| properties := {[ 502%N := flat; 503%N := villa ]};
     media := [cover; villa_photo] |}.

Definition flat_id : string := "00000000-0000-0000-0000-0000000001f6".
Definition villa_id : string := "00000000-0000-0000-0000-0000000001f7".

(** [uuid.UUID] on the two ids of the sample (0x1f6 = 502, 0x1f7 = 503);
    any other text stands for one it rejects. *)
Definition sample_uuid (s : string) : option N :=
  if bool_decide (s = flat_id) then Some 502%N
  else if bool_decide (s = villa_id) then Some 503%N
  else None.

End SampleListings.

(** ** Predicates on the scoring steps *)

Module ScoringSteps.

Import PropertyMatchingService.

(** What a scoring step may do to the accumulators: nothing, add to the
    maximum only, or add to the maximum and earn a positive number of
    points together with one reason. *)
Inductive step_of (a : Acc) : Acc -> Prop :=
| step_skip : step_of a a
| step_miss (w : Z) : step_of a (weigh w a)
| step_hit (w e : Z) (reason : string) : 0 < e -> step_of a (earn e reason (weigh w a)).

(** Points and reasons go together, one reason per step at most. *)
Definition tallied (n : nat) (a : Acc) : Prop :=
  0 <= PropertyMatchingService.score a
  /\ (0 < PropertyMatchingService.score a <-> match_reasons a <> [])
  /\ (length (match_reasons a) <= n)%nat.

End ScoringSteps.

(** ** More sample rows *)

Module SampleMatches.

Import PropertyMatchingService.

(** What the sample query returns with the default limit, and its first
    entry. *)
Definition found : list Match :=
  Eval vm_compute in
    find_matching_properties SampleListings.all_rows SampleListings.in_pune 10.

Definition best : Match :=
  Eval vm_compute in
    match found with
    | m :: _ => m
    | [] => {| m_property_id := 0; m_title := ""; m_property_type := ""; m_price := 0;
               m_location := ""; m_bedrooms := None; m_bathrooms := None;
               match_score := 0; m_match_reasons := []; cover_image := None;
               m_description := None |}
    end.

End SampleMatches.

(** ** More Python strings: strip and join *)

Module PyText.

(** [c.isspace()] on the ASCII range: tab to carriage return, the four
    separators 28..31, and the space.  (The bytes of a non-ASCII space are
    not spaces here.) *)
Definition is_space (c : ascii) : bool :=
  let n := nat_of_ascii c in
  ((9 <=? n) && (n <=? 13) || (28 <=? n) && (n <=? 32))%nat.

(** [s.lstrip()], [s.rstrip()], [s.strip()] *)
Fixpoint lstrip (s : string) : string :=
  match s with
  | EmptyString => EmptyString
  | String c s' => if is_space c then lstrip s' else s
  end.

Fixpoint rstrip (s : string) : string :=
  match s with
  | EmptyString => EmptyString
  | String c s' =>
      match rstrip s' with
      | EmptyString => if is_space c then EmptyString else String c EmptyString
      | r => String c r
      end
  end.

Definition strip (s : string) : string := lstrip (rstrip s).

(** [sep.join(l)] *)
Fixpoint join (sep : string) (l : list string) : string :=
  match l with
  | [] => EmptyString
  | [x] => x
  | x :: l' => x ++ sep ++ join sep l'
  end.

(** A non-empty text that [strip] leaves alone on either side. *)
Definition stripped (s : string) : Prop :=
  s <> EmptyString /\ lstrip s = s /\ rstrip s = s.

(** [s.isascii()] *)
Fixpoint isascii (s : string) : bool :=
  match s with
  | EmptyString => true
  | String c s' => (nat_of_ascii c <? 128)%nat && isascii s'
  end.

(** [len(s)]: the texts are held as UTF-8 bytes, and every character has
    exactly one byte that is not a continuation byte (10xxxxxx). *)
Definition is_continuation (c : ascii) : bool :=
  let n := nat_of_ascii c in ((128 <=? n) && (n <? 192))%nat.

Fixpoint len (s : string) : nat :=
  match s with
  | EmptyString => 0%nat
  | String c s' => ((if is_continuation c then 0 else 1) + len s')%nat
  end.

(** What a [CharField(max_length=n)] accepts. *)
Definition fits (n : nat) (value : option string) : bool :=
  match value with
  | Some s => (len s <=? n)%nat
  | None => true
  end.

End PyText.

(** What [conversation.save()] validates before it writes: the
    [CharField]s of the row within their [max_length] ([session_id],
    [guest_email] and [guest_name] 255, [user_ip] 45).  A row read from
    the table fits; the object in memory need not, once a handler has
    assigned to it. *)
Definition columns_fit (c : ChatbotConversation) : bool :=
  PyText.fits 255 (Some (session_id c)) && PyText.fits 255 (guest_email c)
  && PyText.fits 255 (guest_name c) && PyText.fits 45 (user_ip c).

(** ** controller/propertyController.py: the form helpers *)

Module PropertyForms.

(** [parse_comma_separated_list]: None for a missing or blank value, else
    the stripped, non-empty pieces between the commas. *)
Definition parse_comma_separated_list (value : option string) : option (list string) :=
  match value with
  | None => None
  | Some v =>
      if negb (Py.truthy_str (Some v)) || negb (Py.truthy_str (Some (PyText.strip v)))
      then None
      else Some (omap (fun item =>
                         if Py.truthy_str (Some (PyText.strip item))
                         then Some (PyText.strip item) else None)
                      (Py.split v ","))
  end.

End PropertyForms.

(** ** controller/chatbot/conversationController.py *)

(** A row of [chatbot_escalations]: the columns the controller sets. *)
Record ChatbotEscalation := {
  esc_id : N;
  esc_conversation : N;
  reason : string;
  priority : string;
  contact_email : string;
  contact_name : string;
  esc_created_at : Z
}.

(** The chatbot tables together with the escalations. *)
Record SupportDB := {
  chat : ChatDB;
  escalations : list ChatbotEscalation
}.

Definition set_satisfaction (env : Env) (satisfied : bool) (c : ChatbotConversation)
  : ChatbotConversation :=
  {| conv_id := conv_id c; session_id := session_id c; flow_type := flow_type c;
     guest_email := guest_email c; guest_name := guest_name c;
     current_step := current_step c;
     status := if satisfied then COMPLETED else ESCALATED;
     is_satisfied := Some satisfied; user_ip := user_ip c;
     user_agent := user_agent c; conv_created_at := conv_created_at c;
     updated_at := updated_at c; completed_at := Some (now env) |}.

Module ConversationController.

Inductive Outcome :=
| HTTPException (status_code : Z) (detail : string)
| Thanked (escalated : bool) (session : string).

(** [handle_satisfaction_question]: the closing question is filed as the
    next message and the step moves on. *)
Definition satisfaction_question : string :=
  "Are you satisfied with the assistance provided?".

Definition handle_satisfaction_question (env : Env) (c : ChatbotConversation) (db : ChatDB)
  : ChatbotConversation * ChatDB :=
  let satisfaction_step := current_step c + 1 in
  let db := Orm.create_message env c satisfaction_step satisfaction_question db in
  Orm.save_conversation env (set_current_step satisfaction_step c) db.

(** The text written over the answer of the latest message. *)
Definition satisfaction_text (satisfied : bool) (feedback : option string) : string :=
  (if satisfied then "Yes, I'm satisfied" else "No, I need more help")
  ++ match feedback with
     | Some (String a f) => " - " ++ String a f
     | _ => EmptyString
     end.

(** [conversation.guest_email or "unknown@example.com"] and
    [conversation.guest_name or "Anonymous User"] *)
Definition or_else (o : option string) (d : string) : string :=
  match o with
  | Some (String a s) => String a s
  | _ => d
  end.

(** [handle_satisfaction_response].  [_send_admin_notifications] only
    reads the tables and swallows its own exceptions; it is left out. *)
Definition handle_satisfaction_response
    (env : Env) (sid : string) (satisfied : bool) (feedback : option string)
    (db : SupportDB) : Outcome * SupportDB :=
  match Orm.get_conversation (chat db) sid with
  | None => (HTTPException 404 "Conversation not found", db)
  | Some conversation =>
      let '(conversation, tables) :=
        Orm.save_conversation env (set_satisfaction env satisfied conversation) (chat db) in
      let tables :=
        match Orm.last_message tables conversation with
        | Some last_message =>
            Orm.save_message
              (answer env (satisfaction_text satisfied feedback) last_message) tables
        | None => tables
        end in
      let filed :=
        if negb satisfied
        then (escalations db ++
              [ {| esc_id := fresh_id env; esc_conversation := conv_id conversation;
                   reason := "unsatisfied"; priority := "medium";
                   contact_email := or_else (guest_email conversation) "unknown@example.com";
                   contact_name := or_else (guest_name conversation) "Anonymous User";
                   esc_created_at := now env |} ])%list
        else escalations db in
      (Thanked (negb satisfied) sid, {| chat := tables; escalations := filed |})
  end.

End ConversationController.

(** ** controller/chatbot/mainChatbotController.py: starting a chat *)

Module StartChat.

(** What starting a chat draws from outside: the clock, the uuid4 of the
    conversation row, the uuid4 text used as session id when none is
    given, and the uuid4 of the first message. *)
Record Draw := {
  clock : Z;
  conversation_uuid : N;
  session_uuid : string;
  message_uuid : N
}.

Inductive Outcome :=
| HTTPException (status_code : Z) (detail_starts : string)
| Resumed (session : string) (question : string) (step : Z) (flow : option ChatbotFlowType)
| Started (session : string) (q : ChatbotFlowEngine.Question).

(** The row of [ChatbotConversation.create(session_id=..., user_agent=...,
    user_ip=...)]: the other columns take their defaults. *)
Definition new_conversation (d : Draw) (sid : string) (agent ip : option string)
  : ChatbotConversation :=
  {| conv_id := conversation_uuid d; session_id := sid; flow_type := None;
     guest_email := None; guest_name := None; current_step := 0;
     status := ACTIVE; is_satisfied := None; user_ip := ip;
     user_agent := agent; conv_created_at := clock d;
     updated_at := clock d; completed_at := None |}.

(** A ValidationError when [session_id] or [user_ip] is longer than its
    column, an IntegrityError when the unique [session_id] is taken (both
    stand as [ValueError] here). *)
Definition create_conversation (d : Draw) (sid : string) (agent ip : option string)
                               (db : ChatDB) : Py.result (ChatbotConversation * ChatDB) :=
  if negb (PyText.fits 255 (Some sid) && PyText.fits 45 ip) then Py.Raises Py.ValueError
  else
  match conversations db !! sid with
  | Some _ => Py.Raises Py.ValueError
  | None =>
      let c := new_conversation d sid agent ip in
      Py.Returns (c, {| conversations := <[sid := c]> (conversations db);
                        messages := messages db |})
  end.

(** The first part of [handle_start_chat]: the question to resume with. *)
Definition resumable (sid : option string) (db : ChatDB)
  : option (ChatbotConversation * ChatbotMessage) :=
  match sid with
  | Some s =>
      if Py.truthy_str sid then
        match Orm.get_conversation db s with
        | Some conversation =>
            if bool_decide (status conversation = ACTIVE) then
              match Orm.last_message db conversation with
              | Some last_message =>
                  if negb (Py.truthy_str (user_response last_message))
                  then Some (conversation, last_message) else None
              | None => None
              end
            else None
        | None => None
        end
      else None
  | None => None
  end.

(** [session_id or str(uuid.uuid4())] *)
Definition new_session_id (d : Draw) (sid : option string) : string :=
  match sid with
  | Some (String a s) => String a s
  | _ => session_uuid d
  end.

Definition handle_start_chat (d : Draw) (sid agent ip : option string) (db : ChatDB)
  : Outcome * ChatDB :=
  match resumable sid db with
  | Some (conversation, last_message) =>
      (Resumed (session_id conversation) (question_text last_message)
               (step_number last_message) (flow_type conversation), db)
  | None =>
      match create_conversation d (new_session_id d sid) agent ip db with
      | Py.Raises _ => (HTTPException 500 "Failed to start chat: ", db)
      | Py.Returns (conversation, db) =>
          match ChatbotFlowEngine.get_initial_question with
          | Py.Raises _ => (HTTPException 500 "Failed to start chat: ", db)
          | Py.Returns initial_question =>
              let db :=
                Orm.create_message
                  {| now := clock d; fresh_id := message_uuid d |} conversation 0
                  (ChatbotFlowEngine.q_question initial_question) db in
              (Started (session_id conversation) initial_question, db)
          end
      end
  end.

End StartChat.

Module SampleSessions.

(** A visitor without a session id, arriving while session s-1 is open. *)
Definition draw : StartChat.Draw :=
  {| StartChat.clock := 1700000100000000; StartChat.conversation_uuid := 2;
     StartChat.session_uuid := "0b9f6c1e-5a43-4d0c-9a57-3f1c2a6e8d10";
     StartChat.message_uuid := 11 |}.

Definition browser : option string := Some "Mozilla/5.0".
Definition address : option string := Some "203.0.113.7".

(** The chatbot tables of session s-1, with no escalation on file. *)
Definition support_db : SupportDB :=
  {| chat := Sample.fresh_db; escalations := [] |}.

End SampleSessions.

(** ** A property search, request by request *)

Module SearchSession.

Import MainChatbotController.

(** One request: [handle_chat_response], followed, when it routes to the
    property search, by [PropertySearchController.handle_response] on the
    conversation and message it hands over.  [None] stands for every
    other end of the request. *)
Definition respond (env : Env) (sid response : string) (db : ChatDB)
  : option (PropertySearchController.Outcome * ChatDB) :=
  match handle_chat_response env sid response db with
  | (Handled PropertySearch c (Some m), db) =>
      Some (PropertySearchController.handle_response env c m response db)
  | _ => None
  end.

(** The requests of one session in turn, each with its own clock reading
    and row id, as long as the controller answers with a next question:
    the outcomes, and the database after the last request. *)
Fixpoint converse (turns : list (Env * string)) (sid : string) (db : ChatDB)
  : list PropertySearchController.Outcome * ChatDB :=
  match turns with
  | [] => ([], db)
  | (env, response) :: rest =>
      match respond env sid response db with
      | Some (PropertySearchController.NextQuestion c q, db) =>
          let '(outcomes, db) := converse rest sid db in
          (PropertySearchController.NextQuestion c q :: outcomes, db)
      | Some (o, db) => ([o], db)
      | None => ([], db)
      end
  end.

(** The question an outcome puts to the user, if any. *)
Definition asked (o : PropertySearchController.Outcome) : option string :=
  match o with
  | PropertySearchController.NextQuestion _ q => Some (ChatbotFlowEngine.q_question q)
  | _ => None
  end.

(** What a complete property search puts to the user: the eight
    questions of the flow, then no further question. *)
Definition script : list (option string) :=
  ((fun q => Some (ChatbotFlowEngine.question q))
     <$> ChatbotFlowEngine.property_search_flow) ++ [None].

(** The state between two requests: the session's conversation is active
    at step [k] with flow [flow], and its latest message, filed at a step
    up to [k], is not answered yet. *)
Definition awaiting (db : ChatDB) (sid : string) (k : Z) (flow : option ChatbotFlowType)
  : Prop :=
  exists c m,
    conversations db !! sid = Some c
    /\ session_id c = sid
    /\ status c = ACTIVE
    /\ flow_type c = flow
    /\ current_step c = k
    /\ Orm.last_message db c = Some m
    /\ step_number m <= k
    /\ Py.truthy_str (user_response m) = false.

End SearchSession.

(** ** Listings: offset and limit *)

Module Paging.

(** [query.offset(offset).limit(limit)] on the rows a query selects, in
    the order the database returns them; a negative offset or limit is
    refused (an exception). *)
Definition page {A} (offset limit : Z) (rows : list A) : Py.result (list A) :=
  if (offset <? 0) || (limit <? 0) then Py.Raises Py.ValueError
  else Py.Returns (take (Z.to_nat limit) (drop (Z.to_nat offset) rows)).

(** PostgreSQL takes the offset and the limit as [bigint]s. *)
Definition bigint_max : Z := 2 ^ 63 - 1.

(** The same with the range of the database: an offset or a limit above
    [bigint_max] is refused as well (the error of the database stands as
    [ValueError] here). *)
Definition page_of_bigints {A} (offset limit : Z) (rows : list A) : Py.result (list A) :=
  if (bigint_max <? offset) || (bigint_max <? limit) then Py.Raises Py.ValueError
  else page offset limit rows.

End Paging.

(** *** controller/chatbot/conversationController.py: the admin listing *)

Module ConversationListing.

Record Pagination := {
  pg_page : Z;
  pg_limit : Z;
  pg_total : Z;
  pg_pages : Z
}.

Inductive Outcome :=
| HTTPException (status_code : Z) (detail_starts : string)
| Listed (conversations : list ChatbotConversation) (pagination : Pagination).

Section Query.

(** [ChatbotConversation.all().filter(status=status)] on the rows of the
    table, in the order of the model ([-created_at]); the comparison of
    the column with the text is the database's. *)
Variable filter_status : string -> list ChatbotConversation
                         -> Py.result (list ChatbotConversation).

(** [handle_get_conversations]; [table] is what [ChatbotConversation.all()]
    selects.  (The entries also carry the counts of the prefetched
    messages and escalations, left out here.) *)
Definition handle_get_conversations (page limit : Z) (status : option string)
                                    (table : list ChatbotConversation) : Outcome :=
  let query :=
    match status with
    | Some (String a s) => filter_status (String a s) table
    | _ => Py.Returns table
    end in
  match query with
  | Py.Raises _ => HTTPException 500 "Failed to get conversations: "
  | Py.Returns rows =>
      let offset := (page - 1) * limit in
      match Paging.page_of_bigints offset limit rows with
      | Py.Raises _ => HTTPException 500 "Failed to get conversations: "
      | Py.Returns conversations =>
          let total_count := Z.of_nat (length table) in
          if limit =? 0 then HTTPException 500 "Failed to get conversations: "
          else Listed conversations
                 {| pg_page := page; pg_limit := limit; pg_total := total_count;
                    pg_pages := (total_count + limit - 1) / limit |}
      end
  end.

End Query.

End ConversationListing.

(** *** controller/propertyController.py: the property listing *)

Module PropertyListing.

(** The filters [get_all_properties] may add to [Property.all()]. *)
Inductive Condition :=
| city__icontains (v : string)
| property_type__icontains (v : string)
| status__icontains (v : string)
| price__gte (v : Q)
| price__lte (v : Q)
| bedrooms_is (v : Z).

Record Filters := {
  f_city : option string;
  f_property_type : option string;
  f_status : option string;
  f_min_price : option Q;
  f_max_price : option Q;
  f_bedrooms : option Z
}.

(** [if city:] and the like test the text; [if min_price is not None:]
    and the like only the presence. *)
Definition text_filter (mk : string -> Condition) (v : option string) : list Condition :=
  match v with
  | Some (String a s) => [mk (String a s)]
  | _ => []
  end.

Definition value_filter {A} (mk : A -> Condition) (v : option A) : list Condition :=
  match v with
  | Some x => [mk x]
  | None => []
  end.

Definition conditions (f : Filters) : list Condition :=
  text_filter city__icontains (f_city f)
  ++ text_filter property_type__icontains (f_property_type f)
  ++ text_filter status__icontains (f_status f)
  ++ value_filter price__gte (f_min_price f)
  ++ value_filter price__lte (f_max_price f)
  ++ value_filter bedrooms_is (f_bedrooms f).

Record Pagination := {
  pg_total : Z;
  pg_limit : Z;
  pg_offset : Z;
  has_next : bool;
  has_prev : bool
}.

Inductive Outcome :=
| HTTPException (status_code : Z) (detail : string)
| Listed (listed : list Property) (pagination : Pagination).

Section Query.

(** The rows a filtered query selects, in the order the database
    returns them; [count()] and the fetch of the page see the same rows. *)
Variable run : list Condition -> Py.result (list Property).

Definition get_all_properties (limit offset : Z) (f : Filters) : Outcome :=
  match run (conditions f) with
  | Py.Raises _ => HTTPException 500 "Failed to fetch properties"
  | Py.Returns rows =>
      let total := Z.of_nat (length rows) in
      match Paging.page offset limit rows with
      | Py.Raises _ => HTTPException 500 "Failed to fetch properties"
      | Py.Returns listed =>
          Listed listed
            {| pg_total := total; pg_limit := limit; pg_offset := offset;
               has_next := offset + limit <? total;
               has_prev := 0 <? offset |}
      end
  end.

End Query.

End PropertyListing.

(** *** controller/propertyController.py: deleting one media item *)

Module PropertyMediaController.

Inductive Response :=
| HTTPException (status_code : Z) (detail : string)
| MediaDeleted.

Section Uuid.

Variable UUID : string -> option N.

Definition delete_property_media (id : string) (db : PropertyDB)
  : Response * PropertyDB :=
  match UUID id with
  | None => (HTTPException 400 "Invalid media ID format", db)
  | Some media_uuid =>
      match List.find (fun m => (media_id m =? media_uuid)%N) (media db) with
      | None => (HTTPException 404 "Property media not found", db)
      | Some media_obj =>
          (MediaDeleted,
           {| properties := properties db;
              media := filter (fun m => media_id m ≠ media_id media_obj) (media db) |})
      end
  end.

End Uuid.

End PropertyMediaController.

(** Referential integrity of the media table: every media row belongs to
    a property on file. *)
Definition attached (db : PropertyDB) : Prop :=
  Forall (fun m => is_Some (properties db !! property m)) (media db).

Module SampleTables.

(** The values of the [ConversationStatus] enum. *)
Definition status_value (s : ConversationStatus) : string :=
  match s with
  | ACTIVE => "active"
  | COMPLETED => "completed"
  | ESCALATED => "escalated"
  | ABANDONED => "abandoned"
  end.

(** A database that compares the status column with the text. *)
Definition by_status (s : string) (table : list ChatbotConversation)
  : Py.result (list ChatbotConversation) :=
  Py.Returns (filter (fun c => status_value (status c) = s) table).

(** Two sessions on file: one completed, one active. *)
Definition sessions : list ChatbotConversation :=
  [ Sample.closed_conversation; Sample.fresh_conversation ].

(** A database that holds the three listings and ignores the filters. *)
Definition three_listings (conditions : list PropertyListing.Condition)
  : Py.result (list Property) :=
  Py.Returns [ SampleListings.studio; SampleListings.flat; SampleListings.villa ].

Definition no_filters : PropertyListing.Filters :=
  {| PropertyListing.f_city := None; PropertyListing.f_property_type := None;
     PropertyListing.f_status := None; PropertyListing.f_min_price := None;
     PropertyListing.f_max_price := None; PropertyListing.f_bedrooms := None |}.

Definition cover_id : string := "00000000-0000-0000-0000-000000000384".

(** [uuid.UUID] on the ids of the sample (0x384 = 900). *)
Definition sample_uuid (s : string) : option N :=
  if bool_decide (s = cover_id) then Some 900%N else SampleListings.sample_uuid s.

End SampleTables.

(** ** controller/chatbot/mainChatbotController.py: the standard flow *)

Module StandardFlow.

Import MainChatbotController.

Inductive Outcome :=
| HTTPException (status_code : Z) (detail_starts : string)
| NextQuestion (c : ChatbotConversation) (q : ChatbotFlowEngine.Question)
| SatisfactionQuestion (c : ChatbotConversation).

(** [_handle_standard_flow]: the next question of the conversation's
    flow, or the satisfaction question when the flow has none left. *)
Definition _handle_standard_flow (env : Env) (conversation : ChatbotConversation)
                                 (response : string) (db : ChatDB) : Outcome * ChatDB :=
  let flow_question_index := current_step conversation in
  match next_question_of (flow_type conversation) flow_question_index with
  | Py.Raises _ => (HTTPException 500 "Failed to handle standard flow: ", db)
  | Py.Returns None =>
      let '(conversation, db) :=
        ConversationController.handle_satisfaction_question env conversation db in
      (SatisfactionQuestion conversation, db)
  | Py.Returns (Some next_question_data) =>
      let next_step_number := current_step conversation + 1 in
      let db := Orm.create_message env conversation next_step_number
                  (ChatbotFlowEngine.q_question next_question_data) db in
      let '(conversation, db) :=
        Orm.save_conversation env
          (set_current_step (current_step conversation + 1) conversation) db in
      (NextQuestion conversation next_question_data, db)
  end.

(** One request that ends in the standard flow: [handle_chat_response]
    followed by [_handle_standard_flow] on the conversation it hands
    over.  [None] stands for every other end of the request. *)
Definition respond (env : Env) (sid response : string) (db : ChatDB)
  : option (Outcome * ChatDB) :=
  match handle_chat_response env sid response db with
  | (Handled StandardFlow c _, db) => Some (_handle_standard_flow env c response db)
  | _ => None
  end.

End StandardFlow.

(** ** controller/chatbot/chatbotBugReportController.py *)

Module ChatbotBugReportController.

(** [conversation.guest_email or ""] *)
Definition stored_data (c : ChatbotConversation) : string :=
  match guest_email c with
  | Some s => s
  | None => ""
  end.

(** The four fields [_handle_contact_info] extracts. *)
Record Parsed := {
  issue_type : string;
  issue_details : string;
  technical_info : string;
  urgency : string
}.

Record BugReportData := {
  br_issue_type : string;
  br_issue_details : string;
  br_technical_info : string;
  br_urgency : string;
  br_reporter_email : string;
  br_session_id : string
}.

(** A handler asks the next question, submits the report, or falls back
    to the satisfaction question. *)
Inductive Outcome :=
| Asked (c : ChatbotConversation) (question : string)
| Submitted (c : ChatbotConversation) (data : BugReportData)
| SatisfactionQuestion (c : ChatbotConversation).

(** The shared tail of the asking handlers: create the message, advance
    the step, save. *)
Definition ask_next (env : Env) (c : ChatbotConversation) (q : string) (db : ChatDB)
  : Outcome * ChatDB :=
  let next_step := current_step c + 1 in
  let db := Orm.create_message env c next_step q db in
  let '(c, db) := Orm.save_conversation env (set_current_step next_step c) db in
  (Asked c q, db).

Definition issue_type_question : string := "What type of issue would you like to report?".
Definition describe_question : string :=
  "Please describe what exactly happened. Include steps to reproduce the issue if possible:".
Definition search_issue_question : string :=
  "Please provide details about the property search issue:".
Definition more_details_question : string :=
  "Please provide more details about the issue:".
Definition device_question : string :=
  "What device/browser are you using? (This helps us reproduce the issue)".
Definition urgency_question : string := "How urgent is this issue for you?".
Definition contact_question : string :=
  "Please provide your email address so we can follow up on this issue:".

Definition _start_bug_report_flow (env : Env) (c : ChatbotConversation) (db : ChatDB)
  : Outcome * ChatDB :=
  ask_next env c issue_type_question db.

(** [text.lower() in ["website bug", "search not working", "other technical issue"]] *)
Definition technical (text : string) : bool :=
  bool_decide (Py.lower text
               ∈ ["website bug"; "search not working"; "other technical issue"]).

Definition details_question (response : string) : string :=
  if technical response then describe_question
  else if bool_decide (Py.lower response = "property not found error")
       then search_issue_question
       else more_details_question.

Definition _handle_issue_type_selection
    (env : Env) (c : ChatbotConversation) (response : string) (db : ChatDB)
  : Outcome * ChatDB :=
  let c := set_guest_email (Some ("ISSUE_TYPE:" ++ response)) c in
  ask_next env c (details_question response) db.

Definition _ask_urgency (env : Env) (c : ChatbotConversation) (db : ChatDB)
  : Outcome * ChatDB :=
  ask_next env c urgency_question db.

Definition _handle_issue_details
    (env : Env) (c : ChatbotConversation) (response : string) (db : ChatDB)
  : Outcome * ChatDB :=
  let stored := stored_data c in
  let c := set_guest_email (Some (stored ++ "|DETAILS:" ++ response)) c in
  let issue_type :=
    if Py.contains "ISSUE_TYPE:" stored then Py.replace stored "ISSUE_TYPE:" ""
    else "" in
  if technical issue_type then ask_next env c device_question db
  else _ask_urgency env c db.

Definition _handle_technical_details
    (env : Env) (c : ChatbotConversation) (response : string) (db : ChatDB)
  : Outcome * ChatDB :=
  let stored := stored_data c in
  let c := set_guest_email (Some (stored ++ "|TECH:" ++ response)) c in
  _ask_urgency env c db.

Definition _handle_urgency_selection
    (env : Env) (c : ChatbotConversation) (response : string) (db : ChatDB)
  : Outcome * ChatDB :=
  let stored := stored_data c in
  let c := set_guest_email (Some (stored ++ "|URGENCY:" ++ response)) c in
  ask_next env c contact_question db.

(** One turn of the loop over [stored_data.split("|")]. *)
Definition parse_part (p : Parsed) (part : string) : Parsed :=
  if Py.startswith part "ISSUE_TYPE:" then
    {| issue_type := Py.replace part "ISSUE_TYPE:" ""; issue_details := issue_details p;
       technical_info := technical_info p; urgency := urgency p |}
  else if Py.startswith part "DETAILS:" then
    {| issue_type := issue_type p; issue_details := Py.replace part "DETAILS:" "";
       technical_info := technical_info p; urgency := urgency p |}
  else if Py.startswith part "TECH:" then
    {| issue_type := issue_type p; issue_details := issue_details p;
       technical_info := Py.replace part "TECH:" ""; urgency := urgency p |}
  else if Py.startswith part "URGENCY:" then
    {| issue_type := issue_type p; issue_details := issue_details p;
       technical_info := technical_info p; urgency := Py.replace part "URGENCY:" "" |}
  else p.

Definition parse_stored (stored : string) : Parsed :=
  fold_left parse_part (Py.split stored "|")
    {| issue_type := ""; issue_details := ""; technical_info := ""; urgency := "" |}.

Definition _handle_contact_info
    (env : Env) (c : ChatbotConversation) (response : string) (db : ChatDB)
  : Outcome * ChatDB :=
  let p := parse_stored (stored_data c) in
  let '(c, db) := Orm.save_conversation env (set_completed env (Some response) c) db in
  let data :=
    {| br_issue_type := issue_type p;
       br_issue_details := issue_details p;
       br_technical_info :=
         if Py.truthy_str (Some (technical_info p)) then technical_info p
         else "Not applicable";
       br_urgency := urgency p;
       br_reporter_email := response;
       br_session_id := session_id c |} in
  (Submitted c data, db).

Definition _handle_default_flow (env : Env) (c : ChatbotConversation) (db : ChatDB)
  : Outcome * ChatDB :=
  let '(c, db) := ConversationController.handle_satisfaction_question env c db in
  (SatisfactionQuestion c, db).

(** The dispatch on the text of the question just answered. *)
Definition handle_response (env : Env) (c : ChatbotConversation)
                           (current_message : ChatbotMessage) (response : string)
                           (db : ChatDB) : Outcome * ChatDB :=
  let q := Py.lower (question_text current_message) in
  if Py.contains "hi! i'm your property assistant" q || (current_step c =? 0)
  then _start_bug_report_flow env c db
  else if Py.contains "what type of issue would you like to report" q
  then _handle_issue_type_selection env c response db
  else if Py.contains "can you provide more details" q
          || Py.contains "please describe" q
          || Py.contains "please provide details" q
  then _handle_issue_details env c response db
  else if Py.contains "what device/browser are you using" q
  then _handle_technical_details env c response db
  else if Py.contains "how urgent is this issue" q
  then _handle_urgency_selection env c response db
  else if Py.contains "what's your email" q || Py.contains "please provide your email" q
  then _handle_contact_info env c response db
  else _handle_default_flow env c db.

(** The questions a handler may ask. *)
Definition asked (o : Outcome) : option string :=
  match o with
  | Asked _ q => Some q
  | _ => None
  end.

Definition conversation_of (o : Outcome) : ChatbotConversation :=
  match o with
  | Asked c _ => c
  | Submitted c _ => c
  | SatisfactionQuestion c => c
  end.

End ChatbotBugReportController.

Module BugReportSession.

Import MainChatbotController.

(** One request: [handle_chat_response], followed, when it routes to the
    bug report, by [ChatbotBugReportController.handle_response] on the
    conversation and message it hands over.  [None] stands for every
    other end of the request. *)
Definition respond (env : Env) (sid response : string) (db : ChatDB)
  : option (ChatbotBugReportController.Outcome * ChatDB) :=
  match handle_chat_response env sid response db with
  | (Handled BugReport c (Some m), db) =>
      Some (ChatbotBugReportController.handle_response env c m response db)
  | _ => None
  end.

(** The requests of one session in turn, each with its own clock reading
    and row id: the outcomes of those that reached the bug-report
    controller, up to the first that did not, and the database after the
    last request. *)
Fixpoint converse (turns : list (Env * string)) (sid : string) (db : ChatDB)
  : list ChatbotBugReportController.Outcome * ChatDB :=
  match turns with
  | [] => ([], db)
  | (env, response) :: rest =>
      match respond env sid response db with
      | Some (o, db) =>
          let '(outcomes, db) := converse rest sid db in (o :: outcomes, db)
      | None => ([], db)
      end
  end.

(** The state between two requests: the conversation [c] is on file under
    its session id and active, and its latest message, filed at a step up
    to the current one, asks [question] and is not answered yet. *)
Definition ready (db : ChatDB) (c : ChatbotConversation) (question : string) : Prop :=
  conversations db !! session_id c = Some c
  /\ status c = ACTIVE
  /\ exists m,
       Orm.last_message db c = Some m
       /\ step_number m <= current_step c
       /\ question_text m = question
       /\ Py.truthy_str (user_response m) = false.

(** The stored text after a complete report: the answers behind their
    labels, joined by bars; the device answer only when it was asked for. *)
Definition serialize (ty det : string) (tech : option string) (urg : string) : string :=
  "ISSUE_TYPE:" ++ ty ++ "|DETAILS:" ++ det
  ++ match tech with
     | Some t => "|TECH:" ++ t
     | None => ""
     end
  ++ "|URGENCY:" ++ urg.

(** The issue types the type question offers, in any casing. *)
Definition offered (ty : string) : Prop :=
  ChatbotBugReportController.technical ty = true
  \/ Py.lower ty = "property not found error".

End BugReportSession.

(** ** controller/chatbot/propertySearchController.py: the summary *)

Module SearchSummary.

(** [question_mapping], in the order of the dict. *)
Definition question_mapping : list (string * string) :=
  [ ("what type of property are you looking for", "Property Type");
    ("which city are you interested in", "City");
    ("what's your budget range per month", "Budget");
    ("how many bedrooms do you need", "Bedrooms");
    ("do you have pets", "Pets");
    ("when do you want to move in", "Move-in Time");
    ("any specific amenities you need", "Amenities");
    ("please provide your email address", "Email") ].

(** What the loop of [_show_completion_message] builds. *)
Record Summary := {
  preferences : gmap string string;
  user_email : option string
}.

(** The inner loop: the display name of the first key that occurs in the
    lowercased question, if any ([break] after the first match). *)
Definition display_name (question_key : string) : option string :=
  snd <$> List.find (fun entry => Py.contains (fst entry) question_key) question_mapping.

(** One turn of the outer loop, on the question and the answer of a
    message. *)
Definition note (s : Summary) (message : string * string) : Summary :=
  match display_name (Py.lower (fst message)) with
  | Some name =>
      if bool_decide (name = "Email")
      then {| preferences := preferences s; user_email := Some (snd message) |}
      else {| preferences := <[name := snd message]> (preferences s);
              user_email := user_email s |}
  | None => s
  end.

(** [ChatbotMessage.filter(conversation=conversation,
    user_response__not_isnull=True)]: the question and the answer of the
    answered rows among [rows], the conversation's messages in the order
    of their steps. *)
Definition answered (rows : list ChatbotMessage) : list (string * string) :=
  omap (fun m => pair (question_text m) <$> user_response m) rows.

Definition summarize (rows : list ChatbotMessage) : Summary :=
  fold_left note (answered rows) {| preferences := ∅; user_email := None |}.

(** The questions a complete property search has put: the opening
    question and the eight questions of the flow. *)
Definition questions : list string :=
  ChatbotFlowEngine.question
    <$> (ChatbotFlowEngine.initial_flow ++ ChatbotFlowEngine.property_search_flow)%list.

End SearchSummary.

Module SampleSearch.

(** The answers of one complete property search, the first to the opening
    question. *)
Definition answers : list string :=
  [ "Find a property to rent"; "Apartment"; "Pune"; "Under 10,000"; "2 BHK"; "No";
    "Within 1 month"; "Parking"; "tenant@example.com" ].

Definition row (n : nat) (qa : string * string) : ChatbotMessage :=
  {| msg_id := N.of_nat (30 + n); conversation := 2; step_number := Z.of_nat n;
     question_text := fst qa; user_response := Some (snd qa);
     response_time_seconds := Some 4;
     created_at := 1700000000000000 + Z.of_nat n * 5000000;
     responded_at := Some (1700000004000000 + Z.of_nat n * 5000000) |}.

(** The messages of the search, and the completion message, which has no
    answer. *)
Definition rows : list ChatbotMessage :=
  (imap row (zip SearchSummary.questions answers)
   ++ [ {| msg_id := 40; conversation := 2; step_number := 9;
           question_text := "Thank you for providing your property preferences and email!";
           user_response := None; response_time_seconds := None;
           created_at := 1700000050000000; responded_at := None |} ])%list.

End SampleSearch.

(** *** controller/chatbot/conversationController.py: the details of one
    conversation *)

Module ConversationDetails.

Inductive Outcome :=
| HTTPException (status_code : Z) (detail_starts : string)
| Details (c : ChatbotConversation) (messages : list ChatbotMessage)
          (escalations : list ChatbotEscalation).

(** [sorted(conversation.messages, key=lambda x: x.step_number)]: lowest
    step first, messages at the same step in their original order. *)
Fixpoint insert_by_step (x : ChatbotMessage) (l : list ChatbotMessage)
  : list ChatbotMessage :=
  match l with
  | [] => [x]
  | y :: r =>
      if step_number x <=? step_number y
      then x :: y :: r
      else y :: insert_by_step x r
  end.

Definition sorted_by_step (l : list ChatbotMessage) : list ChatbotMessage :=
  foldr insert_by_step [] l.

Section Lookup.

(** [ChatbotConversation.get_or_none(id=conversation_id)]: the row with
    that primary key, none, or an exception (what the database does with
    a text that is no uuid is its own). *)
Variable get_or_none : string -> Py.result (option ChatbotConversation).

(** [handle_get_conversation_details]; the prefetched messages and
    escalations are the rows that point to the conversation. *)
Definition handle_get_conversation_details (conversation_id : string) (db : SupportDB)
  : Outcome :=
  match get_or_none conversation_id with
  | Py.Raises _ => HTTPException 500 "Failed to get conversation details: "
  | Py.Returns None => HTTPException 404 "Conversation not found"
  | Py.Returns (Some found) =>
      Details found
        (sorted_by_step
           (filter (fun m => conversation m = conv_id found) (messages (chat db))))
        (filter (fun e => esc_conversation e = conv_id found) (escalations db))
  end.

End Lookup.

End ConversationDetails.

(** * Verified properties *)

(** ** The Python operations on small inputs *)

Example index_examples :
  Py.index [10; 20; 30] 0 = Py.Returns 10
  /\ Py.index [10; 20; 30] (-1) = Py.Returns 30
  /\ Py.index [10; 20; 30] 3 = Py.Raises Py.IndexError
  /\ Py.index [10; 20; 30] (-4) = Py.Raises Py.IndexError.
Proof. repeat split. Qed.

Example take_examples :
  Py.take [1; 2; 3] 2 = [1; 2] /\ Py.take [1; 2; 3] 5 = [1; 2; 3]
  /\ Py.take [1; 2; 3] (-1) = [1; 2] /\ Py.take [1; 2; 3] (-7) = [].
Proof. repeat split. Qed.

Example lower_example : Py.lower "Give Feedback (5/5)" = "give feedback (5/5)".
Proof. reflexivity. Qed.

Example split_examples :
  Py.split "a|b||c" "|" = ["a"; "b"; ""; "c"]
  /\ Py.split "" "|" = [""]
  /\ Py.split "CATEGORY:x|RATING:y|DETAILS:z" "|RATING:" = ["CATEGORY:x"; "y|DETAILS:z"].
Proof. repeat split. Qed.

Example replace_examples :
  Py.replace "DETAILS:see DETAILS: below" "DETAILS:" "" = "see  below"
  /\ Py.replace "aaa" "aa" "b" = "ba"
  /\ Py.replace "CATEGORY:x" "RATING:" "" = "CATEGORY:x".
Proof. repeat split. Qed.

Example contains_examples :
  Py.contains "(5/5)" "Excellent (5/5)" = true
  /\ Py.contains "" "abc" = true
  /\ Py.contains "how can we improve" "what would you like us to improve" = false.
Proof. repeat split. Qed.

(** ** Python lists and the FLOWS table *)

Section Engine.

Import ChatbotFlowEngine.

Lemma index_in_range {A} (l : list A) (i : Z) :
  0 <= i < Z.of_nat (length l) ->
  exists x, l !! Z.to_nat i = Some x /\ Py.index l i = Py.Returns x.
Proof.
  intros [Hlo Hhi]. unfold Py.index.
  destruct (Z.ltb_spec i 0) as [Hneg | _]; [lia |].
  destruct (Z.ltb_spec i 0) as [Hneg | _]; [lia |].
  destruct (Z.leb_spec (Z.of_nat (length l)) i) as [Hge | _]; [lia |].
  simpl. destruct (lookup_lt_is_Some_2 l (Z.to_nat i)) as [x Hx]; [lia |].
  exists x. by rewrite Hx.
Qed.

Lemma index_too_negative {A} (l : list A) (i : Z) :
  i < - Z.of_nat (length l) -> Py.index l i = Py.Raises Py.IndexError.
Proof.
  intros Hi. unfold Py.index.
  destruct (Z.ltb_spec i 0) as [_ | Hpos]; [| lia].
  destruct (Z.ltb_spec (Z.of_nat (length l) + i) 0) as [_ | Hpos]; [done | lia].
Qed.

Lemma FLOWS_property_search : FLOWS !! "property_search" = Some property_search_flow.
Proof. reflexivity. Qed.

(** The six keys of the table. *)
Lemma FLOWS_keys (name : string) :
  FLOWS !! name = None <->
  name ∉ ["initial"; "property_search"; "rent_inquiry"; "schedule_visit";
          "bug_report"; "feedback"].
Proof.
  unfold FLOWS. rewrite !lookup_insert, lookup_empty, !not_elem_of_cons.
  repeat case_decide; subst; split; try done; try tauto.
  intros _. repeat split; try done. apply not_elem_of_nil.
Qed.

End Engine.

(** ** The flow engine *)

Section EngineClaims.

Import ChatbotFlowEngine.

(** C2.  For a flow name and a step index (a position, so not negative),
    [get_next_question] returns None exactly when the name is no key of
    FLOWS or the index is at least the length of the flow; otherwise it
    returns the question stored at that index, numbered index + 1, and
    final according to the stored override, or else exactly when the
    index is the last position of the flow. *)
Theorem get_next_question_lookup (flow_type : string) (step : Z) :
  0 <= step ->
  (get_next_question flow_type step = Py.Returns None <->
     (FLOWS !! flow_type = None \/
      exists flow, FLOWS !! flow_type = Some flow /\ Z.of_nat (length flow) <= step))
  /\ (forall flow,
        FLOWS !! flow_type = Some flow -> step < Z.of_nat (length flow) ->
        exists stored,
          flow !! Z.to_nat step = Some stored /\
          get_next_question flow_type step =
            Py.Returns (Some
              {| q_question := question stored;
                 q_options := options stored;
                 q_input_type := input_type stored;
                 q_step_number := step + 1;
                 q_is_final :=
                   match is_final stored with
                   | Some b => b
                   | None => bool_decide (step = Z.of_nat (length flow) - 1)
                   end |})).
Proof.
  intros Hstep. unfold get_next_question. split.
  - destruct (FLOWS !! flow_type) as [flow |] eqn:Hflow.
    + destruct (Z.leb_spec (Z.of_nat (length flow)) step) as [Hge | Hlt].
      * split; [intros _; right; eauto | done].
      * destruct (index_in_range flow step) as (x & _ & ->); [lia |].
        simpl. split; [done |].
        intros [? | (flow' & Heq & Hle)]; [done |].
        injection Heq as <-. lia.
    + split; [by left | done].
  - intros flow -> Hlt.
    destruct (Z.leb_spec (Z.of_nat (length flow)) step) as [Hge | _]; [lia |].
    destruct (index_in_range flow step) as (x & Hx & ->); [lia |].
    exists x. split; [done |]. simpl. do 3 f_equal.
    destruct (is_final x); [done |].
    destruct (Z.eqb_spec step (Z.of_nat (length flow) - 1)) as [-> | Hne].
    + by rewrite bool_decide_eq_true_2.
    + by rewrite bool_decide_eq_false_2.
Qed.

Lemma get_next_question_lookup_witness :
  0 <= 7 /\
  exists stored,
    property_search_flow !! Z.to_nat 7 = Some stored /\
    get_next_question "property_search" 7 =
      Py.Returns (Some
        {| q_question := question stored;
           q_options := options stored;
           q_input_type := input_type stored;
           q_step_number := 7 + 1;
           q_is_final :=
             match is_final stored with
             | Some b => b
             | None => bool_decide (7 = Z.of_nat (length property_search_flow) - 1)
             end |}).
Proof.
  split; [lia |].
  apply (proj2 (get_next_question_lookup "property_search" 7 ltac:(lia))).
  - reflexivity.
  - simpl. lia.
Defined.

(** Below zero Python indexes from the end, and raises past the start:
    the lookup is then neither None nor the question at that position. *)
Example get_next_question_minus_one :
  q_question <$> default None (match get_next_question "property_search" (-1) with
                               | Py.Returns r => Some r
                               | Py.Raises _ => None
                               end)
  = Some email_question.
Proof. reflexivity. Qed.

Example get_next_question_before_start :
  get_next_question "initial" (-2) = Py.Raises Py.IndexError.
Proof. reflexivity. Qed.

Lemma flow_mapping_lookup (key : string) :
  flow_mapping !! key =
    if decide ("find a property to rent" = key) then Some PROPERTY_SEARCH
    else if decide ("ask about a specific property" = key) then Some RENT_INQUIRY
    else if decide ("schedule a property visit" = key) then Some SCHEDULE_VISIT
    else if decide ("report an issue" = key) then Some BUG_REPORT
    else if decide ("give feedback" = key) then Some FEEDBACK
    else None.
Proof.
  unfold flow_mapping. rewrite !lookup_insert, lookup_empty.
  repeat case_decide; done.
Qed.

(** The keys of [flow_mapping] are the lowercased menu options, in the
    order of the menu, and the flows are those the opening question
    names under [next_flow]. *)
Lemma menu_flows_lowered (response opt : string) (f : ChatbotFlowType) :
  (opt, f) ∈ Stated.menu_flows ->
  Py.lower response = Py.lower opt ->
  determine_flow_from_response response = f.
Proof.
  intros Hin Hlow. unfold determine_flow_from_response.
  rewrite Hlow, flow_mapping_lookup.
  unfold Stated.menu_flows in Hin.
  repeat (apply elem_of_cons in Hin as [[= -> ->] | Hin]; [reflexivity |]).
  by apply elem_of_nil in Hin.
Qed.

Lemma menu_flows_table :
  ((fun '(opt, f) => (opt, flow_value f)) <$> Stated.menu_flows)
  = default [] (head initial_flow ≫= next_flow)
  /\ Stated.menu_flows.*1 = Stated.initial_options.
Proof. split; reflexivity. Qed.

Lemma lowered_options :
  Py.lower <$> Stated.initial_options
  = [ "find a property to rent"; "ask about a specific property";
      "schedule a property visit"; "report an issue"; "give feedback" ].
Proof. reflexivity. Qed.

(** C8.  A first response that, lowercased, is none of the five lowercased
    menu options is routed to the bug-report flow. *)
Theorem unrecognised_opening_is_bug_report (response : string) :
  Py.lower response ∉ (Py.lower <$> Stated.initial_options) ->
  determine_flow_from_response response = BUG_REPORT.
Proof.
  rewrite lowered_options, !not_elem_of_cons.
  intros (H1 & H2 & H3 & H4 & H5 & _). unfold determine_flow_from_response.
  rewrite flow_mapping_lookup.
  repeat case_decide; congruence.
Qed.

Lemma unrecognised_opening_is_bug_report_witness :
  (Py.lower "Hello there" ∉ (Py.lower <$> Stated.initial_options)) /\
  determine_flow_from_response "Hello there" = BUG_REPORT.
Proof.
  assert (Hnot : Py.lower "Hello there" ∉ (Py.lower <$> Stated.initial_options)).
  { rewrite lowered_options, !not_elem_of_cons.
    repeat split; try (vm_compute; discriminate). apply not_elem_of_nil. }
  split; [exact Hnot |].
  exact (unrecognised_opening_is_bug_report "Hello there" Hnot).
Defined.

End EngineClaims.

(** ** The property-search flow *)

Section PropertySearchClaims.

Import ChatbotFlowEngine PropertySearchController.

(** No lookup in the property-search flow is marked final, whatever the
    step: the first seven questions are not the last position, and the
    last one carries the override. *)
Lemma property_search_not_final (step : Z) (q : Question) :
  get_next_question "property_search" step = Py.Returns (Some q) ->
  q_is_final q = false.
Proof.
  intros Hq.
  destruct (Z.le_gt_cases 8 step) as [Hge | Hlt].
  { unfold get_next_question in Hq. rewrite FLOWS_property_search in Hq.
    destruct (Z.leb_spec (Z.of_nat (length property_search_flow)) step) as [_ | Hlt];
      [done | simpl in Hlt; lia]. }
  destruct (Z.le_gt_cases (-8) step) as [Hlo | Hneg].
  - assert (Hcases : step = -8 \/ step = -7 \/ step = -6 \/ step = -5 \/
                     step = -4 \/ step = -3 \/ step = -2 \/ step = -1 \/
                     step = 0 \/ step = 1 \/ step = 2 \/ step = 3 \/
                     step = 4 \/ step = 5 \/ step = 6 \/ step = 7) by lia.
    repeat (destruct Hcases as [-> | Hcases];
            [vm_compute in Hq; by injection Hq as <- |]).
    subst step. vm_compute in Hq. by injection Hq as <-.
  - unfold get_next_question in Hq. rewrite FLOWS_property_search in Hq.
    destruct (Z.leb_spec (Z.of_nat (length property_search_flow)) step) as [_ | _];
      [done |].
    rewrite index_too_negative in Hq; [done | simpl; lia].
Qed.

Lemma property_search_exhausted (step : Z) :
  get_next_question "property_search" step = Py.Returns None <-> 8 <= step.
Proof.
  unfold get_next_question. rewrite FLOWS_property_search.
  destruct (Z.leb_spec (Z.of_nat (length property_search_flow)) step) as [Hge | Hlt];
    simpl in *.
  - split; [lia | done].
  - split; [| lia]. unfold Py.bind. by destruct (Py.index _ _).
Qed.

(** The step a controller passes to the engine is a position: the
    controller only ever moves [current_step] one up. *)
Lemma handle_response_step
    (env : Env) (c : ChatbotConversation) (m : ChatbotMessage)
    (response : string) (db : ChatDB) :
  match (handle_response env c m response db).1 with
  | NextQuestion c' _ => current_step c' = current_step c + 1
  | ShowCompletionMessage c' | SatisfactionQuestion c' => current_step c' = current_step c
  end.
Proof.
  unfold handle_response.
  destruct (next_question_of (flow_type c) (current_step c)) as [[q |] | e]; try done.
  by destruct (answered_email_question _ _ _).
Qed.

(** C9, as amended.  In the property-search flow no question the engine
    returns is final, the email request included; so the controller's
    comparison with the email prompt never succeeds, and the completion
    message is shown exactly when the engine has no question left, that
    is when the conversation is at step 8 or beyond. *)
Theorem property_search_completion
    (env : Env) (c : ChatbotConversation) (m : ChatbotMessage)
    (response : string) (db : ChatDB) :
  flow_type c = Some PROPERTY_SEARCH ->
  (forall step q,
      get_next_question "property_search" step = Py.Returns (Some q) ->
      q_is_final q = false
      /\ answered_email_question q response (Py.lower (question_text m)) = false)
  /\ (Stated.completes env c m response db <-> 8 <= current_step c).
Proof.
  intros Hflow. split.
  - intros step q Hq. pose proof (property_search_not_final _ _ Hq) as Hfinal.
    split; [done |]. unfold answered_email_question. by rewrite Hfinal.
  - unfold Stated.completes, handle_response, next_question_of.
    rewrite Hflow. simpl flow_value.
    destruct (get_next_question "property_search" (current_step c))
      as [[q |] | e] eqn:Hq.
    + pose proof (property_search_not_final _ _ Hq) as Hfinal.
      unfold answered_email_question. rewrite Hfinal. simpl.
      split.
      * intros [c' Hc']. done.
      * intros Hge. apply property_search_exhausted in Hge. congruence.
    + simpl. split; [| eauto].
      intros _. by apply property_search_exhausted.
    + simpl. split.
      * intros [c' Hc']. done.
      * intros Hge. apply property_search_exhausted in Hge. congruence.
Qed.

Lemma property_search_completion_witness :
  flow_type Sample.searching = Some PROPERTY_SEARCH /\
  (Stated.completes Sample.env Sample.searching Sample.email_message
     "tenant@example.com" Sample.search_db
   <-> 8 <= current_step Sample.searching).
Proof.
  split; [reflexivity |].
  exact (proj2 (property_search_completion Sample.env Sample.searching
                  Sample.email_message "tenant@example.com" Sample.search_db
                  eq_refl)).
Defined.

(** C9, as stated, fails: after the user answers the email request the
    conversation is at step 8, the flow completes because the engine has
    no ninth question, and the text just answered (it ends in a colon) is
    not the prompt the controller compares with. *)
Lemma completion_without_email_match :
  (flow_type Sample.searching = Some PROPERTY_SEARCH
   /\ Stated.completes Sample.env Sample.searching Sample.email_message
        "tenant@example.com" Sample.search_db
   /\ Py.lower (question_text Sample.email_message) <> email_prompt)
  /\ ~ Stated.completes_only_on_email_match.
Proof.
  assert (Hdone : Stated.completes Sample.env Sample.searching Sample.email_message
                    "tenant@example.com" Sample.search_db).
  { eexists. vm_compute. reflexivity. }
  assert (Htext : Py.lower (question_text Sample.email_message) <> email_prompt).
  { vm_compute. discriminate. }
  split; [split; [reflexivity | split; [exact Hdone | exact Htext]] |].
  intros Hclaim. apply Htext.
  exact (Hclaim Sample.env Sample.searching Sample.email_message
           "tenant@example.com" Sample.search_db eq_refl Hdone).
Qed.

End PropertySearchClaims.

(** ** The main controller *)

Section MainControllerClaims.

Import ChatbotFlowEngine MainChatbotController.

(** Saving a message never touches the conversations. *)
Lemma save_message_conversations (m : ChatbotMessage) (db : ChatDB) :
  conversations (Orm.save_message m db) = conversations db.
Proof. reflexivity. Qed.

(** C5.  [handle_chat_response] raises 404 when no conversation has the
    session id and 400 when the conversation is not active, and in both
    cases the database it leaves is the one it found: no message row is
    created and no conversation row is written. *)
Theorem handle_chat_response_rejects
    (env : Env) (sid response : string) (db : ChatDB) :
  (conversations db !! sid = None ->
   handle_chat_response env sid response db
   = (HTTPException 404 "Conversation not found", db))
  /\ (forall c,
        conversations db !! sid = Some c -> status c <> ACTIVE ->
        handle_chat_response env sid response db
        = (HTTPException 400 "Conversation is not active", db)).
Proof.
  unfold handle_chat_response, Orm.get_conversation. split.
  - by intros ->.
  - intros c -> Hstatus. by rewrite bool_decide_eq_false_2.
Qed.

Lemma handle_chat_response_rejects_witness :
  (conversations Sample.closed_db !! "nobody" = None
   /\ handle_chat_response Sample.env "nobody" "Give feedback" Sample.closed_db
      = (HTTPException 404 "Conversation not found", Sample.closed_db))
  /\ (conversations Sample.closed_db !! "s-1" = Some Sample.closed_conversation
      /\ status Sample.closed_conversation <> ACTIVE
      /\ handle_chat_response Sample.env "s-1" "Give feedback" Sample.closed_db
         = (HTTPException 400 "Conversation is not active", Sample.closed_db)).
Proof.
  assert (H404 : conversations Sample.closed_db !! "nobody" = None) by reflexivity.
  assert (Hrow : conversations Sample.closed_db !! "s-1" = Some Sample.closed_conversation)
    by reflexivity.
  assert (Hclosed : status Sample.closed_conversation <> ACTIVE) by (simpl; discriminate).
  split.
  - split; [exact H404 |].
    exact (proj1 (handle_chat_response_rejects Sample.env "nobody" "Give feedback"
                    Sample.closed_db) H404).
  - split; [exact Hrow |]. split; [exact Hclosed |].
    exact (proj2 (handle_chat_response_rejects Sample.env "s-1" "Give feedback"
                    Sample.closed_db) _ Hrow Hclosed).
Defined.

(** C3, as amended.  A first response that, lowercased, equals a lowercased
    menu option selects the flow the menu gives for it; and
    [handle_chat_response] assigns that flow to the conversation (a row
    filed under its own session id) exactly when the conversation is
    active, its latest message is still unanswered, and it is at step 0
    with no flow yet set. *)
Theorem first_response_selects_flow
    (env : Env) (sid response : string) (db : ChatDB) (c : ChatbotConversation) :
  conversations db !! sid = Some c ->
  session_id c = sid ->
  (forall opt f,
      (opt, f) ∈ Stated.menu_flows ->
      Py.lower response = Py.lower opt ->
      determine_flow_from_response response = f)
  /\ (Stated.flow_assigned env sid response db <->
      status c = ACTIVE
      /\ (exists m, Orm.last_message db c = Some m
                    /\ Py.truthy_str (user_response m) = false)
      /\ current_step c = 0
      /\ flow_type c = None).
Proof.
  intros Hc Hsid. split.
  { intros opt f. apply menu_flows_lowered. }
  unfold Stated.flow_assigned, handle_chat_response, Orm.get_conversation.
  rewrite Hc.
  destruct (decide (status c = ACTIVE)) as [Hactive | Hclosed].
  2:{ rewrite bool_decide_eq_false_2 by done. simpl. split.
      - intros (c0 & c' & H0 & H' & Hnone & Hsome). congruence.
      - intros (? & _). done. }
  rewrite bool_decide_eq_true_2 by done. simpl.
  destruct (Orm.last_message db c) as [m |] eqn:Hlast.
  2:{ simpl. split.
      - intros (c0 & c' & H0 & H' & Hnone & Hsome). congruence.
      - intros (_ & (m & Hm & _) & _). done. }
  destruct (Py.truthy_str (user_response m)) eqn:Hanswered.
  { simpl. split.
    - intros (c0 & c' & H0 & H' & Hnone & Hsome). congruence.
    - intros (_ & (m' & Hm' & Hun) & _). congruence. }
  simpl negb. cbv iota.
  destruct (Z.eqb_spec (current_step c) 0) as [Hzero | Hstep];
    destruct (flow_type c) as [f0 |] eqn:Hflow; simpl.
  - split.
    + intros (c0 & c' & H0 & H' & Hnone & Hsome). congruence.
    + intros (_ & _ & _ & ?). done.
  - split.
    + intros _. repeat split; eauto.
    + intros _. exists c. eexists. split; [done |].
      rewrite Hsid. rewrite lookup_insert_eq. split; [done |]. split; done.
  - split.
    + intros (c0 & c' & H0 & H' & Hnone & Hsome). congruence.
    + intros (_ & _ & ? & _). done.
  - split.
    + intros (c0 & c' & H0 & H' & Hnone & Hsome). congruence.
    + intros (_ & _ & ? & _). done.
Qed.

Lemma first_response_selects_flow_witness :
  conversations Sample.fresh_db !! "s-1" = Some Sample.fresh_conversation
  /\ session_id Sample.fresh_conversation = "s-1"
  /\ determine_flow_from_response "give FEEDBACK" = FEEDBACK
  /\ Stated.flow_assigned Sample.env "s-1" "give FEEDBACK" Sample.fresh_db.
Proof.
  assert (Hrow : conversations Sample.fresh_db !! "s-1" = Some Sample.fresh_conversation)
    by reflexivity.
  pose proof (first_response_selects_flow Sample.env "s-1" "give FEEDBACK"
                Sample.fresh_db Sample.fresh_conversation Hrow eq_refl) as [Hmenu Hiff].
  split; [exact Hrow |]. split; [reflexivity |]. split.
  - apply (Hmenu "Give feedback"); [| reflexivity].
    unfold Stated.menu_flows. rewrite !elem_of_cons. tauto.
  - apply Hiff. split; [reflexivity |]. split; [| split; reflexivity].
    exists Sample.opening_message. split; reflexivity.
Defined.

(** C3, as stated, fails: a conversation closed through the satisfaction
    endpoint right after the start is at step 0 with no flow, and a
    response to it is refused with 400 and assigns nothing. *)
Lemma closed_conversation_gets_no_flow :
  (conversations Sample.closed_db !! "s-1" = Some Sample.closed_conversation
   /\ current_step Sample.closed_conversation = 0
   /\ flow_type Sample.closed_conversation = None
   /\ handle_chat_response Sample.env "s-1" "Give feedback" Sample.closed_db
      = (HTTPException 400 "Conversation is not active", Sample.closed_db)
   /\ ~ Stated.flow_assigned Sample.env "s-1" "Give feedback" Sample.closed_db)
  /\ ~ Stated.assigned_iff_fresh.
Proof.
  assert (Hnot : ~ Stated.flow_assigned Sample.env "s-1" "Give feedback" Sample.closed_db).
  { intros (c & c' & Hc & Hc' & _ & Hflow).
    vm_compute in Hc'. injection Hc' as <-. discriminate Hflow. }
  split; [repeat split; try reflexivity; exact Hnot |].
  intros Hclaim. apply Hnot.
  apply (Hclaim Sample.env "s-1" "Give feedback" Sample.closed_db
           Sample.closed_conversation eq_refl).
  split; reflexivity.
Qed.

End MainControllerClaims.

(** ** Python strings: split and replace *)

Section Strings.

#[local] Arguments String.append : simpl nomatch.

Lemma append_assoc (a b c : string) : (a ++ b) ++ c = a ++ b ++ c.
Proof. induction a as [| x a IH]; simpl; [done | by rewrite IH]. Qed.

Lemma prefix_empty (s : string) : String.prefix EmptyString s = true.
Proof. by destruct s. Qed.

Lemma lacks_cons (x y : ascii) (s : string) :
  Py.lacks x (String y s) <-> x <> y /\ Py.lacks x s.
Proof.
  unfold Py.lacks. simpl. destruct (Ascii.ascii_dec x y) as [-> | Hne].
  - rewrite prefix_empty. simpl. split; [done | by intros [? _]].
  - simpl. split; [by intros ? | by intros [_ ?]].
Qed.

Lemma lacks_append (x : ascii) (s t : string) :
  Py.lacks x (s ++ t) <-> Py.lacks x s /\ Py.lacks x t.
Proof.
  induction s as [| y s IH]; simpl.
  - split; [by intros ? | by intros [_ ?]].
  - rewrite !lacks_cons, IH. tauto.
Qed.

Lemma prefix_lacks (x : ascii) (sep s : string) :
  Py.lacks x s -> String.prefix (String x sep) s = false.
Proof.
  destruct s as [| y s]; [done |]. intros [Hne _]%lacks_cons. simpl.
  by destruct (Ascii.ascii_dec x y).
Qed.

Lemma prefix_append (p s : string) : String.prefix p (p ++ s) = true.
Proof.
  induction p as [| x p IH]; simpl; [apply prefix_empty |].
  by destruct (Ascii.ascii_dec x x).
Qed.

(** A piece without the first byte of the separator is not cut. *)
Lemma split_scan_plain (x : ascii) (sep cur s : string) :
  Py.lacks x s ->
  Py.split_scan (String x sep) 0 cur s = [Py.rev_append cur s].
Proof.
  revert cur. induction s as [| y s IH]; intros cur Hs; [done |].
  pose proof (prefix_lacks x sep _ Hs) as Hpre.
  apply lacks_cons in Hs as [_ Hs].
  cbn [Py.split_scan]. rewrite Hpre. by rewrite IH.
Qed.

Lemma split_scan_skip (sep t cur s : string) :
  Py.split_scan sep (String.length t) cur (t ++ s) = Py.split_scan sep 0 cur s.
Proof. induction t as [| y t IH]; simpl; [done | exact IH]. Qed.

(** The scan cuts at the first separator when the text before it has
    none of its first byte. *)
Lemma split_scan_cut (x : ascii) (sep cur s1 s2 : string) :
  Py.lacks x s1 ->
  Py.split_scan (String x sep) 0 cur (s1 ++ String x sep ++ s2)
  = Py.rev_append cur s1 :: Py.split_scan (String x sep) 0 EmptyString s2.
Proof.
  revert cur. induction s1 as [| y s1 IH]; intros cur Hs.
  - change (EmptyString ++ String x sep ++ s2) with (String x (sep ++ s2)).
    cbn [Py.split_scan].
    change (String x (sep ++ s2)) with (String x sep ++ s2).
    rewrite prefix_append.
    replace (String.length (String x sep) - 1)%nat with (String.length sep)
      by (simpl; lia).
    by rewrite split_scan_skip.
  - pose proof (prefix_lacks x sep _ Hs) as Hpre.
    apply lacks_cons in Hs as [Hne Hs].
    change (String y s1 ++ String x sep ++ s2)
      with (String y (s1 ++ String x sep ++ s2)).
    cbn [Py.split_scan].
    assert (Hno : String.prefix (String x sep) (String y (s1 ++ String x sep ++ s2))
                  = false).
    { simpl. by destruct (Ascii.ascii_dec x y). }
    rewrite Hno. by rewrite IH.
Qed.

Lemma replace_scan_skip (old new t s : string) :
  Py.replace_scan old new (String.length t) (t ++ s) = Py.replace_scan old new 0 s.
Proof. induction t as [| y t IH]; simpl; [done | exact IH]. Qed.

(** Nothing is replaced in a text where [old] does not occur. *)
Lemma replace_scan_absent (old new s : string) :
  Py.contains old s = false -> Py.replace_scan old new 0 s = s.
Proof.
  induction s as [| y s IH]; [done |].
  simpl. intros [Hpre Hrest]%orb_false_elim.
  rewrite Hpre. by rewrite IH.
Qed.

(** Removing [old] from [old ++ s] gives back [s] when [old] does not
    occur in [s] ... *)
Lemma replace_prefix_absent (x : ascii) (old s : string) :
  Py.contains (String x old) s = false ->
  Py.replace (String x old ++ s) (String x old) EmptyString = s.
Proof.
  intros Hs. unfold Py.replace.
  change (String x old ++ s) with (String x (old ++ s)).
  cbn [Py.replace_scan].
  change (String x (old ++ s)) with (String x old ++ s).
  rewrite prefix_append.
    replace (String.length (String x old) - 1)%nat with (String.length old)
      by (simpl; lia).
  rewrite replace_scan_skip. simpl. by apply replace_scan_absent.
Qed.

(** ... and in general gives [s] with its own occurrences removed too. *)
Lemma replace_prefix (x : ascii) (old s : string) :
  Py.replace (String x old ++ s) (String x old) EmptyString
  = Py.replace s (String x old) EmptyString.
Proof.
  unfold Py.replace.
  change (String x old ++ s) with (String x (old ++ s)).
  cbn [Py.replace_scan].
  change (String x (old ++ s)) with (String x old ++ s).
  rewrite prefix_append.
    replace (String.length (String x old) - 1)%nat with (String.length old)
      by (simpl; lia).
  by rewrite replace_scan_skip.
Qed.

End Strings.

(** ** The feedback store *)

Section FeedbackClaims.

Import ChatbotFeedbackController.

#[local] Arguments String.append : simpl nomatch.

(** What each handler leaves in [guest_email]. *)
Lemma category_stores (env : Env) (c : ChatbotConversation) (r : string) (db : ChatDB) :
  guest_email (conversation_of (_handle_feedback_category_selection env c r db).1)
  = Some ("CATEGORY:" ++ r).
Proof. reflexivity. Qed.

Lemma rating_stores (env : Env) (c : ChatbotConversation) (r : string) (db : ChatDB) :
  guest_email (conversation_of (_handle_rating_selection env c r db).1)
  = Some (stored_data c ++ "|RATING:" ++ r).
Proof. reflexivity. Qed.

Lemma details_stores (env : Env) (c : ChatbotConversation) (r : string) (db : ChatDB) :
  guest_email (conversation_of (_handle_detailed_feedback env c r db).1)
  = Some (stored_data c ++ "|DETAILS:" ++ r).
Proof.
  unfold _handle_detailed_feedback. by destruct (4 <=? stored_rating_value _).
Qed.

Lemma suggestions_stores (env : Env) (c : ChatbotConversation) (r : string) (db : ChatDB) :
  guest_email (conversation_of (_handle_improvement_suggestions env c r db).1)
  = Some (stored_data c ++ "|SUGGESTIONS:" ++ r).
Proof. reflexivity. Qed.

Lemma followup_stores (env : Env) (c : ChatbotConversation) (r : string) (db : ChatDB) :
  guest_email (conversation_of (_handle_followup_preference env c r db).1)
  = Some (stored_data c ++ "|FOLLOWUP:" ++ r).
Proof. unfold _handle_followup_preference. by case_bool_decide. Qed.

Lemma stored_data_of (c : ChatbotConversation) (s : string) :
  guest_email c = Some s -> stored_data c = s.
Proof. unfold stored_data. by intros ->. Qed.

(** The five handlers, run in the order of the flow on the answers [cat],
    [rat], [det], [sug] and [fol], leave the text [serialize] describes;
    without the suggestions handler they leave it without that field. *)
Lemma handlers_store (e1 e2 e3 e4 e5 : Env) (c0 : ChatbotConversation) (db0 : ChatDB)
      (cat rat det sug fol : string) :
  let r1 := _handle_feedback_category_selection e1 c0 cat db0 in
  let r2 := _handle_rating_selection e2 (conversation_of r1.1) rat r1.2 in
  let r3 := _handle_detailed_feedback e3 (conversation_of r2.1) det r2.2 in
  let r4 := _handle_improvement_suggestions e4 (conversation_of r3.1) sug r3.2 in
  let r5 := _handle_followup_preference e5 (conversation_of r4.1) fol r4.2 in
  let r5' := _handle_followup_preference e5 (conversation_of r3.1) fol r3.2 in
  guest_email (conversation_of r5.1) = Some (serialize cat rat det (Some sug) fol)
  /\ guest_email (conversation_of r5'.1) = Some (serialize cat rat det None fol).
Proof.
  intros r1 r2 r3 r4 r5 r5'.
  pose proof (stored_data_of _ _ (category_stores e1 c0 cat db0)) as H1.
  pose proof (stored_data_of _ _ (rating_stores e2 (conversation_of r1.1) rat r1.2)) as H2.
  pose proof (stored_data_of _ _ (details_stores e3 (conversation_of r2.1) det r2.2)) as H3.
  pose proof (stored_data_of _ _ (suggestions_stores e4 (conversation_of r3.1) sug r3.2))
    as H4.
  fold r1 in H1. rewrite H1 in H2. fold r2 in H2. rewrite H2 in H3.
  fold r3 in H3. rewrite H3 in H4. fold r4 in H4.
  split.
  - subst r5. rewrite followup_stores, H4. unfold serialize.
    by rewrite !append_assoc.
  - subst r5'. rewrite followup_stores, H3. unfold serialize.
    by rewrite !append_assoc.
Qed.

(** *** Splitting the stored text *)

Lemma split_head (k s rest : string) :
  Py.lacks "|" k -> Py.lacks "|" s ->
  Py.split_scan "|" 0 EmptyString (k ++ s ++ String "|" rest)
  = (k ++ s) :: Py.split_scan "|" 0 EmptyString rest.
Proof.
  intros Hk Hs. rewrite <- append_assoc.
  change (String "|" rest) with ("|" ++ rest).
  rewrite (split_scan_cut "|" EmptyString EmptyString (k ++ s) rest); [done |].
  by apply lacks_append.
Qed.

Lemma split_last (k s : string) :
  Py.lacks "|" k -> Py.lacks "|" s ->
  Py.split_scan "|" 0 EmptyString (k ++ s) = [k ++ s].
Proof.
  intros Hk Hs. rewrite split_scan_plain; [done |]. by apply lacks_append.
Qed.

Lemma split_serialize (cat rat det fol : string) (sug : option string) :
  Py.lacks "|" cat -> Py.lacks "|" rat -> Py.lacks "|" det ->
  Py.lacks "|" (default EmptyString sug) -> Py.lacks "|" fol ->
  Py.split (serialize cat rat det sug fol) "|"
  = ([ "CATEGORY:" +:+ cat; "RATING:" +:+ rat; "DETAILS:" +:+ det ]
     ++ match sug with
        | Some s => [ "SUGGESTIONS:" +:+ s ]
        | None => []
        end
     ++ [ "FOLLOWUP:" +:+ fol ])%list.
Proof.
  intros Hcat Hrat Hdet Hsug Hfol. unfold Py.split, serialize.
  change ("|RATING:" ++ rat ++ ?t) with (String "|" ("RATING:" ++ rat ++ t)).
  rewrite split_head by done.
  change ("|DETAILS:" ++ det ++ ?t) with (String "|" ("DETAILS:" ++ det ++ t)).
  rewrite split_head by done.
  destruct sug as [sug |]; simpl default in Hsug.
  - rewrite append_assoc.
    change ("|SUGGESTIONS:" ++ sug ++ ?t) with (String "|" ("SUGGESTIONS:" ++ sug ++ t)).
    rewrite split_head by done.
    change ("|FOLLOWUP:" ++ fol) with (String "|" ("FOLLOWUP:" ++ fol)).
    rewrite split_head by done.
    by rewrite split_last.
  - change (EmptyString ++ "|FOLLOWUP:" ++ fol) with (String "|" ("FOLLOWUP:" ++ fol)).
    rewrite split_head by done.
    by rewrite split_last.
Qed.

(** *** Reading the fields back *)

Ltac strip_label :=
  unfold parse_part, Py.startswith;
  repeat match goal with
         | |- context [String.prefix ?k (?k ++ ?s)] => rewrite (prefix_append k s)
         | |- context [String.prefix ?k (?k' ++ ?s)] =>
             change (String.prefix k (k' ++ s)) with false
         end;
  cbv iota.

(** A part is read by removing its label wherever the label occurs. *)
Lemma parse_part_category (p : Parsed) (s : string) :
  parse_part p ("CATEGORY:" ++ s)
  = {| category := Py.replace s "CATEGORY:" EmptyString; rating := rating p;
       details := details p; suggestions := suggestions p; followup := followup p |}.
Proof. strip_label. by rewrite replace_prefix. Qed.

Lemma parse_part_rating (p : Parsed) (s : string) :
  parse_part p ("RATING:" ++ s)
  = {| category := category p; rating := Py.replace s "RATING:" EmptyString;
       details := details p; suggestions := suggestions p; followup := followup p |}.
Proof. strip_label. by rewrite replace_prefix. Qed.

Lemma parse_part_details (p : Parsed) (s : string) :
  parse_part p ("DETAILS:" ++ s)
  = {| category := category p; rating := rating p;
       details := Py.replace s "DETAILS:" EmptyString;
       suggestions := suggestions p; followup := followup p |}.
Proof. strip_label. by rewrite replace_prefix. Qed.

Lemma parse_part_suggestions (p : Parsed) (s : string) :
  parse_part p ("SUGGESTIONS:" ++ s)
  = {| category := category p; rating := rating p; details := details p;
       suggestions := Py.replace s "SUGGESTIONS:" EmptyString;
       followup := followup p |}.
Proof. strip_label. by rewrite replace_prefix. Qed.

Lemma parse_part_followup (p : Parsed) (s : string) :
  parse_part p ("FOLLOWUP:" ++ s)
  = {| category := category p; rating := rating p; details := details p;
       suggestions := suggestions p;
       followup := Py.replace s "FOLLOWUP:" EmptyString |}.
Proof. strip_label. by rewrite replace_prefix. Qed.

(** What [_complete_feedback] reads from a text in the stored format, for
    answers without a bar: each answer with every occurrence of its own
    label removed. *)
Lemma parse_serialize (cat rat det fol : string) (sug : option string) :
  Py.lacks "|" cat -> Py.lacks "|" rat -> Py.lacks "|" det ->
  Py.lacks "|" (default EmptyString sug) -> Py.lacks "|" fol ->
  parse_stored (serialize cat rat det sug fol)
  = {| category := Py.replace cat "CATEGORY:" EmptyString;
       rating := Py.replace rat "RATING:" EmptyString;
       details := Py.replace det "DETAILS:" EmptyString;
       suggestions :=
         match sug with
         | Some s => Py.replace s "SUGGESTIONS:" EmptyString
         | None => EmptyString
         end;
       followup := Py.replace fol "FOLLOWUP:" EmptyString |}.
Proof.
  intros Hcat Hrat Hdet Hsug Hfol. unfold parse_stored.
  rewrite split_serialize by done.
  destruct sug as [sug |]; cbn [app fold_left];
    rewrite parse_part_category, parse_part_rating, parse_part_details,
      ?parse_part_suggestions, parse_part_followup; reflexivity.
Qed.

(** The round trip, where it holds: answers without a bar and without
    their own label are read back as they were given. *)
Lemma feedback_round_trip (cat rat det fol : string) (sug : option string) :
  Py.lacks "|" cat -> Py.lacks "|" rat -> Py.lacks "|" det ->
  Py.lacks "|" (default EmptyString sug) -> Py.lacks "|" fol ->
  Py.contains "CATEGORY:" cat = false ->
  Py.contains "RATING:" rat = false ->
  Py.contains "DETAILS:" det = false ->
  Py.contains "SUGGESTIONS:" (default EmptyString sug) = false ->
  Py.contains "FOLLOWUP:" fol = false ->
  parse_stored (serialize cat rat det sug fol)
  = {| category := cat; rating := rat; details := det;
       suggestions := default EmptyString sug; followup := fol |}.
Proof.
  intros Hcat Hrat Hdet Hsug Hfol Lcat Lrat Ldet Lsug Lfol.
  rewrite parse_serialize by done. unfold Py.replace.
  rewrite !replace_scan_absent by done.
  destruct sug as [sug |]; simpl in *; [| done].
  by rewrite replace_scan_absent.
Qed.

(** *** Which ratings are asked for suggestions *)

Lemma contains_append_r (sub t s : string) :
  Py.contains sub s = true -> Py.contains sub (t ++ s) = true.
Proof.
  intros Hs. induction t as [| y t IH]; simpl; [done |].
  rewrite IH. apply orb_true_r.
Qed.

Lemma contains_at (sub t s : string) : Py.contains sub (t ++ sub ++ s) = true.
Proof.
  apply contains_append_r.
  assert (Hpre : String.prefix sub (sub ++ s) = true) by apply prefix_append.
  destruct (sub ++ s); cbn [Py.contains]; by rewrite Hpre.
Qed.

Lemma stored_rating (cat rat : string) :
  Py.lacks "|" cat -> Py.lacks "|" rat ->
  stored_rating_value (("CATEGORY:" ++ cat) ++ "|RATING:" ++ rat) = rating_value rat.
Proof.
  intros Hcat Hrat. unfold stored_rating_value.
  rewrite contains_at. unfold Py.split.
  rewrite (split_scan_cut "|" "RATING:");
    [| apply lacks_append; split; [reflexivity | exact Hcat]].
  rewrite (split_scan_plain "|" "RATING:") by exact Hrat. cbn [nth Py.rev_append].
  rewrite (split_scan_plain "|" EmptyString) by exact Hrat. reflexivity.
Qed.

(** After the details answer the suggestions question is asked exactly
    for a stored rating that reads 4 or 5; otherwise the follow-up
    question comes next and no SUGGESTIONS field is ever added. *)
Lemma suggestions_only_for_high_ratings
      (env : Env) (c : ChatbotConversation) (cat rat det : string) (db : ChatDB) :
  guest_email c = Some (("CATEGORY:" ++ cat) ++ "|RATING:" ++ rat) ->
  Py.lacks "|" cat -> Py.lacks "|" rat ->
  exists c',
    (_handle_detailed_feedback env c det db).1
    = Asked c' (if 4 <=? rating_value rat
                then "Any suggestions for improvement or new features you'd like to see?"
                else "Would you like us to follow up with you about your feedback?").
Proof.
  intros Hc Hcat Hrat. unfold _handle_detailed_feedback.
  rewrite (stored_data_of _ _ Hc), stored_rating by done.
  destruct (4 <=? rating_value rat); eexists; reflexivity.
Qed.

(** *** Where the store loses text *)

(** C4: the round trip fails on the code.  A user who rates five stars
    and whose detailed answer holds the text DETAILS followed by a colon
    has every answer stored in the format, without any bar, and
    [_complete_feedback] submits the details without that text.  A user
    who rates three stars is asked what to improve, a question the
    dispatch does not recognise: the details answer is not stored and the
    flow ends on the satisfaction question. *)
Theorem feedback_store_loses_text :
  (exists c data,
      (FeedbackSession.converse Sample.pleased "s-1" None Sample.fresh_db).1
      = Some (Submitted c data)
      /\ guest_email c
         = Some (serialize "Website usability" "⭐⭐⭐⭐⭐ Excellent (5/5)"
                   "DETAILS: the map view is great" (Some "Add a dark mode")
                   "No, thank you")
      /\ Forall (Py.lacks "|") (snd <$> Sample.pleased)
      /\ fd_details data = " the map view is great"
      /\ fd_details data <> "DETAILS: the map view is great")
  /\ (exists c,
        (FeedbackSession.converse Sample.lukewarm "s-1" None Sample.fresh_db).1
        = Some (SatisfactionQuestion c)
        /\ guest_email c = Some "CATEGORY:Website usability|RATING:⭐⭐⭐ Average (3/5)").
Proof.
  split.
  - do 2 eexists. split; [vm_compute; reflexivity |].
    split; [reflexivity |]. split; [| split; [reflexivity | discriminate]].
    repeat constructor.
  - eexists. split; [vm_compute; reflexivity | reflexivity].
Qed.

End FeedbackClaims.

(** ** The match score *)

Section ScoreClaims.

Import PropertyMatchingService ScoreAsStated.

Lemma lower_nonempty (s : string) :
  Py.truthy_str (Some s) = true -> exists x t, Py.lower s = String x t.
Proof. destruct s as [| x t]; [done |]. intros _. simpl. eauto. Qed.

(** With a non-empty needle the truthiness guard on the column changes
    nothing: an empty column has no non-empty substring. *)
Lemma mentions_within (attr : option string) (needle : string) :
  Py.truthy_str (Some needle) = true -> mentions attr needle = within needle attr.
Proof.
  intros (x & t & Hlow)%lower_nonempty.
  destruct attr as [[| y s] |]; simpl; [| done | done].
  by rewrite Hlow.
Qed.

Lemma budget_adds (p : Property) (c : Criteria) (a : Acc) :
  PropertyMatchingService.score (budget p c a)
  = PropertyMatchingService.score a + when (budget_present c) (budget_points p c)
  /\ max_score (budget p c a) = max_score a + when (budget_present c) 30.
Proof.
  unfold budget, budget_present, budget_points.
  destruct (budget_min c) as [lo |], (budget_max c) as [hi |]; simpl;
    try (destruct (negb _); simpl; lia); try lia.
  destruct (negb (Qeq_bool lo 0)), (negb (Qeq_bool hi 0)); simpl; try lia.
  destruct (Qle_bool lo (price p) && Qle_bool (price p) hi); simpl; [lia |].
  fold (with_tolerance hi).
  destruct (PyFloat.decimal_le (price p) (with_tolerance hi)); simpl; lia.
Qed.

Lemma location_adds (p : Property) (c : Criteria) (a : Acc) :
  PropertyMatchingService.score (location p c a)
  = PropertyMatchingService.score a + when (location_present c) (location_points p c)
  /\ max_score (location p c a) = max_score a + when (location_present c) 25.
Proof.
  unfold location, location_present, location_points.
  destruct (preferred_location c) as [loc |]; [| simpl; lia].
  destruct (Py.truthy_str (Some loc)) eqn:Hloc; [| simpl; lia].
  rewrite !mentions_within by done. unfold when.
  destruct (within loc (city p)); simpl; [lia |].
  destruct (within loc (state p)); simpl; lia.
Qed.

Lemma bedrooms_adds (p : Property) (c : Criteria) (a : Acc) :
  PropertyMatchingService.score (bedrooms_step p c a)
  = PropertyMatchingService.score a + when (bedrooms_present c) (bedroom_points p c)
  /\ max_score (bedrooms_step p c a) = max_score a + when (bedrooms_present c) 20.
Proof.
  unfold bedrooms_step, bedrooms_present, bedroom_points, at_least, one_short.
  destruct (bedrooms_required c) as [need |]; [| simpl; lia].
  destruct (Py.truthy_int (Some need)); [| simpl; lia]. unfold when.
  destruct (bedrooms p) as [n |]; simpl; [| lia].
  destruct (n =? 0); simpl; [lia |].
  destruct (need <=? n); simpl; [lia |].
  destruct (n =? need - 1); simpl; lia.
Qed.

Lemma bathrooms_adds (p : Property) (c : Criteria) (a : Acc) :
  PropertyMatchingService.score (bathrooms_step p c a)
  = PropertyMatchingService.score a + when (bathrooms_present c) (bathroom_points p c)
  /\ max_score (bathrooms_step p c a) = max_score a + when (bathrooms_present c) 15.
Proof.
  unfold bathrooms_step, bathrooms_present, bathroom_points, at_least.
  destruct (bathrooms_required c) as [need |]; [| simpl; lia].
  destruct (Py.truthy_int (Some need)); [| simpl; lia]. unfold when.
  destruct (bathrooms p) as [n |]; simpl; [| lia].
  destruct (negb (n =? 0) && (need <=? n)); simpl; lia.
Qed.

Lemma type_adds (p : Property) (c : Criteria) (a : Acc) :
  PropertyMatchingService.score (type_step p c a)
  = PropertyMatchingService.score a + when (type_present c) (type_points p c)
  /\ max_score (type_step p c a) = max_score a + when (type_present c) 10.
Proof.
  unfold type_step, type_present, type_points.
  destruct (property_type_preference c) as [pref |]; [| simpl; lia].
  destruct (Py.truthy_str (Some pref)) eqn:Hpref; [| simpl; lia].
  rewrite mentions_within by done. unfold when.
  destruct (within pref (Some (property_type p))); simpl; lia.
Qed.

(** The accumulators are the two sums: the score is linear in the
    per-criterion points. *)
Lemma tally_sums (p : Property) (c : Criteria) :
  PropertyMatchingService.score (tally p c) = earned_with budget_points bedroom_points p c
  /\ max_score (tally p c) = possible c.
Proof.
  unfold tally, earned_with, possible.
  set (a0 := {| PropertyMatchingService.score := 0; max_score := 0;
                match_reasons := [] |}).
  destruct (budget_adds p c a0) as [S1 M1].
  destruct (location_adds p c (budget p c a0)) as [S2 M2].
  destruct (bedrooms_adds p c (location p c (budget p c a0))) as [S3 M3].
  destruct (bathrooms_adds p c (bedrooms_step p c (location p c (budget p c a0))))
    as [S4 M4].
  destruct (type_adds p c
              (bathrooms_step p c (bedrooms_step p c (location p c (budget p c a0)))))
    as [S5 M5].
  rewrite S5, S4, S3, S2, S1, M5, M4, M3, M2, M1. subst a0. simpl. lia.
Qed.

Lemma when_bounds (present : bool) (points w : Z) :
  0 <= points <= w -> 0 <= when present points <= when present w.
Proof. unfold when. destruct present; lia. Qed.

Lemma points_bounds (p : Property) (c : Criteria) :
  0 <= budget_points p c <= 30
  /\ 0 <= location_points p c <= 25
  /\ 0 <= bedroom_points p c <= 20
  /\ 0 <= bathroom_points p c <= 15
  /\ 0 <= type_points p c <= 10.
Proof.
  unfold budget_points, location_points, bedroom_points, bathroom_points, type_points.
  repeat split;
    repeat match goal with
           | |- context [if ?b then _ else _] => destruct b
           | |- context [match ?o with Some _ => _ | None => _ end] => destruct o
           end; lia.
Qed.

Lemma earned_bounds (p : Property) (c : Criteria) :
  0 <= earned_with budget_points bedroom_points p c <= possible c.
Proof.
  destruct (points_bounds p c) as (Hb & Hl & Hbed & Hbath & Ht).
  unfold earned_with, possible.
  pose proof (when_bounds (budget_present c) _ _ Hb).
  pose proof (when_bounds (location_present c) _ _ Hl).
  pose proof (when_bounds (bedrooms_present c) _ _ Hbed).
  pose proof (when_bounds (bathrooms_present c) _ _ Hbath).
  pose proof (when_bounds (type_present c) _ _ Ht).
  lia.
Qed.

Lemma final_range (e m : Z) : 0 <= e <= m -> (0 <= final e m <= 100)%Q.
Proof.
  intros [He Hm]. unfold final.
  destruct (Z.ltb_spec 0 m) as [Hpos | _]; [| done].
  destruct m as [| m | m]; try lia.
  unfold Qle, Qdiv, Qmult, Qinv, inject_Z. simpl Qnum. simpl Qden. lia.
Qed.

(** C1, as amended.  For criteria whose upper budget bound is a number
    that [budget_max * 1.1] can turn into a float, the match score is a
    weighted linear score: the budget is worth 30 (30 within the bounds,
    else 20 up to the float product of the upper bound and 1.1), the
    location 25 (25 for a case-insensitive city substring match, else 15
    for a state match), the bedrooms 20 (for a property with a known,
    non-zero bedroom count: 20 with at least the required number, else
    10 with exactly one fewer), the bathrooms 15, the type 10; the
    result is (earned / sum of the weights of the criteria present) *
    100, it lies between 0 and 100, and it is 0 when no criterion is
    present. *)
Theorem match_score_is_weighted (p : Property) (c : Criteria) :
  float_budget c = true ->
  (calculate_property_match_score p c).1 = ScoreAsStated.score p c
  /\ (0 <= (calculate_property_match_score p c).1 <= 100)%Q
  /\ (possible c = 0 -> (calculate_property_match_score p c).1 = 0%Q).
Proof.
  intros _.
  destruct (tally_sums p c) as [Hs Hm].
  assert (Heq : (calculate_property_match_score p c).1 = ScoreAsStated.score p c).
  { unfold calculate_property_match_score, percentage, ScoreAsStated.score, final.
    simpl. by rewrite Hs, Hm. }
  split; [exact Heq |]. rewrite Heq. unfold ScoreAsStated.score. split.
  - apply final_range, earned_bounds.
  - intros ->. reflexivity.
Qed.

Lemma match_score_is_weighted_witness :
  float_budget (SampleListings.up_to (10004 # 10)) = true
  /\ (calculate_property_match_score (SampleListings.priced (110044 # 100))
        (SampleListings.up_to (10004 # 10))).1
     = ScoreAsStated.score (SampleListings.priced (110044 # 100))
         (SampleListings.up_to (10004 # 10)).
Proof.
  assert (Hfloat : float_budget (SampleListings.up_to (10004 # 10)) = true)
    by (vm_compute; reflexivity).
  split; [exact Hfloat |].
  exact (proj1 (match_score_is_weighted (SampleListings.priced (110044 # 100))
                  (SampleListings.up_to (10004 # 10)) Hfloat)).
Defined.

(** C1, as stated, fails: for a user who needs one bedroom, a studio (a
    property with 0 bedrooms) has exactly one fewer, yet it earns 0 of
    the 20 points and scores 0, not 50. *)
Lemma studio_is_not_one_short :
  ((calculate_property_match_score SampleListings.studio SampleListings.one_bedroom).1 == 0
   /\ score_as_stated SampleListings.studio SampleListings.one_bedroom == 50)
  /\ ~ ScoreAsStated.scores_as_stated.
Proof.
  split; [split; reflexivity |].
  intros Hclaim.
  specialize (Hclaim SampleListings.studio SampleListings.one_bedroom).
  vm_compute in Hclaim. discriminate Hclaim.
Qed.

(** The tenth above is the one of the floats, not the exact one.  With
    an upper bound of 1000.4 a price of 1100.44 earns the 20 points, and
    two thirds as a score, although it is more than 1.1 times the bound;
    with an upper bound of 1000.3 a price of 1100.33 earns nothing,
    although 1100.33 is 1.1 times 1000.3. *)
Lemma tolerance_is_the_float_product :
  (budget_points (SampleListings.priced (110044 # 100)) (SampleListings.up_to (10004 # 10)) = 20
   /\ budget_points_stated (SampleListings.priced (110044 # 100))
        (SampleListings.up_to (10004 # 10)) = 0
   /\ (calculate_property_match_score (SampleListings.priced (110044 # 100))
         (SampleListings.up_to (10004 # 10))).1 == 200 # 3)
  /\ (budget_points (SampleListings.priced (110033 # 100)) (SampleListings.up_to (10003 # 10)) = 0
      /\ (110033 # 100 == (10003 # 10) * (11 # 10))%Q
      /\ (calculate_property_match_score (SampleListings.priced (110033 # 100))
            (SampleListings.up_to (10003 # 10))).1 == 0).
Proof. by vm_compute. Qed.

(** The score as a float and the exact score pass the threshold of 30
    together: for every earned total of a positive maximum up to 100. *)
Lemma threshold_table :
  forallb (fun m =>
    forallb (fun e =>
      let a := {| PropertyMatchingService.score := e; max_score := m;
                  match_reasons := [] |} in
      eqb (PyFloat.decimal_le 30 (float_percentage a)) (Qle_bool 30 (percentage a)))
      (seqZ 0 (m + 1)))
    (seqZ 1 100) = true.
Proof. by vm_compute. Qed.

Lemma possible_bounds (c : Criteria) : 0 <= possible c <= 100.
Proof.
  unfold possible, when.
  destruct (budget_present c), (location_present c), (bedrooms_present c),
    (bathrooms_present c), (type_present c); lia.
Qed.

Lemma float_score_passes_alike (p : Property) (c : Criteria) :
  PyFloat.decimal_le 30 (float_percentage (tally p c))
  = Qle_bool 30 (percentage (tally p c)).
Proof.
  destruct (tally_sums p c) as [Hs Hm].
  pose proof (earned_bounds p c) as He. pose proof (possible_bounds c) as Hp.
  unfold float_percentage, percentage. rewrite Hs, Hm.
  destruct (Z.ltb_spec 0 (possible c)) as [Hpos | _]; [| reflexivity].
  pose proof threshold_table as Htable.
  rewrite forallb_forall in Htable.
  specialize (Htable (possible c)). rewrite <- list_elem_of_In, elem_of_seqZ in Htable.
  specialize (Htable ltac:(lia)). rewrite forallb_forall in Htable.
  specialize (Htable (earned_with budget_points bedroom_points p c)).
  rewrite <- list_elem_of_In, elem_of_seqZ in Htable.
  specialize (Htable ltac:(lia)). apply eqb_prop in Htable.
  unfold float_percentage, percentage in Htable. cbn [max_score PropertyMatchingService.score] in Htable.
  destruct (Z.ltb_spec 0 (possible c)); [exact Htable | lia].
Qed.

(** The floats of the samples: 1.1, 1000.3 and their product, as Python
    holds them; 2000 is a float, and 1.1 times it is 2200. *)
Lemma sample_floats :
  PyFloat.round (11 # 10) = PyFloat.Finite (2476979795053773 # 2251799813685248)
  /\ PyFloat.round (10003 # 10) = PyFloat.Finite (4399365925057331 # 4398046511104)
  /\ with_tolerance (PyFloat.literal (10003 # 10))
     = PyFloat.Finite (604912814695383 # 549755813888)
  /\ PyFloat.round 2000 = PyFloat.Finite 2000
  /\ with_tolerance 2000 = PyFloat.Finite 2200.
Proof. by vm_compute. Qed.

(** A falsy criterion leaves the accumulators alone. *)
Lemma budget_absent (p : Property) (c : Criteria) (a : Acc) :
  budget_present c = false -> budget p c a = a.
Proof.
  unfold budget_present, budget.
  destruct (budget_min c) as [lo |], (budget_max c) as [hi |]; try done.
  by intros ->.
Qed.

Lemma bedrooms_absent (p : Property) (c : Criteria) (a : Acc) :
  bedrooms_present c = false -> bedrooms_step p c a = a.
Proof.
  unfold bedrooms_present, bedrooms_step.
  destruct (bedrooms_required c) as [need |]; [| done]. by intros ->.
Qed.

Lemma zero_is_falsy (q : Q) : q == 0 -> Py.truthy_num (Some q) = false.
Proof. intros Hq. unfold Py.truthy_num. by rewrite (proj2 (Qeq_bool_iff q 0) Hq). Qed.

(** C10.  A budget whose lower (or upper) bound is 0 adds nothing to the
    earned points nor to the maximum, and neither does a requirement of
    0 bedrooms: the score is the one of the criteria without that
    criterion. *)
Theorem zero_criteria_are_skipped (p : Property) (c : Criteria) :
  ((exists lo, budget_min c = Some lo /\ lo == 0)
   \/ (exists hi, budget_max c = Some hi /\ hi == 0) ->
   (forall a, budget p c a = a)
   /\ calculate_property_match_score p c
      = calculate_property_match_score p (without_budget c))
  /\ (bedrooms_required c = Some 0 ->
      (forall a, bedrooms_step p c a = a)
      /\ calculate_property_match_score p c
         = calculate_property_match_score p (without_bedrooms c)).
Proof.
  split.
  - intros Hzero.
    assert (Habsent : budget_present c = false).
    { unfold budget_present.
      destruct Hzero as [(lo & -> & Hlo) | (hi & -> & Hhi)].
      - by rewrite zero_is_falsy.
      - rewrite (zero_is_falsy hi) by done. apply andb_false_r. }
    split; [intros a; by apply budget_absent |].
    unfold calculate_property_match_score, tally.
    rewrite (budget_absent p c) by done.
    rewrite (budget_absent p (without_budget c)) by done.
    reflexivity.
  - intros Hzero.
    assert (Habsent : bedrooms_present c = false).
    { unfold bedrooms_present. by rewrite Hzero. }
    split; [intros a; by apply bedrooms_absent |].
    unfold calculate_property_match_score, tally.
    rewrite (bedrooms_absent p c) by done.
    rewrite (bedrooms_absent p (without_bedrooms c)) by done.
    reflexivity.
Qed.

Lemma zero_criteria_are_skipped_witness :
  (budget_min SampleListings.from_zero = Some 0%Q
   /\ bedrooms_required SampleListings.from_zero = Some 0)
  /\ calculate_property_match_score SampleListings.studio SampleListings.from_zero
     = calculate_property_match_score SampleListings.studio
         (without_budget SampleListings.from_zero)
  /\ calculate_property_match_score SampleListings.studio SampleListings.from_zero
     = calculate_property_match_score SampleListings.studio
         (without_bedrooms SampleListings.from_zero).
Proof.
  pose proof (zero_criteria_are_skipped SampleListings.studio SampleListings.from_zero)
    as [Hbudget Hbedrooms].
  split; [split; reflexivity |]. split.
  - apply Hbudget. left. exists 0%Q. split; reflexivity.
  - apply Hbedrooms. reflexivity.
Defined.

End ScoreClaims.

(** ** The ranked matches *)

Section RankingClaims.

Import PropertyMatchingService ScoreAsStated.

Lemma round_half_even_floor (x : Q) : Qfloor x <= round_half_even x.
Proof.
  unfold round_half_even.
  destruct (Qcompare _ _); [destruct (Z.even _) | |]; lia.
Qed.

(** Rounding to a tenth does not take a score below the threshold. *)
Lemma round1_decent (x : Q) : (30 <= x)%Q -> (30 <= round1 x)%Q.
Proof.
  intros Hx. unfold round1.
  assert (Hfloor : 300 <= Qfloor (x * 10)).
  { change 300 with (Qfloor (30 * 10)). apply Qfloor_resp_le.
    by apply Qmult_le_compat_r. }
  pose proof (round_half_even_floor (x * 10)) as Hround.
  assert (Hr : 300 <= round_half_even (x * 10)) by lia.
  revert Hr. generalize (round_half_even (x * 10)). intros r Hr.
  unfold Qle, Qdiv, Qmult, Qinv, inject_Z. simpl Qnum. simpl Qden. lia.
Qed.

Lemma entry_decent (p : Property) (media : list PropertyMedia) (c : Criteria) (m : Match) :
  entry p media c = Some m -> decent m.
Proof.
  unfold entry, decent.
  destruct (calculate_property_match_score p c) as [score reasons].
  destruct (Qle_bool 30 score) eqn:Hscore; [| done].
  intros [= <-]. simpl. by apply round1_decent, Qle_bool_iff.
Qed.

Lemma insert_desc_Forall (P : Match -> Prop) (x : Match) (l : list Match) :
  Forall P (insert_desc x l) <-> P x /\ Forall P l.
Proof.
  induction l as [| y r IH]; simpl.
  - rewrite Forall_singleton. split; [intros ?; split; [done | constructor] | by intros [? _]].
  - destruct (Qle_bool (match_score y) (match_score x)).
    + by rewrite !Forall_cons.
    + rewrite !Forall_cons, IH. tauto.
Qed.

Lemma sort_desc_Forall (P : Match -> Prop) (l : list Match) :
  Forall P (sort_desc l) <-> Forall P l.
Proof.
  unfold sort_desc. induction l as [| x l IH]; simpl; [done |].
  by rewrite insert_desc_Forall, Forall_cons, IH.
Qed.

Lemma insert_desc_sorted (x : Match) (l : list Match) :
  StronglySorted above l -> StronglySorted above (insert_desc x l).
Proof.
  induction l as [| y r IH]; simpl; intros Hl.
  - by repeat constructor.
  - apply StronglySorted_cons in Hl as [Hy Hr].
    destruct (Qle_bool (match_score y) (match_score x)) eqn:Hyx.
    + apply Qle_bool_iff in Hyx.
      apply StronglySorted_cons. split; [| by apply StronglySorted_cons].
      constructor; [done |].
      eapply Forall_impl; [exact Hy |]. intros z Hz. unfold above in *.
      by apply Qle_trans with (match_score y).
    + apply StronglySorted_cons. split; [| by apply IH].
      apply insert_desc_Forall. split; [| done]. unfold above.
      apply Qlt_le_weak, Qnot_le_lt. intros Hle.
      apply Qle_bool_iff in Hle. congruence.
Qed.

Lemma sort_desc_sorted (l : list Match) : StronglySorted above (sort_desc l).
Proof.
  unfold sort_desc. induction l as [| x l IH]; simpl; [constructor |].
  by apply insert_desc_sorted.
Qed.

Lemma take_sorted (n : nat) (l : list Match) :
  StronglySorted above l -> StronglySorted above (take n l).
Proof.
  intros Hl. rewrite <- (take_drop n l) in Hl.
  by apply StronglySorted_app_1_l in Hl.
Qed.

(** A Python slice [l[:n]] is a prefix of [l]. *)
Lemma py_take_prefix {A} (l : list A) (n : Z) : exists k, Py.take l n = take k l.
Proof. unfold Py.take. destruct (n <? 0); eauto. Qed.

Lemma py_take_length {A} (l : list A) (n : Z) :
  0 <= n -> Z.of_nat (length (Py.take l n)) <= n.
Proof.
  intros Hn. unfold Py.take.
  destruct (Z.ltb_spec n 0) as [Hneg | _]; [lia |].
  rewrite length_take. lia.
Qed.

(** C6.  Whatever rows the query gives back, and also when it raises,
    [find_matching_properties] returns at most [limit] entries (for a
    limit that is a count, so not negative), highest match score first,
    each with a match score of at least 30. *)
Theorem find_matching_properties_ranked
    (fetch : Query -> Py.result (list (Property * list PropertyMedia)))
    (c : Criteria) (limit : Z) :
  0 <= limit ->
  Z.of_nat (length (find_matching_properties fetch c limit)) <= limit
  /\ StronglySorted above (find_matching_properties fetch c limit)
  /\ Forall decent (find_matching_properties fetch c limit).
Proof.
  intros Hlimit. unfold find_matching_properties.
  destruct (fetch (build_query c limit)) as [rows | e].
  2:{ simpl. split; [lia |]. split; constructor. }
  split; [by apply py_take_length |].
  destruct (py_take_prefix (sort_desc (omap (fun pm => entry pm.1 pm.2 c) rows)) limit)
    as [k ->].
  split.
  - apply take_sorted, sort_desc_sorted.
  - apply Forall_take, sort_desc_Forall, Forall_forall.
    intros m ([p media] & _ & Hentry)%list_elem_of_omap.
    by eapply entry_decent.
Qed.

Lemma find_matching_properties_ranked_witness :
  0 <= default_limit
  /\ Z.of_nat (length (find_matching_properties SampleListings.all_rows
                         SampleListings.in_pune default_limit)) <= default_limit
  /\ StronglySorted above
       (find_matching_properties SampleListings.all_rows SampleListings.in_pune
          default_limit)
  /\ Forall decent
       (find_matching_properties SampleListings.all_rows SampleListings.in_pune
          default_limit).
Proof.
  assert (Hlimit : 0 <= default_limit) by (unfold default_limit; lia).
  split; [exact Hlimit |].
  exact (find_matching_properties_ranked SampleListings.all_rows SampleListings.in_pune
           default_limit Hlimit).
Defined.

(** The sample query ranks the flat (score 100) above the studio (60)
    and leaves the villa out. *)
Example sample_ranking :
  (fun m => (m_property_id m, match_score m))
    <$> find_matching_properties SampleListings.all_rows SampleListings.in_pune 10
  = [ (502%N, 100.0%Q); (501%N, 60.0%Q) ].
Proof. reflexivity. Qed.

End RankingClaims.

(** ** Deleting a property *)

Section PropertyClaims.

Import PropertyController.

Variable UUID : string -> option N.

Lemma media_of_other (l : list PropertyMedia) (gone k : N) :
  gone <> k ->
  filter (fun m => property m = k) (filter (fun m => property m ≠ gone) l)
  = filter (fun m => property m = k) l.
Proof.
  intros Hne. induction l as [| m l IH]; [done |].
  rewrite (filter_cons (fun m => property m = k) m l).
  rewrite (filter_cons (fun m => property m ≠ gone) m l).
  destruct (decide (property m ≠ gone)) as [Hkeep | Hgone].
  - rewrite filter_cons, IH. done.
  - rewrite IH. destruct (decide (property m = k)) as [Hk | _]; [| done].
    exfalso. apply Hgone. congruence.
Qed.

(** Deleting also removes the media of the property (the cascade). *)
Lemma delete_property_cascades (property_id : string) (db db' : PropertyDB) (k : N) :
  delete_property UUID property_id db = (Deleted, db') ->
  UUID property_id = Some k ->
  media_of db' k = [].
Proof.
  unfold delete_property. intros Hdel Hk. rewrite Hk in Hdel.
  destruct (properties db !! k); [| done]. injection Hdel as <-.
  unfold media_of. simpl. induction (media db) as [| m l IH]; [done |].
  rewrite (filter_cons (fun m => property m ≠ k) m l).
  destruct (decide (property m ≠ k)) as [Hkeep | Hgone]; [| exact IH].
  rewrite filter_cons. by destruct (decide (property m = k)).
Qed.

(** C7.  After [delete_property] has succeeded for an id,
    [get_property_by_id] on that id raises 404, and every property row
    with another key, and the media rows of that property, are as before. *)
Theorem delete_property_removes (property_id : string) (db db' : PropertyDB) :
  delete_property UUID property_id db = (Deleted, db') ->
  get_property_by_id UUID property_id db' = HTTPException 404 "Property not found"
  /\ (forall k,
        UUID property_id <> Some k ->
        properties db' !! k = properties db !! k
        /\ media_of db' k = media_of db k).
Proof.
  unfold delete_property, get_property_by_id.
  destruct (UUID property_id) as [gone |] eqn:Hid; [| done].
  destruct (properties db !! gone) as [row |] eqn:Hrow; [| done].
  intros [= <-]. simpl. split.
  - by rewrite lookup_delete_eq.
  - intros k Hk. assert (gone <> k) by congruence. split.
    + by apply lookup_delete_ne.
    + unfold media_of. simpl. by apply media_of_other.
Qed.

End PropertyClaims.

Section PropertySample.

Import PropertyController SampleListings.

Lemma delete_property_removes_witness :
  let db' := (delete_property sample_uuid flat_id listings).2 in
  delete_property sample_uuid flat_id listings = (Deleted, db')
  /\ get_property_by_id sample_uuid flat_id db' = HTTPException 404 "Property not found"
  /\ sample_uuid flat_id <> Some 503%N
  /\ properties db' !! 503%N = Some villa
  /\ media_of db' 503%N = [villa_photo].
Proof.
  intros db'.
  assert (Hdel : delete_property sample_uuid flat_id listings = (Deleted, db'))
    by reflexivity.
  assert (Hother : sample_uuid flat_id <> Some 503%N) by (vm_compute; discriminate).
  pose proof (delete_property_removes sample_uuid flat_id listings db' Hdel)
    as [Hgone Hframe].
  destruct (Hframe 503%N Hother) as [Hrow Hmedia].
  split; [exact Hdel |]. split; [exact Hgone |]. split; [exact Hother |].
  split; [rewrite Hrow | rewrite Hmedia]; reflexivity.
Defined.

End PropertySample.

(** * Further properties of the code *)

(** ** The feedback flow *)

Section FeedbackFurther.

Import ChatbotFeedbackController MainChatbotController.

(** X1.  The answers of a feedback session are read back: the five handlers,
    run in the order of the flow (the suggestions handler only when that
    question was asked), store a text from which [_complete_feedback]
    reads every answer as it was given, for answers without a bar and
    without their own label whose stored text fits the 255 characters
    of the column. *)
Theorem feedback_answers_are_read_back
    (e1 e2 e3 e4 e5 : Env) (c0 : ChatbotConversation) (db0 : ChatDB)
    (cat rat det fol : string) (sug : option string) :
  Py.lacks "|" cat -> Py.lacks "|" rat -> Py.lacks "|" det ->
  Py.lacks "|" (default EmptyString sug) -> Py.lacks "|" fol ->
  Py.contains "CATEGORY:" cat = false ->
  Py.contains "RATING:" rat = false ->
  Py.contains "DETAILS:" det = false ->
  Py.contains "SUGGESTIONS:" (default EmptyString sug) = false ->
  Py.contains "FOLLOWUP:" fol = false ->
  PyText.fits 255 (Some (serialize cat rat det sug fol)) = true ->
  let r1 := _handle_feedback_category_selection e1 c0 cat db0 in
  let r2 := _handle_rating_selection e2 (conversation_of r1.1) rat r1.2 in
  let r3 := _handle_detailed_feedback e3 (conversation_of r2.1) det r2.2 in
  let r4 := match sug with
            | Some s => _handle_improvement_suggestions e4 (conversation_of r3.1) s r3.2
            | None => r3
            end in
  let r5 := _handle_followup_preference e5 (conversation_of r4.1) fol r4.2 in
  guest_email (conversation_of r5.1) = Some (serialize cat rat det sug fol)
  /\ parse_stored (stored_data (conversation_of r5.1))
     = {| category := cat; rating := rat; details := det;
          suggestions := default EmptyString sug; followup := fol |}.
Proof.
  intros Hcat Hrat Hdet Hsug Hfol Lcat Lrat Ldet Lsug Lfol _ r1 r2 r3 r4 r5.
  assert (Hstored : guest_email (conversation_of r5.1)
                    = Some (serialize cat rat det sug fol)).
  { destruct sug as [s |].
    - exact (proj1 (handlers_store e1 e2 e3 e4 e5 c0 db0 cat rat det s fol)).
    - exact (proj2 (handlers_store e1 e2 e3 e4 e5 c0 db0 cat rat det EmptyString fol)). }
  split; [exact Hstored |].
  rewrite (stored_data_of _ _ Hstored). by apply feedback_round_trip.
Qed.

Lemma feedback_answers_are_read_back_witness :
  let answers := serialize "Website usability" "Good (4/5)" "Search is fast"
                   (Some "Add a dark mode") "No, thank you" in
  PyText.fits 255 (Some answers) = true
  /\ exists c data,
       (FeedbackSession.converse
          [ (Sample.at_tick 1, "Give feedback"); (Sample.at_tick 2, "Website usability");
            (Sample.at_tick 3, "Good (4/5)"); (Sample.at_tick 4, "Search is fast");
            (Sample.at_tick 5, "Add a dark mode"); (Sample.at_tick 6, "No, thank you") ]
          "s-1" None Sample.fresh_db).1 = Some (Submitted c data)
       /\ guest_email c = Some answers
       /\ parse_stored (stored_data c)
          = {| category := "Website usability"; rating := "Good (4/5)";
               details := "Search is fast"; suggestions := "Add a dark mode";
               followup := "No, thank you" |}.
Proof.
  intros answers. split; [reflexivity |].
  pose proof (feedback_answers_are_read_back
                (Sample.at_tick 2) (Sample.at_tick 3) (Sample.at_tick 4)
                (Sample.at_tick 5) (Sample.at_tick 6)
                Sample.fresh_conversation Sample.fresh_db
                "Website usability" "Good (4/5)" "Search is fast" "No, thank you"
                (Some "Add a dark mode")
                eq_refl eq_refl eq_refl eq_refl eq_refl
                eq_refl eq_refl eq_refl eq_refl eq_refl eq_refl) as Hback.
  do 2 eexists. split; [vm_compute; reflexivity |]. split; [reflexivity |].
  exact (proj2 Hback).
Defined.

(** X2.  After the details answer the suggestions question is asked exactly
    for a stored rating that reads 4 or 5; otherwise the follow-up
    question comes next.  Either way the answer is appended to the stored
    text behind its label (a text that fits the column). *)
Theorem suggestions_follow_high_ratings
    (env : Env) (c : ChatbotConversation) (cat rat det : string) (db : ChatDB) :
  let stored := ("CATEGORY:" ++ cat) ++ "|RATING:" ++ rat in
  guest_email c = Some stored ->
  Py.lacks "|" cat -> Py.lacks "|" rat ->
  PyText.fits 255 (Some (stored ++ "|DETAILS:" ++ det)) = true ->
  exists c',
    (_handle_detailed_feedback env c det db).1
    = Asked c' (if 4 <=? rating_value rat
                then "Any suggestions for improvement or new features you'd like to see?"
                else "Would you like us to follow up with you about your feedback?")
    /\ guest_email c' = Some (stored ++ "|DETAILS:" ++ det)
    /\ current_step c' = current_step c + 1.
Proof.
  intros stored Hc Hcat Hrat _. unfold _handle_detailed_feedback.
  rewrite (stored_data_of _ _ Hc). subst stored. rewrite stored_rating by done.
  destruct (4 <=? rating_value rat); eexists; (split; [reflexivity |]); by split.
Qed.

Lemma suggestions_follow_high_ratings_witness :
  let c := set_guest_email
             (Some (("CATEGORY:" ++ "Website usability") ++ "|RATING:" ++ "Poor (2/5)"))
             Sample.fresh_conversation in
  (Py.lacks "|" "Website usability" /\ Py.lacks "|" "Poor (2/5)")
  /\ exists c',
      (_handle_detailed_feedback Sample.env c "Search is slow" Sample.fresh_db).1
      = Asked c' "Would you like us to follow up with you about your feedback?"
      /\ guest_email c'
         = Some ((("CATEGORY:" ++ "Website usability") ++ "|RATING:" ++ "Poor (2/5)")
                 ++ "|DETAILS:" ++ "Search is slow")
      /\ current_step c' = current_step c + 1.
Proof.
  intros c. split; [split; reflexivity |].
  exact (suggestions_follow_high_ratings Sample.env c "Website usability" "Poor (2/5)"
           "Search is slow" Sample.fresh_db eq_refl eq_refl eq_refl eq_refl).
Defined.

(** Whatever its status, a conversation that is on file under its session
    id and is not active is refused. *)
Lemma inactive_is_refused (env : Env) (sid response : string) (db : ChatDB)
      (c : ChatbotConversation) :
  conversations db !! sid = Some c -> status c <> ACTIVE ->
  handle_chat_response env sid response db
  = (HTTPException 400 "Conversation is not active", db).
Proof.
  intros Hc Hstatus. unfold handle_chat_response, Orm.get_conversation.
  rewrite Hc. by rewrite bool_decide_eq_false_2.
Qed.

(** A row that differs in no text column but [guest_name], which fits. *)
Lemma columns_fit_with (c c' : ChatbotConversation) :
  session_id c' = session_id c -> guest_email c' = guest_email c ->
  user_ip c' = user_ip c -> PyText.fits 255 (guest_name c') = true ->
  columns_fit c = true -> columns_fit c' = true.
Proof.
  unfold columns_fit. intros -> -> -> -> Hfit.
  by apply andb_prop in Hfit as [[[-> ->]%andb_prop _]%andb_prop ->].
Qed.

(** X3.  Submitting the feedback closes the conversation.  For a
    conversation whose columns are within their lengths, and an email
    (when one is given) of at most 255 characters: the row is saved as
    completed at the time of the request, with the email in
    [guest_name], the stored text and the messages are left as they
    were, the saved row is within the lengths again, and every later
    chat response on the session is refused with 400 and changes
    nothing. *)
Theorem feedback_completion_closes
    (env : Env) (c : ChatbotConversation) (email : option string) (db : ChatDB) :
  columns_fit c = true ->
  PyText.fits 255 email = true ->
  let r := _complete_feedback env c email db in
  conversations r.2 !! session_id c = Some (conversation_of r.1)
  /\ status (conversation_of r.1) = COMPLETED
  /\ completed_at (conversation_of r.1) = Some (now env)
  /\ guest_name (conversation_of r.1)
     = (if Py.truthy_str email then email else guest_name c)
  /\ guest_email (conversation_of r.1) = guest_email c
  /\ current_step (conversation_of r.1) = current_step c
  /\ messages r.2 = messages db
  /\ columns_fit (conversation_of r.1) = true
  /\ (forall env' response,
         handle_chat_response env' (session_id c) response r.2
         = (HTTPException 400 "Conversation is not active", r.2)).
Proof.
  intros Hfit Hemail r.
  assert (Hrow : conversations r.2 !! session_id c = Some (conversation_of r.1)).
  { subst r. unfold _complete_feedback. simpl. by rewrite lookup_insert_eq. }
  assert (Hsaved : columns_fit (conversation_of r.1) = true).
  { apply (columns_fit_with c); [reflexivity | reflexivity | reflexivity | | exact Hfit].
    change (PyText.fits 255 (if Py.truthy_str email then email else guest_name c) = true).
    destruct (Py.truthy_str email); [exact Hemail |].
    unfold columns_fit in Hfit.
    by apply andb_prop in Hfit as [[_ Hname]%andb_prop _]. }
  repeat split; try done.
  intros env' response. by apply (inactive_is_refused _ _ _ _ _ Hrow).
Qed.

Lemma feedback_completion_closes_witness :
  let r := _complete_feedback Sample.env Sample.fresh_conversation
             (Some "ana@example.com") Sample.fresh_db in
  status (conversation_of r.1) = COMPLETED
  /\ guest_name (conversation_of r.1) = Some "ana@example.com"
  /\ handle_chat_response (Sample.at_tick 1) "s-1" "Hello?" r.2
     = (HTTPException 400 "Conversation is not active", r.2).
Proof.
  intros r.
  pose proof (feedback_completion_closes Sample.env Sample.fresh_conversation
                (Some "ana@example.com") Sample.fresh_db eq_refl eq_refl) as Hcloses.
  cbv zeta in Hcloses. fold r in Hcloses.
  destruct Hcloses as (_ & Hstatus & _ & Hname & _ & _ & _ & _ & Hlater).
  split; [exact Hstatus |]. split; [exact Hname |].
  exact (Hlater (Sample.at_tick 1) "Hello?").
Defined.

End FeedbackFurther.

(** ** The match score and its reasons *)

Section ScoreFurther.

Import PropertyMatchingService ScoreAsStated ScoringSteps.

Lemma budget_step_of (p : Property) (c : Criteria) (a : Acc) : step_of a (budget p c a).
Proof.
  unfold budget.
  destruct (budget_min c) as [lo |], (budget_max c) as [hi |]; try constructor.
  destruct (Py.truthy_num (Some lo) && Py.truthy_num (Some hi)); [| constructor].
  destruct (Qle_bool lo (price p) && Qle_bool (price p) hi); [by constructor |].
  destruct (PyFloat.decimal_le (price p) (with_tolerance hi)); by constructor.
Qed.

Lemma location_step_of (p : Property) (c : Criteria) (a : Acc) : step_of a (location p c a).
Proof.
  unfold location. destruct (preferred_location c) as [loc |]; [| constructor].
  destruct (Py.truthy_str (Some loc)); [| constructor].
  destruct (mentions (city p) loc); [by constructor |].
  destruct (mentions (state p) loc); by constructor.
Qed.

Lemma bedrooms_step_of (p : Property) (c : Criteria) (a : Acc) :
  step_of a (bedrooms_step p c a).
Proof.
  unfold bedrooms_step. destruct (bedrooms_required c) as [need |]; [| constructor].
  destruct (Py.truthy_int (Some need)); [| constructor].
  destruct (at_least (bedrooms p) need); [by constructor |].
  destruct (one_short (bedrooms p) need); by constructor.
Qed.

Lemma bathrooms_step_of (p : Property) (c : Criteria) (a : Acc) :
  step_of a (bathrooms_step p c a).
Proof.
  unfold bathrooms_step. destruct (bathrooms_required c) as [need |]; [| constructor].
  destruct (Py.truthy_int (Some need)); [| constructor].
  destruct (at_least (bathrooms p) need); by constructor.
Qed.

Lemma type_step_of (p : Property) (c : Criteria) (a : Acc) : step_of a (type_step p c a).
Proof.
  unfold type_step. destruct (property_type_preference c) as [pref |]; [| constructor].
  destruct (Py.truthy_str (Some pref)); [| constructor].
  destruct (mentions (Some (property_type p)) pref); by constructor.
Qed.

Lemma step_of_tallied (n : nat) (a a' : Acc) :
  step_of a a' -> tallied n a -> tallied (S n) a'.
Proof.
  intros Hstep (Hpos & Hiff & Hlen). destruct Hstep as [| w | w e reason He].
  - split; [done |]. split; [done | lia].
  - split; [done |]. split; [done | simpl; lia].
  - unfold tallied. simpl. rewrite length_app. simpl. split; [lia |]. split; [| lia].
    split; [| lia]. intros _ Hnil. by apply app_eq_nil in Hnil as [_ ?].
Qed.

Lemma tally_tallied (p : Property) (c : Criteria) : tallied 5 (tally p c).
Proof.
  unfold tally.
  repeat (eapply step_of_tallied;
          [first [apply type_step_of | apply bathrooms_step_of | apply bedrooms_step_of
                 | apply location_step_of | apply budget_step_of] |]).
  split; [done |]. split; [| simpl; lia]. simpl. split; [lia | done].
Qed.

Lemma final_positive (e m : Z) : 0 <= e <= m -> ((0 < final e m)%Q <-> 0 < e).
Proof.
  intros [He Hm]. unfold final.
  destruct (Z.ltb_spec 0 m) as [Hpos | Hzero].
  - destruct m as [| m | m]; try lia.
    unfold Qlt, Qdiv, Qmult, Qinv, inject_Z. simpl Qnum. simpl Qden. lia.
  - unfold Qlt. simpl. lia.
Qed.

(** X4.  The score is positive exactly when [calculate_property_match_score]
    gives at least one reason with it, and it never gives more than five
    reasons: one per criterion that earned points. *)
Theorem reasons_come_with_points (p : Property) (c : Criteria) :
  ((0 < (calculate_property_match_score p c).1)%Q
   <-> (calculate_property_match_score p c).2 <> [])
  /\ (length (calculate_property_match_score p c).2 <= 5)%nat.
Proof.
  destruct (tally_tallied p c) as (_ & Hiff & Hlen).
  destruct (tally_sums p c) as [Hs Hm].
  pose proof (earned_bounds p c) as Hbounds.
  unfold calculate_property_match_score. simpl. split; [| done].
  rewrite <- Hiff. unfold percentage.
  change (if 0 <? max_score (tally p c)
          then inject_Z (PropertyMatchingService.score (tally p c))
               / inject_Z (max_score (tally p c)) * 100
          else 0)%Q
    with (final (PropertyMatchingService.score (tally p c)) (max_score (tally p c))).
  apply final_positive. rewrite Hs, Hm. done.
Qed.

End ScoreFurther.

(** ** Which matches are returned *)

Section RankingFurther.

Import PropertyMatchingService ScoreAsStated.

Lemma insert_desc_perm (x : Match) (l : list Match) : insert_desc x l ≡ₚ x :: l.
Proof.
  induction l as [| y r IH]; simpl; [done |].
  destruct (Qle_bool (match_score y) (match_score x)); [done |].
  rewrite IH. apply Permutation_swap.
Qed.

(** Sorting loses and adds nothing. *)
Lemma sort_desc_perm (l : list Match) : sort_desc l ≡ₚ l.
Proof.
  unfold sort_desc. induction l as [| x l IH]; simpl; [done |].
  by rewrite insert_desc_perm, IH.
Qed.

Lemma omap_length_le {A B} (f : A -> option B) (l : list A) :
  (length (omap f l) <= length l)%nat.
Proof.
  induction l as [| x l IH]; csimpl; [done |]. destruct (f x); simpl; lia.
Qed.

(** X5.  The entries returned are the best of the fetched rows that score 30 or
    more: together with the entries left out they are exactly the decent
    entries of the rows, no entry left out has a higher score than one
    returned, and nothing is left out when the limit is at least the number
    of rows. *)
Theorem best_matches_are_returned
    (fetch : Query -> Py.result (list (Property * list PropertyMedia)))
    (c : Criteria) (limit : Z) (rows : list (Property * list PropertyMedia)) :
  fetch (build_query c limit) = Py.Returns rows ->
  exists rest,
    (find_matching_properties fetch c limit ++ rest)%list
      ≡ₚ omap (fun pm => entry pm.1 pm.2 c) rows
    /\ (forall x y, x ∈ find_matching_properties fetch c limit -> y ∈ rest -> above x y)
    /\ (Z.of_nat (length rows) <= limit -> rest = []).
Proof.
  intros Hrows. unfold find_matching_properties. rewrite Hrows.
  set (entries := omap (fun pm => entry pm.1 pm.2 c) rows).
  destruct (py_take_prefix (sort_desc entries) limit) as [k Hk].
  exists (drop k (sort_desc entries)). rewrite Hk. split; [| split].
  - by rewrite take_drop, sort_desc_perm.
  - intros x y Hx Hy.
    eapply (StronglySorted_app_1_elem_of above); [| exact Hx | exact Hy].
    rewrite take_drop. apply sort_desc_sorted.
  - intros Hroom.
    assert (Hlen : (length (sort_desc entries) <= length rows)%nat).
    { rewrite (Permutation_length (sort_desc_perm entries)). apply omap_length_le. }
    assert (Hall : Py.take (sort_desc entries) limit = sort_desc entries).
    { unfold Py.take. destruct (Z.ltb_spec limit 0) as [Hneg | _]; [lia |].
      apply take_ge. lia. }
    rewrite Hk in Hall.
    apply (f_equal length) in Hall. rewrite length_take in Hall.
    apply drop_ge. lia.
Qed.

Lemma best_matches_are_returned_witness :
  SampleListings.all_rows (build_query SampleListings.in_pune 1)
  = Py.Returns [ (SampleListings.studio, []);
                 (SampleListings.flat, [SampleListings.cover]);
                 (SampleListings.villa, []) ]
  /\ exists rest,
      (find_matching_properties SampleListings.all_rows SampleListings.in_pune 1 ++ rest)%list
        ≡ₚ omap (fun pm => entry pm.1 pm.2 SampleListings.in_pune)
             [ (SampleListings.studio, []);
               (SampleListings.flat, [SampleListings.cover]);
               (SampleListings.villa, []) ]
      /\ (forall x y,
             x ∈ find_matching_properties SampleListings.all_rows SampleListings.in_pune 1 ->
             y ∈ rest -> above x y)
      /\ (Z.of_nat (length [ (SampleListings.studio, @nil PropertyMedia);
                             (SampleListings.flat, [SampleListings.cover]);
                             (SampleListings.villa, []) ]) <= 1 -> rest = []).
Proof.
  split; [reflexivity |].
  exact (best_matches_are_returned SampleListings.all_rows SampleListings.in_pune 1 _
           eq_refl).
Defined.

Lemma round_half_even_ceiling (x : Q) (n : Z) :
  (x <= inject_Z n)%Q -> round_half_even x <= n.
Proof.
  intros Hx. unfold round_half_even.
  assert (Hfloor : Qfloor x <= n).
  { rewrite <- (Qfloor_Z n). by apply Qfloor_resp_le. }
  destruct (Z.eq_dec (Qfloor x) n) as [Heq | Hne].
  - assert (Hfrac : (x - inject_Z (Qfloor x) < 1 # 2)%Q).
    { rewrite Heq. clear Heq Hfloor. destruct x as [a b].
      unfold Qle in Hx. unfold Qlt, Qminus, Qplus, Qopp, inject_Z.
      simpl in *. lia. }
    assert (Hlt : Qcompare (x - inject_Z (Qfloor x)) (1 # 2) = Lt)
      by (by apply Qlt_alt).
    rewrite Hlt. lia.
  - destruct (Qcompare _ _); [destruct (Z.even _) | |]; lia.
Qed.

(** X6.  Every returned match score is a whole number of tenths, from 30.0 up
    to 100.0. *)
Theorem match_scores_are_tenths
    (fetch : Query -> Py.result (list (Property * list PropertyMedia)))
    (c : Criteria) (limit : Z) (m : Match) :
  m ∈ find_matching_properties fetch c limit ->
  exists n : Z, match_score m = (inject_Z n / 10)%Q /\ 300 <= n <= 1000.
Proof.
  unfold find_matching_properties.
  destruct (fetch (build_query c limit)) as [rows | e]; [| by intros ?%elem_of_nil].
  destruct (py_take_prefix (sort_desc (omap (fun pm => entry pm.1 pm.2 c) rows)) limit)
    as [k ->].
  intros Hm%subseteq_take. rewrite sort_desc_perm in Hm.
  apply list_elem_of_omap in Hm as ([p media] & _ & Hentry).
  unfold entry in Hentry. simpl in Hentry.
  destruct (Qle_bool 30 (percentage (tally p c))) eqn:Hdecent; [| done].
  injection Hentry as <-. simpl.
  exists (round_half_even (percentage (tally p c) * 10)). split; [done |].
  apply Qle_bool_iff in Hdecent.
  assert (Hrange : (0 <= percentage (tally p c) <= 100)%Q).
  { destruct (tally_sums p c) as [Hs Hm].
    pose proof (final_range _ _ (earned_bounds p c)) as Hfinal.
    unfold final in Hfinal. unfold percentage. by rewrite Hs, Hm. }
  split.
  - pose proof (round_half_even_floor (percentage (tally p c) * 10)) as Hfloor.
    assert (300 <= Qfloor (percentage (tally p c) * 10)); [| lia].
    change 300 with (Qfloor (30 * 10)). apply Qfloor_resp_le.
    by apply Qmult_le_compat_r.
  - apply round_half_even_ceiling.
    change (inject_Z 1000) with (100 * 10)%Q.
    apply Qmult_le_compat_r; [apply Hrange | done].
Qed.

Lemma match_scores_are_tenths_witness :
  SampleMatches.best
    ∈ find_matching_properties SampleListings.all_rows SampleListings.in_pune 10
  /\ exists n : Z,
      match_score SampleMatches.best = (inject_Z n / 10)%Q /\ 300 <= n <= 1000.
Proof.
  assert (Hin : SampleMatches.best
                ∈ find_matching_properties SampleListings.all_rows
                    SampleListings.in_pune 10).
  { change (find_matching_properties SampleListings.all_rows SampleListings.in_pune 10)
      with SampleMatches.found.
    apply list_elem_of_here. }
  split; [exact Hin |].
  exact (match_scores_are_tenths SampleListings.all_rows SampleListings.in_pune 10
           SampleMatches.best Hin).
Defined.

End RankingFurther.

(** ** Comma-separated lists *)

Section CommaLists.

Import PyText PropertyForms.

#[local] Arguments String.append : simpl nomatch.

Lemma lstrip_length (s : string) : (String.length (lstrip s) <= String.length s)%nat.
Proof. induction s as [| c s IH]; simpl; [done |]. destruct (is_space c); simpl; lia. Qed.

Lemma lstrip_idem (s : string) : lstrip (lstrip s) = lstrip s.
Proof.
  induction s as [| c s IH]; simpl; [done |].
  destruct (is_space c) eqn:Hc; [done |]. simpl. by rewrite Hc.
Qed.

(** A text that [lstrip] leaves alone starts with a byte that is no space. *)
Lemma lstrip_fixed (s : string) :
  s <> EmptyString -> lstrip s = s ->
  exists c t, s = String c t /\ is_space c = false.
Proof.
  destruct s as [| c t]; [done |]. intros _. simpl.
  destruct (is_space c) eqn:Hc; [| eauto].
  intros Heq. pose proof (lstrip_length t) as Hlen.
  rewrite Heq in Hlen. simpl in Hlen. lia.
Qed.

Lemma rstrip_cons (c : ascii) (s : string) :
  rstrip (String c s)
  = match rstrip s with
    | EmptyString => if is_space c then EmptyString else String c EmptyString
    | r => String c r
    end.
Proof. reflexivity. Qed.

Lemma rstrip_idem (s : string) : rstrip (rstrip s) = rstrip s.
Proof.
  induction s as [| c s IH]; [done |]. rewrite rstrip_cons.
  destruct (rstrip s) as [| d r] eqn:Hr.
  - destruct (is_space c) eqn:Hc; [done |]. simpl. by rewrite Hc.
  - rewrite rstrip_cons, IH. done.
Qed.

Lemma rstrip_tail (c : ascii) (t : string) :
  rstrip (String c t) = String c t -> rstrip t = t.
Proof.
  rewrite rstrip_cons. destruct (rstrip t) as [| d r] eqn:Hr.
  - destruct (is_space c); [done |]. by intros [= <-].
  - by intros [= <-].
Qed.

(** Stripping the left of a text with a clean right end leaves that end
    clean. *)
Lemma rstrip_lstrip (t : string) : rstrip t = t -> rstrip (lstrip t) = lstrip t.
Proof.
  induction t as [| c t IH]; [done |]. intros Hfix. simpl.
  destruct (is_space c); [| exact Hfix].
  apply IH. by apply rstrip_tail in Hfix.
Qed.

Lemma strip_clean (s : string) : strip s <> EmptyString -> stripped (strip s).
Proof.
  intros Hne. split; [done |]. unfold strip. split.
  - apply lstrip_idem.
  - apply rstrip_lstrip, rstrip_idem.
Qed.

Lemma lacks_lstrip (x : ascii) (s : string) : Py.lacks x s -> Py.lacks x (lstrip s).
Proof.
  induction s as [| c s IH]; simpl; [done |]. intros Hs.
  destruct (is_space c); [| done]. apply IH. by apply lacks_cons in Hs as [_ ?].
Qed.

Lemma lacks_rstrip (x : ascii) (s : string) : Py.lacks x s -> Py.lacks x (rstrip s).
Proof.
  induction s as [| c s IH]; [done |]. intros [Hne Hs]%lacks_cons.
  rewrite rstrip_cons. specialize (IH Hs).
  destruct (rstrip s) as [| d r].
  - destruct (is_space c); [done |]. by apply lacks_cons.
  - by apply lacks_cons.
Qed.

Lemma lacks_rev_append (x : ascii) (cur s : string) :
  Py.lacks x cur -> Py.lacks x s -> Py.lacks x (Py.rev_append cur s).
Proof.
  revert s. induction cur as [| c cur IH]; intros s Hcur Hs; simpl; [done |].
  apply lacks_cons in Hcur as [Hne Hcur]. apply IH; [done |]. by apply lacks_cons.
Qed.

(** No piece of a split on a one-byte separator holds that byte. *)
Lemma split_scan_lacks (x : ascii) (cur s : string) :
  Py.lacks x cur ->
  Forall (Py.lacks x) (Py.split_scan (String x EmptyString) 0 cur s).
Proof.
  revert cur. induction s as [| c s IH]; intros cur Hcur.
  - constructor; [| constructor]. by apply lacks_rev_append.
  - cbn [Py.split_scan]. simpl String.prefix.
    destruct (Ascii.ascii_dec x c) as [<- | Hne].
    + rewrite prefix_empty. constructor; [by apply lacks_rev_append |].
      simpl. by apply IH.
    + apply IH. by apply lacks_cons.
Qed.

(** X7.  On ASCII text (where [strip] removes exactly the white space of the
    model), [parse_comma_separated_list] gives None exactly for a missing
    or blank value; every item of a list it gives is non-empty, has no
    space at either end and holds no comma. *)
Theorem parsed_items_are_clean (value : option string) :
  (forall v, value = Some v -> isascii v = true) ->
  (parse_comma_separated_list value = None <->
     value = None \/ exists v, value = Some v /\ strip v = EmptyString)
  /\ (forall items,
         parse_comma_separated_list value = Some items ->
         Forall (fun item => stripped item /\ Py.lacks "," item) items).
Proof.
  intros _. unfold parse_comma_separated_list. destruct value as [v |].
  2:{ split; [split; [by left | done] | done]. }
  destruct v as [| c v]; [split; [split; [right; by exists EmptyString | done] | done] |].
  simpl negb at 1. rewrite orb_false_l.
  destruct (strip (String c v)) as [| d r] eqn:Hstrip; simpl.
  - split; [split; [right; eauto | done] | done].
  - split.
    + split; [done |]. intros [? | (v' & [= <-] & Hblank)]; congruence.
    + intros items [= <-]. apply Forall_forall.
      intros item (piece & Hin & Hitem)%list_elem_of_omap.
      destruct (strip piece) as [| e t] eqn:Hs; [done |].
      simpl in Hitem. injection Hitem as <-.
      split.
      * rewrite <- Hs. apply strip_clean. by rewrite Hs.
      * rewrite <- Hs. apply lacks_lstrip, lacks_rstrip.
        pose proof (split_scan_lacks "," EmptyString (String c v) eq_refl) as Hall.
        rewrite Forall_forall in Hall. by apply Hall.
Qed.

Lemma parsed_items_are_clean_witness :
  isascii " Parking , Gym,,  Pool  " = true
  /\ parse_comma_separated_list (Some " Parking , Gym,,  Pool  ")
     = Some ["Parking"; "Gym"; "Pool"]
  /\ Forall (fun item => stripped item /\ Py.lacks "," item) ["Parking"; "Gym"; "Pool"].
Proof.
  assert (Hascii : forall v, Some " Parking , Gym,,  Pool  " = Some v -> isascii v = true).
  { intros v Hv. injection Hv as <-. reflexivity. }
  assert (Hparse : parse_comma_separated_list (Some " Parking , Gym,,  Pool  ")
                   = Some ["Parking"; "Gym"; "Pool"]) by reflexivity.
  split; [reflexivity |]. split; [exact Hparse |].
  exact (proj2 (parsed_items_are_clean (Some " Parking , Gym,,  Pool  ") Hascii) _ Hparse).
Defined.

(** A value of commas and spaces only is not blank: it gives the empty
    list, not None. *)
Example only_commas : parse_comma_separated_list (Some " , ,") = Some [].
Proof. reflexivity. Qed.

Lemma strip_stripped (x : string) : stripped x -> strip x = x.
Proof. intros (_ & Hl & Hr). unfold strip. by rewrite Hr, Hl. Qed.

Lemma strip_after_space (y : string) : stripped y -> strip (String " " y) = y.
Proof.
  intros (Hne & Hl & Hr). unfold strip. rewrite rstrip_cons, Hr.
  destruct y as [| d r]; [done |]. simpl lstrip at 1. exact Hl.
Qed.

Lemma strip_starts (c : ascii) (u : string) :
  is_space c = false -> strip (String c u) <> EmptyString.
Proof.
  intros Hc. unfold strip. rewrite rstrip_cons.
  destruct (rstrip u); rewrite ?Hc; simpl; by rewrite Hc.
Qed.

(** Splitting a joined list gives the items back, each but the first
    behind the space of the separator. *)
Lemma split_join (pre x : string) (l : list string) :
  Py.lacks "," pre -> Forall (Py.lacks ",") (x :: l) ->
  Py.split_scan "," 0 EmptyString (pre ++ join ", " (x :: l))
  = (pre ++ x) :: map (String " ") l.
Proof.
  revert pre x. induction l as [| y l IH]; intros pre x Hpre Hall.
  - apply Forall_cons in Hall as [Hx _]. simpl join.
    rewrite split_scan_plain; [done |]. by apply lacks_append.
  - apply Forall_cons in Hall as [Hx Hall].
    change (join ", " (x :: y :: l)) with (x ++ ", " ++ join ", " (y :: l)).
    rewrite <- append_assoc.
    change (", " ++ join ", " (y :: l)) with ("," ++ " " ++ join ", " (y :: l)).
    rewrite (split_scan_cut "," EmptyString); [| by apply lacks_append].
    rewrite IH by done. reflexivity.
Qed.

(** X8.  The round trip: a non-empty list of ASCII items, each non-empty,
    without a space at either end and without a comma, is read back from
    its comma-and-space joined text. *)
Theorem comma_list_round_trip (items : list string) :
  items <> [] ->
  Forall (fun item => stripped item /\ Py.lacks "," item /\ isascii item = true) items ->
  parse_comma_separated_list (Some (join ", " items)) = Some items.
Proof.
  destruct items as [| x l]; [done |]. intros _ Hall.
  assert (Hlacks : Forall (Py.lacks ",") (x :: l)).
  { eapply Forall_impl; [exact Hall |]. by intros ? (_ & ? & _). }
  assert (Hclean : Forall stripped (x :: l)).
  { eapply Forall_impl; [exact Hall |]. by intros ? [? _]. }
  pose proof (Forall_inv Hclean) as Hx.
  destruct (lstrip_fixed x (proj1 Hx) (proj1 (proj2 Hx))) as (c & t & -> & Hc).
  assert (Hvalue : exists u, join ", " (String c t :: l) = String c u).
  { destruct l; simpl; eauto. }
  destruct Hvalue as [u Hu].
  unfold parse_comma_separated_list.
  rewrite Hu at 1 2. simpl Py.truthy_str at 1. simpl negb at 1. rewrite orb_false_l.
  pose proof (strip_starts c u Hc) as Hne.
  destruct (strip (String c u)) as [| d r] eqn:Hs; [done |]. simpl negb.
  cbv iota. f_equal. unfold Py.split.
  change (join ", " (String c t :: l)) with (EmptyString ++ join ", " (String c t :: l)).
  rewrite split_join by done. simpl app. csimpl.
  rewrite (strip_stripped _ Hx). simpl. f_equal.
  apply Forall_inv_tail in Hclean. clear -Hclean.
  induction l as [| y l IH]; [done |]. csimpl.
  apply Forall_cons in Hclean as [Hy Hl].
  rewrite (strip_after_space _ Hy).
  destruct y as [| e r]; [by destruct Hy |]. simpl. f_equal. by apply IH.
Qed.

Lemma comma_list_round_trip_witness :
  (["Parking"; "Swimming Pool"; "Gym"] <> []
   /\ Forall (fun item => stripped item /\ Py.lacks "," item /\ isascii item = true)
        ["Parking"; "Swimming Pool"; "Gym"])
  /\ parse_comma_separated_list (Some "Parking, Swimming Pool, Gym")
     = Some ["Parking"; "Swimming Pool"; "Gym"].
Proof.
  assert (Hne : ["Parking"; "Swimming Pool"; "Gym"] <> []) by discriminate.
  assert (Hall : Forall (fun item => stripped item /\ Py.lacks "," item
                                     /\ isascii item = true)
                   ["Parking"; "Swimming Pool"; "Gym"]).
  { repeat constructor; discriminate. }
  split; [split; [exact Hne | exact Hall] |].
  exact (comma_list_round_trip ["Parking"; "Swimming Pool"; "Gym"] Hne Hall).
Defined.

End CommaLists.

(** ** Starting, resuming and closing a session *)

Section SessionsFurther.

Import MainChatbotController.

Lemma last_message_skip (l : list ChatbotMessage) (id : N) (best : option ChatbotMessage) :
  Forall (fun m => conversation m <> id) l ->
  fold_left (fun best m => if (conversation m =? id)%N then Orm.later best m else best)
            l best = best.
Proof.
  intros Hl. revert best. induction Hl as [| m l Hm _ IH]; intros best; simpl; [done |].
  rewrite (proj2 (N.eqb_neq _ _) Hm). apply IH.
Qed.

Lemma last_message_created (env : Env) (c : ChatbotConversation) (n : Z) (q : string)
      (db : ChatDB) :
  Forall (fun m => conversation m <> conv_id c) (messages db) ->
  Orm.last_message (Orm.create_message env c n q db) c
  = Some {| msg_id := fresh_id env; conversation := conv_id c; step_number := n;
            question_text := q; user_response := None;
            response_time_seconds := None; created_at := now env;
            responded_at := None |}.
Proof.
  intros Hl. unfold Orm.last_message, Orm.create_message. simpl.
  rewrite fold_left_app, (last_message_skip (messages db)) by exact Hl. simpl.
  by rewrite N.eqb_refl.
Qed.

Lemma initial_question_returns :
  exists q, ChatbotFlowEngine.get_initial_question = Py.Returns q.
Proof. eexists. reflexivity. Qed.

(** X9.  A chat started under a session id that is not on file (the one given,
    or the uuid drawn when none is given) is live: the row has the column
    defaults, starting again under that id resumes with the opening
    question and writes nothing, and the first response is filed as the
    answer of the opening question and chooses the flow. *)
Theorem started_chat_is_live
    (d : StartChat.Draw) (sid agent ip : option string) (db : ChatDB) :
  let new := StartChat.new_session_id d sid in
  new <> EmptyString ->
  conversations db !! new = None ->
  Forall (fun m => conversation m <> StartChat.conversation_uuid d) (messages db) ->
  PyText.fits 255 (Some new) = true ->
  PyText.fits 45 ip = true ->
  let r := StartChat.handle_start_chat d sid agent ip db in
  exists q,
    ChatbotFlowEngine.get_initial_question = Py.Returns q
    /\ r.1 = StartChat.Started new q
    /\ conversations r.2 !! new = Some (StartChat.new_conversation d new agent ip)
    /\ (forall d' agent' ip',
           StartChat.handle_start_chat d' (Some new) agent' ip' r.2
           = (StartChat.Resumed new (ChatbotFlowEngine.q_question q) 0 None, r.2))
    /\ (forall env response,
           let r' := handle_chat_response env new response r.2 in
           exists c m,
             r'.1 = Handled
                      (route_of (Some (ChatbotFlowEngine.determine_flow_from_response
                                         response)))
                      c (Some m)
             /\ conversations r'.2 !! new = Some c
             /\ flow_type c
                = Some (ChatbotFlowEngine.determine_flow_from_response response)
             /\ question_text m = ChatbotFlowEngine.q_question q
             /\ user_response m = Some response
             /\ m ∈ messages r'.2).
Proof.
  intros new Hne Hfree Hmsgs Hfit Hip r.
  destruct initial_question_returns as [q Hq]. exists q. split; [exact Hq |].
  assert (Hres : StartChat.resumable sid db = None).
  { destruct sid as [[| a s] |]; try done. simpl.
    unfold Orm.get_conversation. simpl in new. subst new. by rewrite Hfree. }
  set (c0 := StartChat.new_conversation d new agent ip).
  set (db1 := {| conversations := <[new := c0]> (conversations db);
                 messages := messages db |}).
  set (env0 := {| now := StartChat.clock d; fresh_id := StartChat.message_uuid d |}).
  assert (Hr : r = (StartChat.Started new q,
                    Orm.create_message env0 c0 0 (ChatbotFlowEngine.q_question q) db1)).
  { subst r. unfold StartChat.handle_start_chat. rewrite Hres.
    unfold StartChat.create_conversation. fold new. rewrite Hfit, Hip, Hfree. simpl.
    by rewrite Hq. }
  rewrite Hr. clear Hr r. cbn [fst snd].
  assert (Hrow : conversations
                   (Orm.create_message env0 c0 0 (ChatbotFlowEngine.q_question q) db1)
                 !! new = Some c0).
  { simpl. by rewrite lookup_insert_eq. }
  pose proof (last_message_created env0 c0 0 (ChatbotFlowEngine.q_question q) db1 Hmsgs)
    as Hlast.
  split; [done |]. split; [exact Hrow |]. split.
  - intros d' agent' ip'. unfold StartChat.handle_start_chat, StartChat.resumable.
    destruct new as [| a s] eqn:Hnew; [done |]. cbn [Py.truthy_str].
    unfold Orm.get_conversation. rewrite Hrow.
    rewrite bool_decide_eq_true_2 by done. by rewrite Hlast.
  - intros env response. unfold handle_chat_response.
    unfold Orm.get_conversation. rewrite Hrow.
    rewrite bool_decide_eq_true_2 by done. cbn [negb]. rewrite Hlast.
    cbn [user_response Py.truthy_str negb].
    do 2 eexists. split; [reflexivity |]. cbn [fst snd].
    split; [simpl; by rewrite lookup_insert_eq |].
    split; [reflexivity |]. split; [reflexivity |]. split; [reflexivity |].
    simpl. rewrite !map_app. apply elem_of_app. right. simpl.
    rewrite !N.eqb_refl. apply list_elem_of_here.
Qed.

Lemma started_chat_is_live_witness :
  let r := StartChat.handle_start_chat SampleSessions.draw None SampleSessions.browser
             SampleSessions.address Sample.fresh_db in
  conversations Sample.fresh_db !! StartChat.session_uuid SampleSessions.draw = None
  /\ exists q,
      r.1 = StartChat.Started (StartChat.session_uuid SampleSessions.draw) q
      /\ StartChat.handle_start_chat SampleSessions.draw
           (Some (StartChat.session_uuid SampleSessions.draw)) None None r.2
         = (StartChat.Resumed (StartChat.session_uuid SampleSessions.draw)
              (ChatbotFlowEngine.q_question q) 0 None, r.2).
Proof.
  intros r.
  assert (Hne : StartChat.new_session_id SampleSessions.draw None <> EmptyString)
    by discriminate.
  assert (Hfree : conversations Sample.fresh_db
                  !! StartChat.new_session_id SampleSessions.draw None = None)
    by reflexivity.
  assert (Hmsgs : Forall (fun m => conversation m
                                   <> StartChat.conversation_uuid SampleSessions.draw)
                         (messages Sample.fresh_db))
    by (repeat constructor; discriminate).
  pose proof (started_chat_is_live SampleSessions.draw None SampleSessions.browser
                SampleSessions.address Sample.fresh_db Hne Hfree Hmsgs eq_refl eq_refl)
    as (q & _ & Hstarted & _ & Hresume & _).
  split; [exact Hfree |]. exists q. split; [exact Hstarted |].
  exact (Hresume SampleSessions.draw None None).
Defined.

(** X10.  Starting a chat only adds: every conversation on file stays as it
    is, the messages on file stay as they are, in their order, with at
    most one message after them; and unless a chat was started nothing is
    written at all. *)
Theorem start_chat_only_adds
    (d : StartChat.Draw) (sid agent ip : option string) (db : ChatDB) :
  let r := StartChat.handle_start_chat d sid agent ip db in
  conversations db ⊆ conversations r.2
  /\ (exists added, messages r.2 = (messages db ++ added)%list
                    /\ (length added <= 1)%nat)
  /\ match r.1 with
     | StartChat.Started _ _ => conversations db !! StartChat.new_session_id d sid = None
     | _ => r.2 = db
     end.
Proof.
  intros r. subst r. unfold StartChat.handle_start_chat.
  assert (Hsame : conversations db ⊆ conversations db
                  /\ (exists added, messages db = (messages db ++ added)%list
                                    /\ (length added <= 1)%nat)).
  { split; [done |]. exists []. split; [by rewrite app_nil_r | simpl; lia]. }
  destruct (StartChat.resumable sid db) as [[c m] |]; [by destruct Hsame |].
  unfold StartChat.create_conversation.
  destruct (PyText.fits 255 (Some (StartChat.new_session_id d sid)) && PyText.fits 45 ip);
    [| by destruct Hsame].
  cbn [negb].
  destruct (conversations db !! StartChat.new_session_id d sid) eqn:Hrow;
    [by destruct Hsame |].
  destruct initial_question_returns as [q ->]. cbn [fst snd].
  split; [simpl; by apply insert_subseteq |].
  split; [| reflexivity]. eexists. split; [reflexivity | simpl; lia].
Qed.

(** X11.  The satisfaction endpoint closes the session, whatever its state was:
    the row becomes completed or escalated at the time of the request and
    keeps its flow, step and stored text; no other session changes; an
    escalation is filed exactly for an unsatisfied answer, addressed to
    [guest_email] and [guest_name] or to the placeholders; every later
    chat response is refused with 400, and the session id cannot be
    started again (500), both without writing. *)
Theorem satisfaction_response_closes
    (env : Env) (sid : string) (satisfied : bool) (feedback : option string)
    (db : SupportDB) (c : ChatbotConversation) :
  conversations (chat db) !! sid = Some c ->
  session_id c = sid ->
  let r := ConversationController.handle_satisfaction_response
             env sid satisfied feedback db in
  r.1 = ConversationController.Thanked (negb satisfied) sid
  /\ (exists c',
        conversations (chat r.2) !! sid = Some c'
        /\ status c' = (if satisfied then COMPLETED else ESCALATED)
        /\ is_satisfied c' = Some satisfied
        /\ completed_at c' = Some (now env)
        /\ flow_type c' = flow_type c
        /\ current_step c' = current_step c
        /\ guest_email c' = guest_email c)
  /\ (forall other, other <> sid ->
        conversations (chat r.2) !! other = conversations (chat db) !! other)
  /\ escalations r.2
     = (if satisfied then escalations db
        else escalations db ++
             [ {| esc_id := fresh_id env; esc_conversation := conv_id c;
                  reason := "unsatisfied"; priority := "medium";
                  contact_email :=
                    ConversationController.or_else (guest_email c) "unknown@example.com";
                  contact_name :=
                    ConversationController.or_else (guest_name c) "Anonymous User";
                  esc_created_at := now env |} ])%list
  /\ (forall env' response,
        handle_chat_response env' sid response (chat r.2)
        = (HTTPException 400 "Conversation is not active", chat r.2))
  /\ (sid <> EmptyString ->
      forall d agent ip,
        StartChat.handle_start_chat d (Some sid) agent ip (chat r.2)
        = (StartChat.HTTPException 500 "Failed to start chat: ", chat r.2)).
Proof.
  intros Hc Hsid r.
  set (c' := Orm.touch env (set_satisfaction env satisfied c)).
  set (saved := {| conversations := <[sid := c']> (conversations (chat db));
                   messages := messages (chat db) |}).
  set (tables := match Orm.last_message saved c' with
                 | Some last_message =>
                     Orm.save_message
                       (answer env
                          (ConversationController.satisfaction_text satisfied feedback)
                          last_message) saved
                 | None => saved
                 end).
  assert (Hr : r = (ConversationController.Thanked (negb satisfied) sid,
                    {| chat := tables;
                       escalations :=
                         if negb satisfied
                         then (escalations db ++
                               [ {| esc_id := fresh_id env; esc_conversation := conv_id c;
                                    reason := "unsatisfied"; priority := "medium";
                                    contact_email :=
                                      ConversationController.or_else (guest_email c)
                                        "unknown@example.com";
                                    contact_name :=
                                      ConversationController.or_else (guest_name c)
                                        "Anonymous User";
                                    esc_created_at := now env |} ])%list
                         else escalations db |})).
  { subst r. unfold ConversationController.handle_satisfaction_response.
    unfold Orm.get_conversation. rewrite Hc. unfold Orm.save_conversation.
    cbn [session_id set_satisfaction]. rewrite Hsid. reflexivity. }
  assert (Hconv : conversations tables = <[sid := c']> (conversations (chat db))).
  { subst tables. by destruct (Orm.last_message saved c'). }
  assert (Hrow : conversations tables !! sid = Some c').
  { by rewrite Hconv, lookup_insert_eq. }
  assert (Hclosed : status c' <> ACTIVE) by (simpl; by destruct satisfied).
  rewrite Hr. cbn [fst snd chat escalations].
  split; [done |]. split; [exists c'; by repeat split |].
  split; [intros other Hother; by rewrite Hconv, lookup_insert_ne |].
  split; [by destruct satisfied |]. split.
  - intros env' response. unfold handle_chat_response, Orm.get_conversation.
    rewrite Hrow. by rewrite bool_decide_eq_false_2.
  - intros Hne d agent ip. unfold StartChat.handle_start_chat, StartChat.resumable.
    destruct sid as [| a s] eqn:Hs; [done |]. cbn [Py.truthy_str].
    unfold Orm.get_conversation. rewrite Hrow.
    rewrite bool_decide_eq_false_2 by done.
    unfold StartChat.create_conversation. cbn [StartChat.new_session_id].
    rewrite Hrow.
    by destruct (negb (PyText.fits 255 (Some (String a s)) && PyText.fits 45 ip)).
Qed.

Lemma satisfaction_response_closes_witness :
  let r := ConversationController.handle_satisfaction_response
             Sample.env "s-1" false (Some "Nobody called me back")
             SampleSessions.support_db in
  r.1 = ConversationController.Thanked true "s-1"
  /\ (contact_email <$> escalations r.2) = ["unknown@example.com"]
  /\ handle_chat_response (Sample.at_tick 1) "s-1" "Hello?" (chat r.2)
     = (HTTPException 400 "Conversation is not active", chat r.2).
Proof.
  intros r.
  pose proof (satisfaction_response_closes Sample.env "s-1" false
                (Some "Nobody called me back") SampleSessions.support_db
                Sample.fresh_conversation eq_refl eq_refl)
    as (Hout & _ & _ & Hfiled & Hrefused & _).
  split; [exact Hout |]. split; [| exact (Hrefused (Sample.at_tick 1) "Hello?")].
  fold r in Hfiled. rewrite Hfiled. reflexivity.
Defined.

(** X12.  In the feedback flow [guest_email] holds the answers, so an
    unsatisfied visitor is escalated with that text as contact address:
    after the category answer (one that fits the column behind its
    label) the escalation is addressed to CATEGORY: and the answer. *)
Theorem feedback_text_becomes_contact
    (e1 env : Env) (c0 : ChatbotConversation) (db0 : ChatDB) (cat : string)
    (feedback : option string) (filed : list ChatbotEscalation) :
  PyText.fits 255 (Some ("CATEGORY:" ++ cat)) = true ->
  let r1 := ChatbotFeedbackController._handle_feedback_category_selection e1 c0 cat db0 in
  let r := ConversationController.handle_satisfaction_response env (session_id c0) false
             feedback {| chat := r1.2; escalations := filed |} in
  exists e,
    escalations r.2 = (filed ++ [e])%list
    /\ esc_conversation e = conv_id c0
    /\ contact_email e = "CATEGORY:" ++ cat.
Proof.
  intros _ r1 r. subst r.
  unfold ConversationController.handle_satisfaction_response, Orm.get_conversation.
  assert (Hrow : exists c1, conversations r1.2 !! session_id c0 = Some c1
                            /\ conv_id c1 = conv_id c0
                            /\ session_id c1 = session_id c0
                            /\ guest_email c1 = Some ("CATEGORY:" ++ cat)).
  { subst r1. unfold ChatbotFeedbackController._handle_feedback_category_selection.
    eexists. split; [simpl; by rewrite lookup_insert_eq |]. by repeat split. }
  destruct Hrow as (c1 & Hrow & Hid & Hsid & Hmail).
  cbn [chat]. rewrite Hrow. cbn [fst snd negb escalations].
  eexists. split; [reflexivity |]. cbn [esc_conversation contact_email].
  split; [done |]. cbn [guest_email Orm.touch set_satisfaction]. by rewrite Hmail.
Qed.

Lemma feedback_text_becomes_contact_witness :
  let r1 := ChatbotFeedbackController._handle_feedback_category_selection
              (Sample.at_tick 2) Sample.fresh_conversation "Customer support"
              Sample.fresh_db in
  let r := ConversationController.handle_satisfaction_response (Sample.at_tick 3) "s-1"
             false None {| chat := r1.2; escalations := [] |} in
  PyText.fits 255 (Some "CATEGORY:Customer support") = true
  /\ exists e, escalations r.2 = [e] /\ contact_email e = "CATEGORY:Customer support".
Proof.
  intros r1 r. split; [reflexivity |].
  destruct (feedback_text_becomes_contact (Sample.at_tick 2) (Sample.at_tick 3)
              Sample.fresh_conversation Sample.fresh_db "Customer support" None []
              eq_refl) as (e & Hfiled & _ & Hmail).
  exists e. split; [exact Hfiled | exact Hmail].
Defined.

End SessionsFurther.

(** ** The property search, turn by turn *)

Section SearchFurther.

Import ChatbotFlowEngine MainChatbotController PropertySearchController SearchSession.

(** The latest message of a conversation has the greatest step of the
    conversation's messages. *)
Lemma fold_later_bound (l : list ChatbotMessage) (id : N) (best : option ChatbotMessage)
      (m : ChatbotMessage) :
  fold_left (fun best r => if (conversation r =? id)%N then Orm.later best r else best)
            l best = Some m ->
  (forall b, best = Some b -> step_number b <= step_number m)
  /\ Forall (fun r => conversation r = id -> step_number r <= step_number m) l.
Proof.
  revert best. induction l as [| r l IH]; intros best Hfold; simpl in Hfold.
  { split; [| constructor]. intros b ->. injection Hfold as ->. lia. }
  apply IH in Hfold as [Hbest Hl].
  destruct (N.eqb_spec (conversation r) id) as [Hid | Hid].
  - unfold Orm.later in Hbest. destruct best as [b |].
    + destruct (Z.ltb_spec (step_number b) (step_number r)) as [Hlt | Hge];
        specialize (Hbest _ eq_refl).
      * split; [intros ? [= <-]; lia | constructor; [lia | done]].
      * split; [intros ? [= <-]; lia | constructor; [lia | done]].
    + specialize (Hbest _ eq_refl). split; [done |]. constructor; [lia | done].
  - split; [done |]. constructor; [done | done].
Qed.

Lemma fold_later_below (l : list ChatbotMessage) (id : N) (n : Z)
      (best : option ChatbotMessage) :
  Forall (fun r => conversation r = id -> step_number r < n) l ->
  (forall b, best = Some b -> step_number b < n) ->
  forall b,
    fold_left (fun best r => if (conversation r =? id)%N then Orm.later best r else best)
              l best = Some b ->
    step_number b < n.
Proof.
  intros Hl. revert best. induction Hl as [| r l Hr _ IH]; intros best Hbest b; simpl.
  { apply Hbest. }
  apply IH. intros b'.
  destruct (N.eqb_spec (conversation r) id) as [Hid | Hid]; [| apply Hbest].
  unfold Orm.later. destruct best as [b0 |].
  - destruct (step_number b0 <? step_number r); intros [= <-]; [by apply Hr | by apply Hbest].
  - intros [= <-]. by apply Hr.
Qed.

(** A message filed at a step above every step of its conversation is
    the latest one. *)
Lemma last_message_appended (db : ChatDB) (c : ChatbotConversation) (new : ChatbotMessage)
      (l : list ChatbotMessage) :
  messages db = (l ++ [new])%list ->
  conversation new = conv_id c ->
  Forall (fun r => conversation r = conv_id c -> step_number r < step_number new) l ->
  Orm.last_message db c = Some new.
Proof.
  intros Hdb Hnew Hl. unfold Orm.last_message. rewrite Hdb, fold_left_app. simpl.
  rewrite Hnew, N.eqb_refl. unfold Orm.later.
  destruct (fold_left _ l None) as [b |] eqn:Hfold; [| done].
  apply (fold_later_below _ _ _ _ Hl) in Hfold; [| done].
  by destruct (Z.ltb_spec (step_number b) (step_number new)); [| lia].
Qed.

Lemma save_message_Forall (P : ChatbotMessage -> Prop) (m : ChatbotMessage) (db : ChatDB) :
  Forall P (messages db) -> P m -> Forall P (messages (Orm.save_message m db)).
Proof.
  intros Hall Hm. unfold Orm.save_message. simpl. apply Forall_fmap.
  eapply Forall_impl; [exact Hall |]. intros r Hr. simpl.
  by destruct (msg_id r =? msg_id m)%N.
Qed.

Lemma save_message_length (m : ChatbotMessage) (db : ChatDB) :
  length (messages (Orm.save_message m db)) = length (messages db).
Proof. unfold Orm.save_message. simpl. by rewrite length_map. Qed.

(** The engine's answer at the eight positions of the flow. *)
Lemma search_next_question (k : Z) :
  0 <= k < 8 ->
  exists q,
    get_next_question "property_search" k = Py.Returns (Some q)
    /\ script !! Z.to_nat k = Some (Some (q_question q))
    /\ q_step_number q = k + 1
    /\ q_is_final q = false.
Proof.
  intros Hk.
  assert (Hcases : k = 0 \/ k = 1 \/ k = 2 \/ k = 3 \/ k = 4 \/ k = 5 \/ k = 6 \/ k = 7)
    by lia.
  repeat (destruct Hcases as [-> | Hcases]; [eexists; by repeat split |]).
  subst k. eexists. by repeat split.
Qed.

(** One request of a search that still has a question to ask. *)
Lemma search_turn (env : Env) (sid response : string) (db : ChatDB) (k : Z)
      (flow : option ChatbotFlowType) :
  awaiting db sid k flow ->
  0 <= k < 8 ->
  flow = Some PROPERTY_SEARCH
  \/ (k = 0 /\ flow = None /\ determine_flow_from_response response = PROPERTY_SEARCH) ->
  exists c' q db',
    respond env sid response db = Some (NextQuestion c' q, db')
    /\ script !! Z.to_nat k = Some (Some (q_question q))
    /\ q_step_number q = k + 1
    /\ awaiting db' sid (k + 1) (Some PROPERTY_SEARCH)
    /\ length (messages db') = S (length (messages db)).
Proof.
  intros (c & m & Hc & Hsid & Hactive & Hflow & Hstep & Hlast & Hm & Hun) Hk Hsel.
  destruct (search_next_question k Hk) as (q & Hq & Hscript & Hnum & Hfinal).
  pose proof (fold_later_bound _ _ _ _ Hlast) as [_ Hbound].
  assert (Hbelow : Forall (fun r => conversation r = conv_id c -> step_number r < k + 1)
                          (messages db)).
  { eapply Forall_impl; [exact Hbound |]. intros r Hr Hid. specialize (Hr Hid). lia. }
  set (m1 := answer env response m).
  set (m2 := time_response env m1).
  set (m3 := answer env response m2).
  set (c1 := match flow with
             | Some _ => c
             | None => Orm.touch env
                         (set_flow_type (Some (determine_flow_from_response response)) c)
             end).
  set (db1 := Orm.save_message m2 (Orm.save_message m1 db)).
  set (db2 := match flow with
              | Some _ => db1
              | None => {| conversations := <[sid := c1]> (conversations db1);
                           messages := messages db1 |}
              end).
  assert (Hhandled : handle_chat_response env sid response db
                     = (Handled PropertySearch c1 (Some m2), db2)).
  { unfold handle_chat_response, Orm.get_conversation.
    rewrite Hc, bool_decide_eq_true_2 by done. cbn [negb]. rewrite Hlast, Hun. cbn [negb].
    fold m1 m2 db1. rewrite Hflow, Hstep.
    destruct Hsel as [-> | (-> & -> & Hdet)].
    - subst c1 db2. replace (bool_decide (is_Some (Some PROPERTY_SEARCH))) with true
        by (symmetry; by apply bool_decide_eq_true_2).
      rewrite andb_false_r. by rewrite Hflow.
    - subst c1 db2. replace (bool_decide (is_Some (@None ChatbotFlowType))) with false
        by (symmetry; apply bool_decide_eq_false_2; by intros [? ?]).
      cbn [Z.eqb negb andb]. unfold Orm.save_conversation.
      cbn [session_id set_flow_type flow_type Orm.touch]. rewrite Hsid, Hdet. reflexivity. }
  assert (Hc1 : conv_id c1 = conv_id c /\ session_id c1 = sid /\ status c1 = ACTIVE
                /\ flow_type c1 = Some PROPERTY_SEARCH /\ current_step c1 = k).
  { subst c1. destruct Hsel as [-> | (-> & -> & Hdet)]; [done |].
    cbn. by rewrite Hdet. }
  destruct Hc1 as (Hid1 & Hsid1 & Hactive1 & Hflow1 & Hstep1).
  assert (Hmsgs2 : messages db2 = messages db1) by (subst db2; by destruct flow).
  set (new := {| msg_id := fresh_id env; conversation := conv_id c1;
                 step_number := k + 1; question_text := q_question q;
                 user_response := None; response_time_seconds := None;
                 created_at := now env; responded_at := None |}).
  set (c2 := Orm.touch env (set_current_step (k + 1) c1)).
  set (db3 := Orm.save_message m3 db2).
  exists c2, q,
    {| conversations := <[sid := c2]> (conversations db3);
       messages := (messages db3 ++ [new])%list |}.
  split.
  { unfold respond. rewrite Hhandled. unfold handle_response.
    fold m3 db3. rewrite Hflow1, Hstep1. cbn [next_question_of flow_value].
    rewrite Hq. unfold answered_email_question. rewrite Hfinal. cbn [andb].
    unfold Orm.save_conversation, Orm.create_message.
    cbn [session_id set_current_step conversations messages]. rewrite Hsid1.
    reflexivity. }
  split; [exact Hscript |]. split; [exact Hnum |]. split.
  - exists c2, new. split; [simpl; by rewrite lookup_insert_eq |].
    split; [exact Hsid1 |]. split; [exact Hactive1 |]. split; [exact Hflow1 |].
    split; [reflexivity |]. split; [| split; [simpl; lia | reflexivity]].
    apply (last_message_appended _ _ _ (messages db3)); [reflexivity | reflexivity |].
    cbn [step_number new]. change (conv_id c2) with (conv_id c1). rewrite Hid1.
    subst db3. apply save_message_Forall; [| intros _; simpl; lia].
    rewrite Hmsgs2. subst db1.
    apply save_message_Forall; [| intros _; simpl; lia].
    apply save_message_Forall; [exact Hbelow | intros _; simpl; lia].
  - cbn [messages]. rewrite length_app. cbn [length].
    unfold db3. rewrite save_message_length, Hmsgs2.
    unfold db1. rewrite !save_message_length. lia.
Qed.

(** The request after the eighth answer: the engine has no question
    left. *)
Lemma search_last_turn (env : Env) (sid response : string) (db : ChatDB) (k : Z) :
  awaiting db sid k (Some PROPERTY_SEARCH) ->
  8 <= k ->
  exists c' db',
    respond env sid response db = Some (ShowCompletionMessage c', db')
    /\ length (messages db') = length (messages db).
Proof.
  intros (c & m & Hc & Hsid & Hactive & Hflow & Hstep & Hlast & Hm & Hun) Hk.
  do 2 eexists. split.
  - unfold respond, handle_chat_response, Orm.get_conversation.
    rewrite Hc, bool_decide_eq_true_2 by done. cbn [negb]. rewrite Hlast, Hun. cbn [negb].
    rewrite Hflow. replace (bool_decide (is_Some (Some PROPERTY_SEARCH))) with true
      by (symmetry; by apply bool_decide_eq_true_2).
    rewrite andb_false_r. rewrite Hflow. cbn [route_of].
    unfold handle_response. rewrite Hflow, Hstep. cbn [next_question_of flow_value].
    rewrite (proj2 (property_search_exhausted k) Hk). reflexivity.
  - by rewrite !save_message_length.
Qed.

Lemma search_converse (turns : list (Env * string)) (sid : string) (db : ChatDB) (k : Z) :
  awaiting db sid k (Some PROPERTY_SEARCH) ->
  0 <= k <= 8 ->
  (length turns + Z.to_nat k <= 9)%nat ->
  asked <$> (converse turns sid db).1 = take (length turns) (drop (Z.to_nat k) script)
  /\ ((length turns + Z.to_nat k <= 8)%nat ->
      awaiting (converse turns sid db).2 sid (k + Z.of_nat (length turns))
               (Some PROPERTY_SEARCH)
      /\ length (messages (converse turns sid db).2)
         = (length turns + length (messages db))%nat).
Proof.
  revert db k. induction turns as [| [env response] rest IH]; intros db k Hwait Hk Hlen.
  { simpl. split; [done |]. intros _. by rewrite Z.add_0_r. }
  cbn [length] in Hlen. cbn [converse].
  destruct (Z.le_gt_cases 8 k) as [Hlast | Hmore].
  - assert (k = 8) as -> by lia. destruct rest as [| ? ?]; [| simpl in Hlen; lia].
    destruct (search_last_turn env sid response db 8 Hwait) as (c' & db' & -> & _);
      [lia |].
    split; [reflexivity | simpl; lia].
  - destruct (search_turn env sid response db k _ Hwait) as
      (c' & q & db' & -> & Hscript & _ & Hwait' & Hcount); [lia | by left |].
    specialize (IH db' (k + 1) Hwait').
    replace (Z.to_nat (k + 1)) with (S (Z.to_nat k)) in IH by lia.
    destruct IH as [Hasked Hstate]; [lia | lia |].
    destruct (converse rest sid db') as [outcomes db''] eqn:Hrest.
    cbn [fst snd] in *. split.
    + rewrite fmap_cons. cbn [asked length]. rewrite Hasked.
      by rewrite (drop_S _ _ _ Hscript).
    + intros Hroom. cbn [length] in Hroom.
      destruct Hstate as [Hwait'' Hcount'']; [lia |]. split.
      * replace (k + Z.of_nat (length ((env, response) :: rest)))
          with (k + 1 + Z.of_nat (length rest)) by (cbn [length]; lia).
        exact Hwait''.
      * rewrite Hcount'', Hcount. cbn [length]. lia.
Qed.



End SearchFurther.

(** ** The flow table and the menu *)

Section EngineFurther.

Import ChatbotFlowEngine.

(** X14.  Whatever the first response is, the flow it selects has a question
    list of its own with a first question, numbered 1; it is never the
    general-support flow (which has no list); and for a response that is
    an option of the opening question in any casing it is the flow that
    question names for the option under [next_flow]. *)
Theorem every_response_has_a_first_question (response : string) :
  let f := determine_flow_from_response response in
  f <> GENERAL_SUPPORT
  /\ FLOWS !! flow_value GENERAL_SUPPORT = None
  /\ (exists q, get_next_question (flow_value f) 0 = Py.Returns (Some q)
                /\ q_step_number q = 1)
  /\ (forall opt name,
         (opt, name) ∈ default [] (head initial_flow ≫= next_flow) ->
         Py.lower response = Py.lower opt ->
         flow_value f = name).
Proof.
  intros f. split; [| split; [reflexivity | split]].
  - subst f. unfold determine_flow_from_response. rewrite flow_mapping_lookup.
    repeat case_decide; discriminate.
  - subst f. unfold determine_flow_from_response. rewrite flow_mapping_lookup.
    repeat case_decide; eexists; split; reflexivity.
  - intros opt name Hin Hlow. rewrite <- (proj1 menu_flows_table) in Hin.
    apply list_elem_of_fmap in Hin as ([opt' f'] & [= -> ->] & Hin).
    subst f. by rewrite (menu_flows_lowered response opt' f' Hin Hlow).
Qed.

End EngineFurther.

(** ** Listings *)

Section ListingFurther.

Lemma page_returns {A} (offset limit : Z) (rows : list A) :
  0 <= offset -> 0 <= limit ->
  Paging.page offset limit rows
  = Py.Returns (take (Z.to_nat limit) (drop (Z.to_nat offset) rows)).
Proof.
  intros Ho Hl. unfold Paging.page.
  destruct (Z.ltb_spec offset 0); [lia |]. by destruct (Z.ltb_spec limit 0); [lia |].
Qed.

Lemma page_nonempty {A} (offset limit : nat) (rows : list A) :
  (1 <= limit)%nat ->
  take limit (drop offset rows) <> [] <-> (offset < length rows)%nat.
Proof.
  intros Hl. rewrite <- length_zero_iff_nil, length_take, length_drop. lia.
Qed.

(** The number of pages: the least number of pages of [limit] rows that
    hold [total] rows. *)
Lemma pages_ceiling (total limit : Z) :
  0 <= total -> 1 <= limit ->
  let pages := (total + limit - 1) / limit in
  (pages - 1) * limit < total <= pages * limit.
Proof.
  intros Ht Hl pages.
  pose proof (Z.div_mod (total + limit - 1) limit) as Hdiv.
  pose proof (Z.mod_pos_bound (total + limit - 1) limit) as Hmod.
  fold pages in Hdiv. nia.
Qed.

Section Conversations.

Import ConversationListing.

Variable filter_status : string -> list ChatbotConversation
                         -> Py.result (list ChatbotConversation).

(** What is assumed of the database: a filter selects rows of the table. *)
Hypothesis filter_selects :
  forall s table rows, filter_status s table = Py.Returns rows -> sublist rows table.

(** X15.  The admin listing counts the whole table, with or without a status
    filter: [total] is the size of the table and [pages] the least number
    of pages that hold it.  A page holds at most [limit] conversations,
    and a page beyond [pages] is empty; without a filter the pages up to
    [pages] are exactly the non-empty ones.  (With a filter, pages up to
    [pages] may be empty.)  A page is listed only when its offset,
    [(page - 1) * limit], and the limit are within the integers of the
    database; the request fails only when they are not, or when the
    filter fails. *)
Theorem conversation_pages
    (page limit : Z) (status : option string) (table : list ChatbotConversation) :
  1 <= page -> 1 <= limit ->
  match handle_get_conversations filter_status page limit status table with
  | HTTPException _ _ =>
      (exists s e, status = Some s /\ filter_status s table = Py.Raises e)
      \/ Paging.bigint_max < (page - 1) * limit
      \/ Paging.bigint_max < limit
  | Listed conversations pg =>
      (page - 1) * limit <= Paging.bigint_max
      /\ limit <= Paging.bigint_max
      /\ pg_total pg = Z.of_nat (length table)
      /\ (pg_pages pg - 1) * limit < pg_total pg <= pg_pages pg * limit
      /\ Z.of_nat (length conversations) <= limit
      /\ (pg_pages pg < page -> conversations = [])
      /\ (Py.truthy_str status = false ->
          (conversations <> [] <-> page <= pg_pages pg))
  end.
Proof.
  intros Hpage Hlimit. unfold handle_get_conversations.
  pose proof (pages_ceiling (Z.of_nat (length table)) limit) as Hpages.
  cbv zeta in Hpages. specialize (Hpages ltac:(lia) Hlimit).
  set (query := match status with
                | Some (String a s) => filter_status (String a s) table
                | _ => Py.Returns table
                end).
  assert (Hquery : match query with
                   | Py.Returns rows =>
                       (length rows <= length table)%nat
                       /\ (Py.truthy_str status = false -> rows = table)
                   | Py.Raises e => exists s, status = Some s /\ filter_status s table = Py.Raises e
                   end).
  { subst query. destruct status as [[| a s] |]; try done.
    destruct (filter_status (String a s) table) as [rows | e] eqn:Hrows; [| eauto].
    split; [| done]. apply sublist_length. by eapply filter_selects. }
  destruct query as [rows | e]; [| destruct Hquery as (s & ? & ?); eauto].
  destruct Hquery as [Hrows Hall].
  unfold Paging.page_of_bigints.
  destruct (Z.ltb_spec Paging.bigint_max ((page - 1) * limit)) as [? | Hoffset];
    [right; by left |].
  destruct (Z.ltb_spec Paging.bigint_max limit) as [? | Hmost]; [right; by right |].
  cbn [orb]. rewrite page_returns by nia.
  destruct (Z.eqb_spec limit 0) as [? | _]; [lia |]. cbn [pg_total pg_pages].
  split; [exact Hoffset |]. split; [exact Hmost |].
  split; [done |]. split; [exact Hpages |]. split; [rewrite length_take; lia |]. split.
  - intros Hbeyond. apply length_zero_iff_nil. rewrite length_take, length_drop. nia.
  - intros Hnone. rewrite (Hall Hnone). rewrite page_nonempty by lia. split; nia.
Qed.

End Conversations.

Section Properties.

Import PropertyListing.

Variable run : list Condition -> Py.result (list Property).


End Properties.

End ListingFurther.

Section ListingSamples.

Import ConversationListing PropertyListing.

Lemma by_status_selects (s : string) (table rows : list ChatbotConversation) :
  SampleTables.by_status s table = Py.Returns rows -> sublist rows table.
Proof. intros [= <-]. apply sublist_filter. Qed.

(** A filtered listing: one of two sessions is completed; the second
    page of one row is within [pages] and empty. *)
Lemma conversation_pages_witness :
  exists pg,
    handle_get_conversations SampleTables.by_status 2 1 (Some "completed")
      SampleTables.sessions = ConversationListing.Listed [] pg
    /\ pg_page pg <= pg_pages pg
    /\ (pg_pages pg - 1) * 1 < ConversationListing.pg_total pg <= pg_pages pg * 1.
Proof.
  pose proof (conversation_pages SampleTables.by_status by_status_selects 2 1
                (Some "completed") SampleTables.sessions ltac:(lia) ltac:(lia)) as Hpages.
  eexists. split; [reflexivity |]. split; [vm_compute; discriminate |].
  exact (proj1 (proj2 (proj2 (proj2 Hpages)))).
Defined.

(** A page whose offset is beyond the integers of the database is
    answered 500. *)
Lemma page_beyond_the_database :
  handle_get_conversations SampleTables.by_status (2 ^ 63 + 1) 1 None SampleTables.sessions
  = ConversationListing.HTTPException 500 "Failed to get conversations: ".
Proof. reflexivity. Qed.


End ListingSamples.

(** ** Deleting properties and media *)

Section MediaFurther.

Import PropertyMediaController.

Variable UUID : string -> option N.

Lemma find_found {A} (f : A -> bool) (l : list A) (x : A) :
  List.find f l = Some x -> x ∈ l /\ f x = true.
Proof.
  induction l as [| y l IH]; simpl; [done |].
  destruct (f y) eqn:Hy.
  - intros [= <-]. split; [apply list_elem_of_here | done].
  - intros Hx. destruct (IH Hx) as [Hin Hf]. split; [by apply list_elem_of_further | done].
Qed.

Lemma find_absent {A} (f : A -> bool) (l : list A) :
  Forall (fun x => f x = false) l -> List.find f l = None.
Proof. induction 1 as [| y l Hy _ IH]; simpl; [done |]. by rewrite Hy. Qed.

Lemma filter_swap {A} (P Q : A -> Prop) `{!forall x, Decision (P x)}
      `{!forall x, Decision (Q x)} (l : list A) :
  filter P (filter Q l) = filter Q (filter P l).
Proof.
  induction l as [| x l IH]; [done |].
  rewrite (filter_cons Q x l), (filter_cons P x l).
  destruct (decide (Q x)) as [HQ | HQ], (decide (P x)) as [HP | HP];
    rewrite ?filter_cons; repeat case_decide; try done; by rewrite IH.
Qed.

(** X17.  Deleting a media item removes the rows with that id and nothing
    else: the properties stay, every property is fetched as before but
    without the item, the media stay attached to properties on file, and
    the item cannot be deleted a second time (404, nothing written). *)
Theorem delete_property_media_removes (id : string) (db db' : PropertyDB) :
  delete_property_media UUID id db = (MediaDeleted, db') ->
  exists k,
    UUID id = Some k
    /\ (exists gone, gone ∈ media db /\ media_id gone = k)
    /\ properties db' = properties db
    /\ (forall m, m ∈ media db' <-> m ∈ media db /\ media_id m <> k)
    /\ (forall pid,
           PropertyController.get_property_by_id UUID pid db'
           = match PropertyController.get_property_by_id UUID pid db with
             | PropertyController.Fetched p ms =>
                 PropertyController.Fetched p (filter (fun m => media_id m ≠ k) ms)
             | r => r
             end)
    /\ (attached db -> attached db')
    /\ delete_property_media UUID id db'
       = (HTTPException 404 "Property media not found", db').
Proof.
  unfold delete_property_media.
  destruct (UUID id) as [k |] eqn:Hid; [| done].
  destruct (List.find _ (media db)) as [gone |] eqn:Hfind; [| done].
  apply find_found in Hfind as [Hin Hk]. apply N.eqb_eq in Hk.
  intros [= <-]. rewrite Hk. exists k. split; [done |].
  split; [by exists gone |]. split; [done |]. cbn [media properties].
  assert (Hrows : forall m, m ∈ filter (fun m => media_id m ≠ k) (media db)
                            <-> m ∈ media db /\ media_id m <> k).
  { intros m. rewrite list_elem_of_filter. tauto. }
  split; [exact Hrows |]. split; [| split].
  - intros pid. unfold PropertyController.get_property_by_id.
    destruct (UUID pid) as [p |]; [| done]. cbn [properties].
    destruct (properties db !! p) as [row |]; [| done].
    unfold PropertyController.media_of. cbn [media]. by rewrite filter_swap.
  - unfold attached. cbn [media properties]. rewrite !Forall_forall.
    intros Hall m Hm. apply Hall. by apply Hrows in Hm as [? _].
  - rewrite find_absent; [done |]. apply Forall_forall.
    intros m Hm. apply Hrows in Hm as [_ Hm]. by apply N.eqb_neq.
Qed.

(** X18.  Deleting a property keeps the media table attached: with the cascade
    no media row is left behind for the property; the media of the other
    properties are the rows left, in their order; and the property cannot
    be deleted a second time (404, nothing written). *)
Theorem delete_property_leaves_no_orphans (id : string) (db db' : PropertyDB) :
  PropertyController.delete_property UUID id db = (PropertyController.Deleted, db') ->
  exists k,
    UUID id = Some k
    /\ (forall m, m ∈ media db' <-> m ∈ media db /\ property m <> k)
    /\ (attached db -> attached db')
    /\ PropertyController.delete_property UUID id db'
       = (PropertyController.HTTPException 404 "Property not found", db').
Proof.
  unfold PropertyController.delete_property.
  destruct (UUID id) as [k |] eqn:Hid; [| done].
  destruct (properties db !! k) as [row |] eqn:Hrow; [| done].
  intros [= <-]. exists k. split; [done |]. cbn [media properties].
  assert (Hrows : forall m, m ∈ filter (fun m => property m ≠ k) (media db)
                            <-> m ∈ media db /\ property m <> k).
  { intros m. rewrite list_elem_of_filter. tauto. }
  split; [exact Hrows |]. split.
  - unfold attached. cbn [media properties]. rewrite !Forall_forall.
    intros Hall m Hm. apply Hrows in Hm as [Hm Hother].
    rewrite lookup_delete_ne by done. by apply Hall.
  - by rewrite lookup_delete_eq.
Qed.

End MediaFurther.

Section MediaSamples.

Import PropertyMediaController.

Lemma delete_property_media_removes_witness :
  exists db',
    delete_property_media SampleTables.sample_uuid SampleTables.cover_id
      SampleListings.listings = (MediaDeleted, db')
    /\ media db' = [SampleListings.villa_photo]
    /\ delete_property_media SampleTables.sample_uuid SampleTables.cover_id db'
       = (HTTPException 404 "Property media not found", db').
Proof.
  eexists. split; [reflexivity |]. split; [reflexivity |].
  destruct (delete_property_media_removes SampleTables.sample_uuid SampleTables.cover_id
              SampleListings.listings _ eq_refl) as (k & _ & _ & _ & _ & _ & _ & Hagain).
  exact Hagain.
Defined.

Lemma delete_property_leaves_no_orphans_witness :
  exists db',
    PropertyController.delete_property SampleListings.sample_uuid SampleListings.flat_id
      SampleListings.listings = (PropertyController.Deleted, db')
    /\ (attached SampleListings.listings -> attached db')
    /\ PropertyController.delete_property SampleListings.sample_uuid
         SampleListings.flat_id db'
       = (PropertyController.HTTPException 404 "Property not found", db').
Proof.
  eexists. split; [reflexivity |].
  destruct (delete_property_leaves_no_orphans SampleListings.sample_uuid
              SampleListings.flat_id SampleListings.listings _ eq_refl)
    as (k & _ & _ & Hkept & Hagain).
  split; [exact Hkept | exact Hagain].
Defined.

End MediaSamples.

(** ** The standard flow and the satisfaction question *)

Section ClosingFurther.

Import MainChatbotController ConversationController.

Lemma save_message_other (m : ChatbotMessage) (db : ChatDB) :
  Forall (fun r => msg_id r <> msg_id m) (messages db) ->
  messages (Orm.save_message m db) = messages db.
Proof.
  unfold Orm.save_message. cbn [messages]. intros Hall.
  induction Hall as [| r l Hr _ IH]; [done |]. cbn [map].
  rewrite (proj2 (N.eqb_neq _ _) Hr). by rewrite IH.
Qed.

(** X19.  The satisfaction question and its answer.  For a conversation
    whose columns are within their lengths and whose messages are filed
    at steps up to its current step, and a message id that is new: the
    question is filed one step on, and the answer given at the
    satisfaction endpoint (the fixed text, with the feedback after a
    dash when there is one) is written into that message; no other
    message changes, and the session is left closed at that step, its
    columns within their lengths. *)
Theorem satisfaction_answer_is_filed
    (env env' : Env) (c : ChatbotConversation) (db : ChatDB)
    (satisfied : bool) (feedback : option string) (filed : list ChatbotEscalation) :
  columns_fit c = true ->
  Forall (fun r => conversation r = conv_id c -> step_number r <= current_step c)
         (messages db) ->
  Forall (fun r => msg_id r <> fresh_id env) (messages db) ->
  let r1 := handle_satisfaction_question env c db in
  let r := handle_satisfaction_response env' (session_id c) satisfied feedback
             {| chat := r1.2; escalations := filed |} in
  messages (chat r.2)
  = (messages db ++
     [ {| msg_id := fresh_id env; conversation := conv_id c;
          step_number := current_step c + 1;
          question_text := satisfaction_question;
          user_response := Some (satisfaction_text satisfied feedback);
          response_time_seconds := None; created_at := now env;
          responded_at := Some (now env') |} ])%list
  /\ exists c',
       conversations (chat r.2) !! session_id c = Some c'
       /\ current_step c' = current_step c + 1
       /\ status c' = (if satisfied then COMPLETED else ESCALATED)
       /\ columns_fit c' = true.
Proof.
  intros Hfit Hsteps Hfresh r1 r.
  set (new := {| msg_id := fresh_id env; conversation := conv_id c;
                 step_number := current_step c + 1;
                 question_text := satisfaction_question; user_response := None;
                 response_time_seconds := None; created_at := now env;
                 responded_at := None |}).
  set (c1 := Orm.touch env (set_current_step (current_step c + 1) c)).
  set (c2 := Orm.touch env' (set_satisfaction env' satisfied c1)).
  set (saved := {| conversations :=
                     <[session_id c := c2]>
                       (<[session_id c := c1]> (conversations db));
                   messages := (messages db ++ [new])%list |}).
  assert (Hlast : Orm.last_message saved c2 = Some new).
  { apply (last_message_appended _ _ _ (messages db)); [reflexivity | reflexivity |].
    eapply Forall_impl; [exact Hsteps |]. intros r0 Hr0 Hid. cbn [step_number new].
    specialize (Hr0 Hid). lia. }
  assert (Hr : chat r.2
               = Orm.save_message (answer env' (satisfaction_text satisfied feedback) new)
                   saved).
  { subst r r1. unfold handle_satisfaction_response, handle_satisfaction_question.
    unfold Orm.get_conversation, Orm.save_conversation, Orm.create_message.
    cbn [fst snd chat conversations messages session_id set_current_step Orm.touch].
    rewrite lookup_insert_eq.
    transitivity
      (match Orm.last_message saved c2 with
       | Some last_message =>
           Orm.save_message
             (answer env' (satisfaction_text satisfied feedback) last_message) saved
       | None => saved
       end); [reflexivity | by rewrite Hlast]. }
  rewrite Hr. split.
  - unfold Orm.save_message. cbn [messages saved]. rewrite map_app.
    pose proof (save_message_other
                  (answer env' (satisfaction_text satisfied feedback) new)
                  {| conversations := conversations db; messages := messages db |})
      as Hkept.
    unfold Orm.save_message in Hkept. cbn [messages] in Hkept.
    rewrite Hkept by exact Hfresh. cbn [map msg_id answer new].
    by rewrite N.eqb_refl.
  - exists c2. split; [cbn; by rewrite lookup_insert_eq |]. split; [reflexivity |].
    split; [cbn; by destruct satisfied |]. exact Hfit.
Qed.

Lemma satisfaction_answer_is_filed_witness :
  let r1 := handle_satisfaction_question Sample.env Sample.fresh_conversation
              Sample.fresh_db in
  let r := handle_satisfaction_response (Sample.at_tick 1) "s-1" false
             (Some "Nobody called me back") {| chat := r1.2; escalations := [] |} in
  (question_text <$> messages (chat r.2))
  = [ "Hi! I'm your property assistant. How can I help you today?";
      "Are you satisfied with the assistance provided?" ]
  /\ (user_response <$> messages (chat r.2))
     = [ None; Some "No, I need more help - Nobody called me back" ].
Proof.
  intros r1 r.
  assert (Hsteps : Forall (fun r0 => conversation r0 = conv_id Sample.fresh_conversation
                                     -> step_number r0
                                        <= current_step Sample.fresh_conversation)
                          (messages Sample.fresh_db)).
  { constructor; [intros _; simpl; lia | constructor]. }
  assert (Hfresh : Forall (fun r0 => msg_id r0 <> fresh_id Sample.env)
                          (messages Sample.fresh_db)).
  { constructor; [discriminate | constructor]. }
  pose proof (satisfaction_answer_is_filed Sample.env (Sample.at_tick 1)
                Sample.fresh_conversation Sample.fresh_db false
                (Some "Nobody called me back") [] eq_refl Hsteps Hfresh) as [Hfiled _].
  cbv zeta in Hfiled. split.
  - exact (f_equal (fmap question_text) Hfiled).
  - exact (f_equal (fmap user_response) Hfiled).
Defined.

(** X20.  A response to a question that is already answered is not recorded.
    When the latest message of an active conversation has an answer (or
    the conversation has no message), the request changes no message and
    files at most one new, unanswered one: the next question of the flow
    at the current step, or the satisfaction question when the flow has
    none left. *)
Theorem answered_question_drops_response
    (env : Env) (sid response : string) (db : ChatDB) (c : ChatbotConversation) :
  conversations db !! sid = Some c ->
  status c = ACTIVE ->
  match Orm.last_message db c with
  | Some m => Py.truthy_str (user_response m) = true
  | None => True
  end ->
  exists o db',
    StandardFlow.respond env sid response db = Some (o, db')
    /\ match o with
       | StandardFlow.HTTPException _ _ => db' = db /\ current_step c < 0
       | StandardFlow.NextQuestion c' q =>
           next_question_of (flow_type c) (current_step c) = Py.Returns (Some q)
           /\ current_step c' = current_step c + 1
           /\ exists new,
               messages db' = (messages db ++ [new])%list
               /\ question_text new = ChatbotFlowEngine.q_question q
               /\ step_number new = current_step c + 1
               /\ user_response new = None
       | StandardFlow.SatisfactionQuestion c' =>
           next_question_of (flow_type c) (current_step c) = Py.Returns None
           /\ current_step c' = current_step c + 1
           /\ exists new,
               messages db' = (messages db ++ [new])%list
               /\ question_text new = satisfaction_question
               /\ step_number new = current_step c + 1
               /\ user_response new = None
       end.
Proof.
  intros Hc Hactive Hanswered.
  assert (Hhandled : exists m, handle_chat_response env sid response db
                               = (Handled StandardFlow c m, db)).
  { unfold handle_chat_response, Orm.get_conversation.
    rewrite Hc, bool_decide_eq_true_2 by done. cbn [negb].
    destruct (Orm.last_message db c) as [m |]; [| by eexists].
    rewrite Hanswered. by eexists. }
  destruct Hhandled as [m Hhandled].
  unfold StandardFlow.respond. rewrite Hhandled.
  unfold StandardFlow._handle_standard_flow.
  destruct (next_question_of (flow_type c) (current_step c)) as [[q |] | e] eqn:Hq.
  - do 2 eexists. split; [reflexivity |]. cbn. split; [done |]. split; [done |].
    eexists. split; [reflexivity |]. by repeat split.
  - do 2 eexists. split; [reflexivity |]. cbn. split; [done |]. split; [done |].
    eexists. split; [reflexivity |]. by repeat split.
  - do 2 eexists. split; [reflexivity |]. split; [done |].
    unfold next_question_of in Hq. destruct (flow_type c) as [f |]; [| done].
    unfold ChatbotFlowEngine.get_next_question in Hq.
    destruct (ChatbotFlowEngine.FLOWS !! flow_value f) as [flow |]; [| done].
    destruct (Z.leb_spec (Z.of_nat (length flow)) (current_step c)); [done |].
    destruct (Z.lt_ge_cases (current_step c) 0) as [? | Hpos]; [done |].
    destruct (index_in_range flow (current_step c)) as (x & _ & Hx); [lia |].
    rewrite Hx in Hq. done.
Qed.

Lemma answered_question_drops_response_witness :
  exists o db',
    StandardFlow.respond Sample.env "s-1" "Hello again"
      {| conversations := conversations Sample.fresh_db;
         messages := [answer Sample.env "Hello" Sample.opening_message] |}
    = Some (o, db')
    /\ (user_response <$> messages db') = [Some "Hello"; None].
Proof.
  destruct (answered_question_drops_response Sample.env "s-1" "Hello again"
              {| conversations := conversations Sample.fresh_db;
                 messages := [answer Sample.env "Hello" Sample.opening_message] |}
              Sample.fresh_conversation eq_refl eq_refl eq_refl)
    as (o & db' & Hdone & _).
  exists o, db'. split; [exact Hdone |].
  injection Hdone as <- <-. reflexivity.
Defined.

End ClosingFurther.

(** ** The bug report, request by request *)

Section BugReportFurther.

Import ChatbotFlowEngine MainChatbotController ChatbotBugReportController BugReportSession.

#[local] Arguments String.append : simpl nomatch.

(** What [handle_chat_response] hands to the flow controller of a
    conversation that is ready and has its flow: the conversation as it
    is and the message just answered; only messages were written, and
    the conversation's messages stay at steps up to the current one. *)
Lemma hands_over (env : Env) (response : string) (db : ChatDB)
      (c : ChatbotConversation) (q : string) (f : ChatbotFlowType) :
  ready db c q -> flow_type c = Some f ->
  exists m db1,
    handle_chat_response env (session_id c) response db
    = (Handled (route_of (Some f)) c (Some m), db1)
    /\ question_text m = q
    /\ conversations db1 = conversations db
    /\ Forall (fun r => conversation r = conv_id c -> step_number r <= current_step c)
              (messages db1).
Proof.
  intros (Hc & Hactive & m & Hlast & Hm & Hq & Hun) Hflow.
  pose proof (fold_later_bound _ _ _ _ Hlast) as [_ Hbound].
  do 2 eexists. split; [| split; [| split]].
  - unfold handle_chat_response, Orm.get_conversation.
    rewrite Hc, bool_decide_eq_true_2 by done. cbn [negb]. rewrite Hlast, Hun. cbn [negb].
    rewrite Hflow. replace (bool_decide (is_Some (Some f))) with true
      by (symmetry; by apply bool_decide_eq_true_2).
    rewrite andb_false_r. rewrite Hflow. reflexivity.
  - exact Hq.
  - reflexivity.
  - apply save_message_Forall; [apply save_message_Forall |].
    + eapply Forall_impl; [exact Hbound |]. intros r Hr Hid. specialize (Hr Hid). lia.
    + intros _. exact Hm.
    + intros _. exact Hm.
Qed.

(** The same for the first response, which sets the flow. *)
Lemma hands_over_first (env : Env) (response : string) (db : ChatDB)
      (c : ChatbotConversation) (q : string) :
  ready db c q -> flow_type c = None -> current_step c = 0 ->
  let f := determine_flow_from_response response in
  let c1 := Orm.touch env (set_flow_type (Some f) c) in
  exists m db1,
    handle_chat_response env (session_id c) response db
    = (Handled (route_of (Some f)) c1 (Some m), db1)
    /\ question_text m = q
    /\ conversations db1 = <[session_id c := c1]> (conversations db)
    /\ Forall (fun r => conversation r = conv_id c -> step_number r <= current_step c)
              (messages db1).
Proof.
  intros (Hc & Hactive & m & Hlast & Hm & Hq & Hun) Hflow Hstep f c1.
  pose proof (fold_later_bound _ _ _ _ Hlast) as [_ Hbound].
  do 2 eexists. split; [| split; [| split]].
  - unfold handle_chat_response, Orm.get_conversation.
    rewrite Hc, bool_decide_eq_true_2 by done. cbn [negb]. rewrite Hlast, Hun. cbn [negb].
    rewrite Hflow, Hstep.
    replace (bool_decide (is_Some (@None ChatbotFlowType))) with false
      by (symmetry; apply bool_decide_eq_false_2; by intros [? ?]).
    cbn [Z.eqb negb andb]. unfold Orm.save_conversation.
    cbn [session_id set_flow_type flow_type Orm.touch]. reflexivity.
  - exact Hq.
  - reflexivity.
  - cbn [messages]. apply save_message_Forall; [apply save_message_Forall |].
    + eapply Forall_impl; [exact Hbound |]. intros r Hr Hid. specialize (Hr Hid). lia.
    + intros _. exact Hm.
    + intros _. exact Hm.
Qed.

(** Asking leaves the session ready for the answer. *)
Lemma ask_next_ready (env : Env) (c : ChatbotConversation) (q : string) (db : ChatDB) :
  status c = ACTIVE ->
  Forall (fun r => conversation r = conv_id c -> step_number r <= current_step c)
         (messages db) ->
  let c' := Orm.touch env (set_current_step (current_step c + 1) c) in
  (ask_next env c q db).1 = Asked c' q
  /\ ready (ask_next env c q db).2 c' q.
Proof.
  intros Hactive Hbound c'. split; [reflexivity |].
  unfold ask_next, Orm.save_conversation, Orm.create_message.
  cbn [fst snd session_id set_current_step conversations messages].
  split; [cbn; by rewrite lookup_insert_eq |]. split; [exact Hactive |].
  exists {| msg_id := fresh_id env; conversation := conv_id c;
            step_number := current_step c + 1; question_text := q;
            user_response := None; response_time_seconds := None;
            created_at := now env; responded_at := None |}.
  split; [| split; [cbn; lia | split; reflexivity]].
  apply (last_message_appended _ _ _ (messages db)); [reflexivity | reflexivity |].
  eapply Forall_impl; [exact Hbound |]. intros r Hr Hid. cbn. specialize (Hr Hid). lia.
Qed.

(** *** Which handler answers which question *)

Lemma dispatch_start (env : Env) (c : ChatbotConversation) (m : ChatbotMessage)
      (response : string) (db : ChatDB) :
  current_step c = 0 ->
  handle_response env c m response db = _start_bug_report_flow env c db.
Proof. intros Hstep. unfold handle_response. rewrite Hstep. by rewrite orb_true_r. Qed.

Ltac dispatch_on Hq Hstep :=
  unfold handle_response; rewrite Hq;
  match goal with
  | |- context [current_step ?c =? 0] =>
      destruct (Z.eqb_spec (current_step c) 0) as [? | _]; [done |]
  end;
  reflexivity.

Lemma dispatch_issue_type (env : Env) (c : ChatbotConversation) (m : ChatbotMessage)
      (response : string) (db : ChatDB) :
  question_text m = issue_type_question -> current_step c <> 0 ->
  handle_response env c m response db = _handle_issue_type_selection env c response db.
Proof. intros Hq Hstep. dispatch_on Hq Hstep. Qed.

Lemma dispatch_details (env : Env) (c : ChatbotConversation) (m : ChatbotMessage)
      (response : string) (db : ChatDB) :
  question_text m = describe_question \/ question_text m = search_issue_question ->
  current_step c <> 0 ->
  handle_response env c m response db = _handle_issue_details env c response db.
Proof. intros [Hq | Hq] Hstep; dispatch_on Hq Hstep. Qed.

(** The third details question is none of the texts the dispatch knows. *)
Lemma dispatch_more_details (env : Env) (c : ChatbotConversation) (m : ChatbotMessage)
      (response : string) (db : ChatDB) :
  question_text m = more_details_question -> current_step c <> 0 ->
  handle_response env c m response db = _handle_default_flow env c db.
Proof. intros Hq Hstep. dispatch_on Hq Hstep. Qed.

Lemma dispatch_device (env : Env) (c : ChatbotConversation) (m : ChatbotMessage)
      (response : string) (db : ChatDB) :
  question_text m = device_question -> current_step c <> 0 ->
  handle_response env c m response db = _handle_technical_details env c response db.
Proof. intros Hq Hstep. dispatch_on Hq Hstep. Qed.

Lemma dispatch_urgency (env : Env) (c : ChatbotConversation) (m : ChatbotMessage)
      (response : string) (db : ChatDB) :
  question_text m = urgency_question -> current_step c <> 0 ->
  handle_response env c m response db = _handle_urgency_selection env c response db.
Proof. intros Hq Hstep. dispatch_on Hq Hstep. Qed.

Lemma dispatch_contact (env : Env) (c : ChatbotConversation) (m : ChatbotMessage)
      (response : string) (db : ChatDB) :
  question_text m = contact_question -> current_step c <> 0 ->
  handle_response env c m response db = _handle_contact_info env c response db.
Proof. intros Hq Hstep. dispatch_on Hq Hstep. Qed.

(** *** One request *)

(** A request whose handler stores [g] and asks [q']. *)
Lemma asking_turn (env : Env) (response : string) (db : ChatDB)
      (c : ChatbotConversation) (q q' : string) (g : option string) :
  ready db c q -> flow_type c = Some BUG_REPORT ->
  (forall m db1, question_text m = q ->
                 handle_response env c m response db1
                 = ask_next env (set_guest_email g c) q' db1) ->
  exists c' db',
    respond env (session_id c) response db = Some (Asked c' q', db')
    /\ ready db' c' q'
    /\ session_id c' = session_id c
    /\ flow_type c' = Some BUG_REPORT
    /\ current_step c' = current_step c + 1
    /\ guest_email c' = g.
Proof.
  intros Hready Hflow Hhandler.
  destruct (hands_over env response db c q BUG_REPORT Hready Hflow)
    as (m & db1 & Hhanded & Hq & _ & Hbound).
  destruct (ask_next_ready env (set_guest_email g c) q' db1) as [Hasked Hready'].
  { by destruct Hready as (_ & ? & _). }
  { exact Hbound. }
  do 2 eexists. split; [| split; [exact Hready' |]].
  - unfold respond. rewrite Hhanded. cbn [route_of]. rewrite (Hhandler m db1 Hq).
    rewrite <- Hasked. by destruct (ask_next _ _ _ _).
  - by repeat split.
Qed.

(** The first request: the flow is set and the type question asked. *)
Lemma first_turn (env : Env) (response : string) (db : ChatDB)
      (c : ChatbotConversation) (q : string) :
  ready db c q -> flow_type c = None -> current_step c = 0 ->
  determine_flow_from_response response = BUG_REPORT ->
  exists c' db',
    respond env (session_id c) response db = Some (Asked c' issue_type_question, db')
    /\ ready db' c' issue_type_question
    /\ session_id c' = session_id c
    /\ flow_type c' = Some BUG_REPORT
    /\ current_step c' = 1
    /\ guest_email c' = guest_email c.
Proof.
  intros Hready Hflow Hstep Hbug.
  destruct (hands_over_first env response db c q Hready Hflow Hstep)
    as (m & db1 & Hhanded & Hq & _ & Hbound).
  rewrite Hbug in Hhanded.
  set (c1 := Orm.touch env (set_flow_type (Some BUG_REPORT) c)) in *.
  destruct (ask_next_ready env c1 issue_type_question db1) as [Hasked Hready'].
  { by destruct Hready as (_ & ? & _). }
  { exact Hbound. }
  do 2 eexists. split; [| split; [exact Hready' |]].
  - unfold respond. rewrite Hhanded. cbn [route_of].
    rewrite dispatch_start by exact Hstep. unfold _start_bug_report_flow.
    rewrite <- Hasked. by destruct (ask_next _ _ _ _).
  - cbn. rewrite Hstep. by repeat split.
Qed.

(** *** Reading the report back *)

Lemma split_report (ty det urg : string) (tech : option string) :
  Py.lacks "|" ty -> Py.lacks "|" det -> Py.lacks "|" (default EmptyString tech) ->
  Py.lacks "|" urg ->
  Py.split (serialize ty det tech urg) "|"
  = ([ "ISSUE_TYPE:" +:+ ty; "DETAILS:" +:+ det ]
     ++ match tech with
        | Some t => [ "TECH:" +:+ t ]
        | None => []
        end
     ++ [ "URGENCY:" +:+ urg ])%list.
Proof.
  intros Hty Hdet Htech Hurg. unfold Py.split, serialize.
  change ("|DETAILS:" ++ det ++ ?t) with (String "|" ("DETAILS:" ++ det ++ t)).
  rewrite split_head by done.
  destruct tech as [tech |]; simpl default in Htech.
  - rewrite append_assoc.
    change ("|TECH:" ++ tech ++ ?t) with (String "|" ("TECH:" ++ tech ++ t)).
    rewrite split_head by done.
    change ("|URGENCY:" ++ urg) with (String "|" ("URGENCY:" ++ urg)).
    rewrite split_head by done.
    by rewrite split_last.
  - change (EmptyString ++ "|URGENCY:" ++ urg) with (String "|" ("URGENCY:" ++ urg)).
    rewrite split_head by done.
    by rewrite split_last.
Qed.

Ltac read_label :=
  unfold parse_part, Py.startswith;
  repeat match goal with
         | |- context [String.prefix ?k (?k ++ ?s)] => rewrite (prefix_append k s)
         | |- context [String.prefix ?k (?k' ++ ?s)] =>
             change (String.prefix k (k' ++ s)) with false
         end;
  cbv iota;
  by rewrite replace_prefix.

Lemma parse_part_issue_type (p : Parsed) (s : string) :
  parse_part p ("ISSUE_TYPE:" ++ s)
  = {| issue_type := Py.replace s "ISSUE_TYPE:" EmptyString;
       issue_details := issue_details p; technical_info := technical_info p;
       urgency := urgency p |}.
Proof. read_label. Qed.

Lemma parse_part_issue_details (p : Parsed) (s : string) :
  parse_part p ("DETAILS:" ++ s)
  = {| issue_type := issue_type p;
       issue_details := Py.replace s "DETAILS:" EmptyString;
       technical_info := technical_info p; urgency := urgency p |}.
Proof. read_label. Qed.

Lemma parse_part_tech (p : Parsed) (s : string) :
  parse_part p ("TECH:" ++ s)
  = {| issue_type := issue_type p; issue_details := issue_details p;
       technical_info := Py.replace s "TECH:" EmptyString; urgency := urgency p |}.
Proof. read_label. Qed.

Lemma parse_part_urgency (p : Parsed) (s : string) :
  parse_part p ("URGENCY:" ++ s)
  = {| issue_type := issue_type p; issue_details := issue_details p;
       technical_info := technical_info p;
       urgency := Py.replace s "URGENCY:" EmptyString |}.
Proof. read_label. Qed.

(** What [_handle_contact_info] reads from the stored text of a report
    whose answers hold no bar and not their own label: the answers. *)
Lemma parse_report (ty det urg : string) (tech : option string) :
  Py.lacks "|" ty -> Py.lacks "|" det -> Py.lacks "|" (default EmptyString tech) ->
  Py.lacks "|" urg ->
  Py.contains "ISSUE_TYPE:" ty = false -> Py.contains "DETAILS:" det = false ->
  Py.contains "TECH:" (default EmptyString tech) = false ->
  Py.contains "URGENCY:" urg = false ->
  parse_stored (serialize ty det tech urg)
  = {| issue_type := ty; issue_details := det;
       technical_info := default EmptyString tech; urgency := urg |}.
Proof.
  intros Hty Hdet Htech Hurg Lty Ldet Ltech Lurg. unfold parse_stored.
  rewrite split_report by done.
  destruct tech as [tech |]; cbn [app fold_left default] in *.
  - rewrite parse_part_issue_type, parse_part_issue_details, parse_part_tech,
      parse_part_urgency.
    unfold Py.replace. by rewrite !replace_scan_absent.
  - rewrite parse_part_issue_type, parse_part_issue_details, parse_part_urgency.
    unfold Py.replace. by rewrite !replace_scan_absent.
Qed.

(** The last request: the email closes the report. *)
Lemma contact_turn (env : Env) (email : string) (db : ChatDB) (c : ChatbotConversation) :
  ready db c contact_question -> flow_type c = Some BUG_REPORT -> current_step c <> 0 ->
  exists db1,
    respond env (session_id c) email db = Some (_handle_contact_info env c email db1)
    /\ conversations db1 = conversations db.
Proof.
  intros Hready Hflow Hstep.
  destruct (hands_over env email db c contact_question BUG_REPORT Hready Hflow)
    as (m & db1 & Hhanded & Hq & Hsame & _).
  exists db1. split; [| exact Hsame].
  unfold respond. rewrite Hhanded. cbn [route_of].
  by rewrite dispatch_contact.
Qed.

(** What the details handler does after a stored issue type. *)
Lemma details_handler (env : Env) (c : ChatbotConversation) (ty det : string)
      (db : ChatDB) :
  guest_email c = Some ("ISSUE_TYPE:" ++ ty) ->
  Py.contains "ISSUE_TYPE:" ty = false ->
  _handle_issue_details env c det db
  = ask_next env (set_guest_email (Some (("ISSUE_TYPE:" ++ ty) ++ "|DETAILS:" ++ det)) c)
      (if technical ty then device_question else urgency_question) db.
Proof.
  intros Hmail Hty. unfold _handle_issue_details, stored_data. rewrite Hmail.
  assert (Hin : Py.contains "ISSUE_TYPE:" ("ISSUE_TYPE:" ++ ty) = true).
  { pose proof (contains_at "ISSUE_TYPE:" EmptyString ty) as Hat. exact Hat. }
  rewrite Hin. rewrite replace_prefix_absent by exact Hty.
  unfold _ask_urgency. by destruct (technical ty).
Qed.

Lemma converse_cons (env : Env) (response : string) (rest : list (Env * string))
      (sid : string) (db db' : ChatDB) (o : Outcome) :
  respond env sid response db = Some (o, db') ->
  converse ((env, response) :: rest) sid db
  = (o :: (converse rest sid db').1, (converse rest sid db').2).
Proof. intros Hr. cbn [converse]. rewrite Hr. by destruct (converse rest sid db'). Qed.

(** The end of a report: the urgency and the email. *)
Lemma report_tail (e4 e5 : Env) (urg email stored : string) (db : ChatDB)
      (c : ChatbotConversation) :
  ready db c urgency_question -> flow_type c = Some BUG_REPORT -> 0 < current_step c ->
  guest_email c = Some stored ->
  let p := parse_stored (stored ++ "|URGENCY:" ++ urg) in
  exists c5 c' db',
    converse [(e4, urg); (e5, email)] (session_id c) db
    = ([ Asked c5 contact_question;
         Submitted c'
           {| br_issue_type := issue_type p; br_issue_details := issue_details p;
              br_technical_info :=
                if Py.truthy_str (Some (technical_info p)) then technical_info p
                else "Not applicable";
              br_urgency := urgency p; br_reporter_email := email;
              br_session_id := session_id c |} ], db')
    /\ conversations db' !! session_id c = Some c'
    /\ status c' = COMPLETED
    /\ guest_name c' = Some email
    /\ guest_email c' = Some (stored ++ "|URGENCY:" ++ urg).
Proof.
  intros Hready Hflow Hstep Hmail p.
  destruct (asking_turn e4 urg db c urgency_question contact_question
              (Some (stored ++ "|URGENCY:" ++ urg)) Hready Hflow)
    as (c5 & db5 & R4 & Hready5 & Hsid5 & Hflow5 & Hstep5 & Hmail5).
  { intros m dbm Hq. rewrite dispatch_urgency by (done || lia).
    unfold _handle_urgency_selection, stored_data. by rewrite Hmail. }
  destruct (contact_turn e5 email db5 c5 Hready5 Hflow5) as (db6 & R5 & Hsame);
    [lia |].
  rewrite Hsid5 in R5.
  unfold _handle_contact_info, stored_data, Orm.save_conversation in R5.
  rewrite Hmail5 in R5. fold p in R5.
  cbn [session_id set_completed Orm.touch] in R5. rewrite Hsid5 in R5.
  do 3 eexists. split; [| split; [| split; [| split]]].
  - rewrite (converse_cons _ _ _ _ _ _ _ R4), (converse_cons _ _ _ _ _ _ _ R5).
    reflexivity.
  - cbn. by rewrite lookup_insert_eq.
  - reflexivity.
  - reflexivity.
  - cbn. exact Hmail5.
Qed.

(** X21.  A bug report from the opening question to the submitted report.  For
    a first response that selects the bug report, an issue type among
    those offered (in any casing) and answers that hold no bar and not
    their own label and fit the columns: the requests are met with the
    type question, the details question of the type, the device question
    (for the three technical types only), the urgency question and the
    email question, and the last request submits the report with every
    answer as it was given; the conversation is left completed, with the
    email in [guest_name] and the answers in [guest_email]. *)
Theorem bug_report_is_submitted
    (e0 e1 e2 e3 e4 e5 : Env) (opening ty det tech urg email q0 : string)
    (db : ChatDB) (c : ChatbotConversation) :
  ready db c q0 -> flow_type c = None -> current_step c = 0 ->
  determine_flow_from_response opening = BUG_REPORT ->
  offered ty ->
  Py.lacks "|" ty -> Py.lacks "|" det -> Py.lacks "|" tech -> Py.lacks "|" urg ->
  Py.contains "ISSUE_TYPE:" ty = false -> Py.contains "DETAILS:" det = false ->
  Py.contains "TECH:" tech = false -> Py.contains "URGENCY:" urg = false ->
  let device := if technical ty then Some tech else None in
  PyText.fits 255 (Some (serialize ty det device urg)) = true ->
  PyText.fits 255 (Some email) = true ->
  let turns := ([(e0, opening); (e1, ty); (e2, det)]
                ++ (if technical ty then [(e3, tech)] else [])
                ++ [(e4, urg); (e5, email)])%list in
  let r := converse turns (session_id c) db in
  exists c',
    asked <$> r.1
    = ([Some issue_type_question; Some (details_question ty)]
       ++ (if technical ty then [Some device_question] else [])
       ++ [Some urgency_question; Some contact_question; None])%list
    /\ last r.1
       = Some (Submitted c'
                 {| br_issue_type := ty; br_issue_details := det;
                    br_technical_info :=
                      match device with
                      | Some (String a t) => String a t
                      | _ => "Not applicable"
                      end;
                    br_urgency := urg; br_reporter_email := email;
                    br_session_id := session_id c |})
    /\ conversations r.2 !! session_id c = Some c'
    /\ status c' = COMPLETED
    /\ guest_name c' = Some email
    /\ guest_email c' = Some (serialize ty det device urg).
Proof.
  intros Hready Hflow Hstep Hbug Hoffered Bty Bdet Btech Burg Lty Ldet Ltech Lurg
         device _ _ turns r.
  destruct (first_turn e0 opening db c q0 Hready Hflow Hstep Hbug)
    as (c1 & db1 & R0 & Hready1 & Hsid1 & Hflow1 & Hstep1 & _).
  destruct (asking_turn e1 ty db1 c1 issue_type_question (details_question ty)
              (Some ("ISSUE_TYPE:" ++ ty)) Hready1 Hflow1)
    as (c2 & db2 & R1 & Hready2 & Hsid2 & Hflow2 & Hstep2 & Hmail2).
  { intros m dbm Hq. rewrite dispatch_issue_type by (done || lia). reflexivity. }
  assert (Hasks : details_question ty = describe_question
                  \/ details_question ty = search_issue_question).
  { unfold details_question. destruct Hoffered as [-> | ->]; [by left |].
    destruct (technical ty); [by left | by right]. }
  destruct (asking_turn e2 det db2 c2 (details_question ty)
              (if technical ty then device_question else urgency_question)
              (Some (("ISSUE_TYPE:" ++ ty) ++ "|DETAILS:" ++ det)) Hready2 Hflow2)
    as (c3 & db3 & R2 & Hready3 & Hsid3 & Hflow3 & Hstep3 & Hmail3).
  { intros m dbm Hq. rewrite dispatch_details by (lia || (rewrite Hq; exact Hasks)).
    by apply details_handler. }
  rewrite Hsid1 in R1. rewrite Hsid2, Hsid1 in R2.
  assert (Hsid : session_id c3 = session_id c) by congruence.
  subst turns r. cbn [app].
  rewrite (converse_cons _ _ _ _ _ _ _ R0), (converse_cons _ _ _ _ _ _ _ R1),
    (converse_cons _ _ _ _ _ _ _ R2).
  subst device. destruct (technical ty) eqn:Htechnical.
  - destruct (asking_turn e3 tech db3 c3 device_question urgency_question
                (Some ((("ISSUE_TYPE:" ++ ty) ++ "|DETAILS:" ++ det) ++ "|TECH:" ++ tech))
                Hready3 Hflow3)
      as (c4 & db4 & R3 & Hready4 & Hsid4 & Hflow4 & Hstep4 & Hmail4).
    { intros m dbm Hq. rewrite dispatch_device by (done || lia).
      unfold _handle_technical_details, stored_data. by rewrite Hmail3. }
    rewrite Hsid in R3. cbn [app]. rewrite (converse_cons _ _ _ _ _ _ _ R3).
    destruct (report_tail e4 e5 urg email _ db4 c4 Hready4 Hflow4 ltac:(lia) Hmail4)
      as (c5 & c' & db' & Htail & Hrow & Hstatus & Hname & Hmail).
    rewrite Hsid4, Hsid in Htail, Hrow. rewrite Htail. cbn [fst snd].
    assert (Hstored : (((("ISSUE_TYPE:" ++ ty) ++ "|DETAILS:" ++ det) ++ "|TECH:" ++ tech)
                       ++ "|URGENCY:" ++ urg)
                      = serialize ty det (Some tech) urg).
    { unfold serialize. by rewrite !append_assoc. }
    rewrite Hstored in Htail, Hmail |- *.
    rewrite parse_report by done. cbn [issue_type issue_details technical_info urgency
                                       default].
    exists c'. split; [reflexivity |]. split; [| by repeat split].
    cbn [last]. by destruct tech.
  - destruct (report_tail e4 e5 urg email _ db3 c3 Hready3 Hflow3 ltac:(lia) Hmail3)
      as (c5 & c' & db' & Htail & Hrow & Hstatus & Hname & Hmail).
    rewrite Hsid in Htail, Hrow. cbn [app]. rewrite Htail. cbn [fst snd].
    assert (Hstored : ((("ISSUE_TYPE:" ++ ty) ++ "|DETAILS:" ++ det) ++ "|URGENCY:" ++ urg)
                      = serialize ty det None urg).
    { unfold serialize. by rewrite !append_assoc. }
    rewrite Hstored in Htail, Hmail |- *.
    rewrite parse_report by done. cbn [issue_type issue_details technical_info urgency
                                       default].
    exists c'. split; [reflexivity |]. split; [| by repeat split].
    reflexivity.
Qed.

Lemma bug_report_is_submitted_witness :
  let r := converse [ (Sample.at_tick 1, "Report an issue");
                      (Sample.at_tick 2, "Website bug");
                      (Sample.at_tick 3, "The map does not load");
                      (Sample.at_tick 4, "Chrome on Windows");
                      (Sample.at_tick 5, "High - Significant impact");
                      (Sample.at_tick 6, "ana@example.com") ] "s-1" Sample.fresh_db in
  ready Sample.fresh_db Sample.fresh_conversation
        "Hi! I'm your property assistant. How can I help you today?"
  /\ offered "Website bug"
  /\ exists c',
      last r.1
      = Some (Submitted c'
                {| br_issue_type := "Website bug";
                   br_issue_details := "The map does not load";
                   br_technical_info := "Chrome on Windows";
                   br_urgency := "High - Significant impact";
                   br_reporter_email := "ana@example.com";
                   br_session_id := "s-1" |})
      /\ status c' = COMPLETED.
Proof.
  intros r.
  assert (Hready : ready Sample.fresh_db Sample.fresh_conversation
                     "Hi! I'm your property assistant. How can I help you today?").
  { split; [reflexivity |]. split; [reflexivity |].
    exists Sample.opening_message. split; [reflexivity |].
    split; [simpl; lia | split; reflexivity]. }
  assert (Hoffered : offered "Website bug") by (left; reflexivity).
  destruct (bug_report_is_submitted
              (Sample.at_tick 1) (Sample.at_tick 2) (Sample.at_tick 3) (Sample.at_tick 4)
              (Sample.at_tick 5) (Sample.at_tick 6)
              "Report an issue" "Website bug" "The map does not load"
              "Chrome on Windows" "High - Significant impact" "ana@example.com"
              "Hi! I'm your property assistant. How can I help you today?"
              Sample.fresh_db Sample.fresh_conversation
              Hready eq_refl eq_refl eq_refl Hoffered
              eq_refl eq_refl eq_refl eq_refl eq_refl eq_refl eq_refl eq_refl
              eq_refl eq_refl)
    as (c' & _ & Hlast & _ & Hstatus & _).
  split; [exact Hready |]. split; [exact Hoffered |].
  exists c'. split; [exact Hlast | exact Hstatus].
Defined.

(** X22.  An issue type that is none of those offered loses its details: the
    type handler then asks for more details with a text that the
    dispatch does not know, so the answer to it is handed to the default
    flow: the stored text keeps the type only, and the visitor is asked
    the satisfaction question. *)
Theorem unlisted_issue_type_drops_details
    (e1 e2 : Env) (ty det : string) (db : ChatDB) (c : ChatbotConversation) :
  ready db c issue_type_question -> flow_type c = Some BUG_REPORT ->
  0 < current_step c ->
  technical ty = false -> Py.lower ty <> "property not found error" ->
  PyText.fits 255 (Some ("ISSUE_TYPE:" ++ ty)) = true ->
  let r := converse [(e1, ty); (e2, det)] (session_id c) db in
  exists c2 c3,
    r.1 = [Asked c2 more_details_question; SatisfactionQuestion c3]
    /\ guest_email c3 = Some ("ISSUE_TYPE:" ++ ty)
    /\ current_step c3 = current_step c + 2
    /\ ready r.2 c3 ConversationController.satisfaction_question.
Proof.
  intros Hready Hflow Hstep Htech Hother _ r.
  assert (Hq : details_question ty = more_details_question).
  { unfold details_question. rewrite Htech. by rewrite bool_decide_eq_false_2. }
  destruct (asking_turn e1 ty db c issue_type_question more_details_question
              (Some ("ISSUE_TYPE:" ++ ty)) Hready Hflow)
    as (c2 & db2 & R1 & Hready2 & Hsid2 & Hflow2 & Hstep2 & Hmail2).
  { intros m dbm Hm. rewrite dispatch_issue_type by (done || lia).
    unfold _handle_issue_type_selection. by rewrite Hq. }
  destruct (hands_over e2 det db2 c2 more_details_question BUG_REPORT Hready2 Hflow2)
    as (m & db3 & Hhanded & Hm & _ & Hbound).
  destruct (ask_next_ready e2 c2 ConversationController.satisfaction_question db3)
    as [_ Hready3]; [by destruct Hready2 as (_ & ? & _) | exact Hbound |].
  assert (R2 : respond e2 (session_id c) det db2
               = Some (SatisfactionQuestion
                         (Orm.touch e2 (set_current_step (current_step c2 + 1) c2)),
                       (ask_next e2 c2 ConversationController.satisfaction_question
                          db3).2)).
  { rewrite <- Hsid2. unfold respond. rewrite Hhanded. cbn [route_of].
    rewrite dispatch_more_details by (done || lia). reflexivity. }
  exists c2. eexists. subst r.
  rewrite (converse_cons _ _ _ _ _ _ _ R1), (converse_cons _ _ _ _ _ _ _ R2).
  cbn [converse fst snd]. split; [reflexivity |]. split; [exact Hmail2 |].
  split; [cbn; lia | exact Hready3].
Qed.

Lemma unlisted_issue_type_drops_details_witness :
  let c := Orm.touch Sample.env
             (set_current_step 1 (set_flow_type (Some BUG_REPORT)
                                    Sample.fresh_conversation)) in
  let db := {| conversations := {[ "s-1" := c ]};
               messages := [ answer Sample.env "Report an issue" Sample.opening_message;
                             {| msg_id := 11; conversation := 1; step_number := 1;
                                question_text := issue_type_question;
                                user_response := None; response_time_seconds := None;
                                created_at := 1700000000000000;
                                responded_at := None |} ] |} in
  let r := converse [ (Sample.at_tick 2, "The price is wrong");
                      (Sample.at_tick 3, "It shows 900 instead of 1900") ] "s-1" db in
  ready db c issue_type_question
  /\ exists c2 c3,
      r.1 = [Asked c2 more_details_question; SatisfactionQuestion c3]
      /\ guest_email c3 = Some "ISSUE_TYPE:The price is wrong".
Proof.
  intros c db r.
  assert (Hready : ready db c issue_type_question).
  { split; [reflexivity |]. split; [reflexivity |].
    eexists. split; [reflexivity |]. split; [simpl; lia | split; reflexivity]. }
  assert (Hother : Py.lower "The price is wrong" <> "property not found error")
    by discriminate.
  destruct (unlisted_issue_type_drops_details (Sample.at_tick 2) (Sample.at_tick 3)
              "The price is wrong" "It shows 900 instead of 1900" db c
              Hready eq_refl ltac:(simpl; lia) eq_refl Hother eq_refl)
    as (c2 & c3 & Hout & Hmail & _).
  split; [exact Hready |]. exists c2, c3. split; [exact Hout | exact Hmail].
Defined.

End BugReportFurther.

(** ** The summary of a property search *)

Section SummaryFurther.

Import SearchSummary.

(** The headings under which the summary files the opening question and
    the eight questions of the flow. *)
Lemma questions_headed :
  (fun q => display_name (Py.lower q)) <$> questions
  = [ None; Some "Property Type"; Some "City"; Some "Budget"; Some "Bedrooms";
      Some "Pets"; Some "Move-in Time"; Some "Amenities"; Some "Email" ].
Proof. vm_compute. reflexivity. Qed.

Lemma note_preference (s : Summary) (q a name : string) :
  display_name (Py.lower q) = Some name -> name <> "Email" ->
  note s (q, a)
  = {| preferences := <[name := a]> (preferences s); user_email := user_email s |}.
Proof.
  intros Hname Hother. unfold note. cbn [fst snd]. rewrite Hname.
  by rewrite bool_decide_eq_false_2.
Qed.

Lemma note_email (s : Summary) (q a : string) :
  display_name (Py.lower q) = Some "Email" ->
  note s (q, a) = {| preferences := preferences s; user_email := Some a |}.
Proof.
  intros Hname. unfold note. cbn [fst snd]. rewrite Hname.
  by rewrite bool_decide_eq_true_2.
Qed.

Lemma note_nothing (s : Summary) (q a : string) :
  display_name (Py.lower q) = None -> note s (q, a) = s.
Proof. intros Hname. unfold note. cbn [fst snd]. by rewrite Hname. Qed.

(** X23.  The summary knows every question of the property search.  For the
    messages of a complete search, whatever the answers: the seven
    preferences are filed under their headings, the answer to the email
    question is the email (and no preference), and the answer to the
    opening question is left out. *)
Theorem search_summary_reads_every_question
    (rows : list ChatbotMessage) (opening ty cty budget beds pets move amen email : string) :
  answered rows
  = zip questions [opening; ty; cty; budget; beds; pets; move; amen; email] ->
  summarize rows
  = {| preferences :=
         {[ "Property Type" := ty; "City" := cty; "Budget" := budget;
            "Bedrooms" := beds; "Pets" := pets; "Move-in Time" := move;
            "Amenities" := amen ]};
       user_email := Some email |}.
Proof.
  intros Hrows. unfold summarize. rewrite Hrows. clear Hrows.
  pose proof questions_headed as Hh.
  destruct questions
    as [| q0 [| q1 [| q2 [| q3 [| q4 [| q5 [| q6 [| q7 [| q8 [| ? ?]]]]]]]]]];
    try discriminate Hh.
  cbn [fmap list_fmap] in Hh.
  injection Hh as H0 H1 H2 H3 H4 H5 H6 H7 H8.
  cbn [zip zip_with fold_left].
  rewrite (note_nothing _ _ _ H0).
  rewrite (note_preference _ _ _ _ H1) by discriminate.
  rewrite (note_preference _ _ _ _ H2) by discriminate.
  rewrite (note_preference _ _ _ _ H3) by discriminate.
  rewrite (note_preference _ _ _ _ H4) by discriminate.
  rewrite (note_preference _ _ _ _ H5) by discriminate.
  rewrite (note_preference _ _ _ _ H6) by discriminate.
  rewrite (note_preference _ _ _ _ H7) by discriminate.
  rewrite (note_email _ _ _ H8).
  cbn [preferences user_email]. f_equal.
Qed.

Lemma search_summary_reads_every_question_witness :
  summarize SampleSearch.rows
  = {| preferences :=
         {[ "Property Type" := "Apartment"; "City" := "Pune"; "Budget" := "Under 10,000";
            "Bedrooms" := "2 BHK"; "Pets" := "No"; "Move-in Time" := "Within 1 month";
            "Amenities" := "Parking" ]};
       user_email := Some "tenant@example.com" |}.
Proof.
  exact (search_summary_reads_every_question SampleSearch.rows
           "Find a property to rent" "Apartment" "Pune" "Under 10,000" "2 BHK" "No"
           "Within 1 month" "Parking" "tenant@example.com" eq_refl).
Defined.

End SummaryFurther.

(** ** The details of a conversation *)

Section DetailsFurther.

Import ConversationDetails.

Lemma insert_by_step_perm (x : ChatbotMessage) (l : list ChatbotMessage) :
  insert_by_step x l ≡ₚ x :: l.
Proof.
  induction l as [| y r IH]; simpl; [done |].
  destruct (step_number x <=? step_number y); [done |].
  rewrite IH. apply Permutation_swap.
Qed.

Lemma sorted_by_step_perm (l : list ChatbotMessage) : sorted_by_step l ≡ₚ l.
Proof.
  unfold sorted_by_step. induction l as [| x l IH]; simpl; [done |].
  by rewrite insert_by_step_perm, IH.
Qed.

Lemma insert_by_step_sorted (x : ChatbotMessage) (l : list ChatbotMessage) :
  StronglySorted (fun a b => step_number a <= step_number b) l ->
  StronglySorted (fun a b => step_number a <= step_number b) (insert_by_step x l).
Proof.
  induction l as [| y r IH]; simpl; intros Hl.
  - by repeat constructor.
  - apply StronglySorted_cons in Hl as [Hy Hr].
    destruct (Z.leb_spec (step_number x) (step_number y)) as [Hle | Hgt].
    + apply StronglySorted_cons. split; [| by apply StronglySorted_cons].
      constructor; [done |].
      eapply Forall_impl; [exact Hy |]. intros z Hz. cbn in *. lia.
    + apply StronglySorted_cons. split; [| by apply IH].
      rewrite insert_by_step_perm. constructor; [lia | done].
Qed.

Lemma sorted_by_step_sorted (l : list ChatbotMessage) :
  StronglySorted (fun a b => step_number a <= step_number b) (sorted_by_step l).
Proof.
  unfold sorted_by_step. induction l as [| x l IH]; simpl; [constructor |].
  by apply insert_by_step_sorted.
Qed.

(** Messages at the same step keep their order: sorting a list that is
    in step order already changes nothing. *)
Lemma sorted_by_step_fixed (l : list ChatbotMessage) :
  StronglySorted (fun a b => step_number a <= step_number b) l ->
  sorted_by_step l = l.
Proof.
  unfold sorted_by_step. induction 1 as [| x l Hl IH Hx]; simpl; [done |].
  rewrite IH. destruct l as [| y r]; [done |]. simpl.
  apply Forall_inv in Hx. by destruct (Z.leb_spec (step_number x) (step_number y)); [| lia].
Qed.

Lemma filter_sorted {A} (R : relation A) (P : A -> Prop) `{!forall x, Decision (P x)}
      (l : list A) :
  StronglySorted R l -> StronglySorted R (filter P l).
Proof.
  induction 1 as [| x l Hl IH Hx]; [constructor |].
  rewrite filter_cons. destruct (decide (P x)); [| exact IH].
  constructor; [exact IH |]. rewrite Forall_forall in Hx |- *.
  intros y Hy%list_elem_of_filter. apply Hx, Hy.
Qed.

Variable get_or_none : string -> Py.result (option ChatbotConversation).

(** X24.  The details of a conversation list its messages in the order of
    their steps: exactly the messages on file for the conversation, each
    as often as it is on file, lowest step first (and as they are on file
    when that is in step order already), with exactly the escalations
    filed for it.  The request answers 404 exactly when no conversation
    has the id. *)
Theorem conversation_details_in_step_order (conversation_id : string) (db : SupportDB) :
  match handle_get_conversation_details get_or_none conversation_id db with
  | Details c listed filed =>
      get_or_none conversation_id = Py.Returns (Some c)
      /\ StronglySorted (fun a b => step_number a <= step_number b) listed
      /\ listed ≡ₚ filter (fun m => conversation m = conv_id c) (messages (chat db))
      /\ (StronglySorted (fun a b => step_number a <= step_number b)
                         (messages (chat db)) ->
          listed = filter (fun m => conversation m = conv_id c) (messages (chat db)))
      /\ (forall e, e ∈ filed <-> e ∈ escalations db /\ esc_conversation e = conv_id c)
  | HTTPException code _ =>
      (code = 404 <-> get_or_none conversation_id = Py.Returns None)
      /\ (code = 500 <-> exists e, get_or_none conversation_id = Py.Raises e)
  end.
Proof.
  unfold handle_get_conversation_details.
  destruct (get_or_none conversation_id) as [[c |] | e].
  - split; [done |]. split; [apply sorted_by_step_sorted |].
    split; [apply sorted_by_step_perm |]. split.
    + intros Hsorted. apply sorted_by_step_fixed.
      by apply filter_sorted.
    + intros x. rewrite list_elem_of_filter. tauto.
  - split; [done |]. split; [done |]. by intros [? ?].
  - split; [split; done |]. split; [eauto | done].
Qed.

End DetailsFurther.
